(** * DDGo: readiness aggregation and rollout monitor

    A shallow embedding of [app/src/app.py] (the [/health/ready] handler and
    the lazily created dependency handles it uses) and of [scripts/deploy.py]
    (the [Deployer] class and [main]), followed by the properties of the
    specification stated and settled over that embedding.

    Python code is effectful and may raise.  Both programs are embedded in
    one state-and-exception monad: a computation takes the program state
    (globals, clock, trace of the effects performed so far) and yields either
    a value or a raised exception, together with the state reached.  What the
    outside world answers (a subprocess, an HTTP probe, the database, the
    cache, the terminal) is read from an oracle indexed by the number of
    external calls made so far, so every behaviour of the environment is a
    value the theorems quantify over. *)

From Stdlib Require Import ZArith List String Ascii Bool Lia.
From Equations Require Import Equations.
From stdpp Require Import base option list gmap strings.

Import ListNotations.
Local Open Scope string_scope.
Local Open Scope Z_scope.

(* ===================================================================== *)
(** * Python values, exceptions and the effect monad                      *)
(* ===================================================================== *)

Module Py.

(** The exception classes the two programs raise, catch or can receive from
    the libraries they call.  [OtherError] stands for any further subclass
    of [Exception] (driver errors of psycopg2 and redis, for instance).
    Classes outside [Exception] (KeyboardInterrupt, SystemExit) are signals
    rather than failures and are not values of this type. *)
Inductive exc_class : Type :=
| Exception
| ValueError
| JSONDecodeError
| TypeError
| AttributeError
| LookupError
| KeyError
| IndexError
| OSError
| FileNotFoundError
| TimeoutError
| URLError
| HTTPError
| SubprocessError
| CalledProcessError
| DeploymentError
| EOFError
| OtherError (name : string).

(** Direct base class, as in the Python class hierarchy. *)
Definition base_class (c : exc_class) : option exc_class :=
  match c with
  | Exception => None
  | JSONDecodeError => Some ValueError
  | KeyError | IndexError => Some LookupError
  | FileNotFoundError | TimeoutError | URLError => Some OSError
  | HTTPError => Some URLError
  | CalledProcessError => Some SubprocessError
  | _ => Some Exception
  end.

Definition exc_class_eqb (c d : exc_class) : bool :=
  match c, d with
  | Exception, Exception | ValueError, ValueError
  | JSONDecodeError, JSONDecodeError | TypeError, TypeError
  | AttributeError, AttributeError | LookupError, LookupError
  | KeyError, KeyError | IndexError, IndexError | OSError, OSError
  | FileNotFoundError, FileNotFoundError | TimeoutError, TimeoutError
  | URLError, URLError | HTTPError, HTTPError
  | SubprocessError, SubprocessError
  | CalledProcessError, CalledProcessError
  | DeploymentError, DeploymentError | EOFError, EOFError => true
  | OtherError a, OtherError b => String.eqb a b
  | _, _ => false
  end.

(** [issubclass c d]: the hierarchy above is at most four levels deep. *)
Fixpoint issubclass_upto (depth : nat) (c d : exc_class) : bool :=
  exc_class_eqb c d ||
  match depth with
  | O => false
  | S k => match base_class c with
           | Some b => issubclass_upto k b d
           | None => false
           end
  end.

Definition issubclass (c d : exc_class) : bool := issubclass_upto 4 c d.

(** An exception instance: its class, its message, and for
    [CalledProcessError] the captured standard error ([e.stderr]). *)
Record exc : Type := mkExc {
  exc_cls : exc_class;
  exc_msg : string;
  exc_stderr : option string
}.

Definition new_exc (c : exc_class) (m : string) : exc := mkExc c m None.

Definition isinstance (e : exc) (c : exc_class) : bool :=
  issubclass (exc_cls e) c.
Arguments isinstance : simpl never.

(** Values produced by [json.loads].  An object keeps its members in
    document order, which is the order Python iterates them in. *)
#[local] Unset Elimination Schemes.
Inductive json : Type :=
| JNull
| JBool (b : bool)
| JNum (n : Z)
| JFloat (literal : string)
| JStr (s : string)
| JArr (items : list json)
| JObj (members : list (string * json)).
#[local] Set Elimination Schemes.

(** Log levels, and the pieces of a formatted log message: literal text and
    the interpolated values of an f-string, kept unrendered. *)
Inductive level : Type := INFO | WARNING | ERROR.

Inductive part : Type :=
| Lit (s : string)
| PInt (n : Z)
| PBool (b : bool)
| PJson (j : json)
| POptStr (o : option string)
| PExc (e : exc).

(** Outcome of a computation: a value, or a raised exception. *)
Inductive result (A : Type) : Type :=
| Ok (a : A)
| Raise (e : exc).
Arguments Ok {A} a.
Arguments Raise {A} e.

(** The state-and-exception monad. *)
Definition M (St A : Type) : Type := St -> result A * St.

Definition ret {St A} (a : A) : M St A := fun s => (Ok a, s).

Definition bind {St A B} (m : M St A) (k : A -> M St B) : M St B :=
  fun s => match m s with
           | (Ok a, s') => k a s'
           | (Raise e, s') => (Raise e, s')
           end.

Definition raise {St A} (e : exc) : M St A := fun s => (Raise e, s).

Definition get {St} : M St St := fun s => (Ok s, s).

Definition modify {St} (f : St -> St) : M St unit := fun s => (Ok tt, f s).

(** Lifting of a pure partial operation ([d[k]], [l[0]], ...). *)
Definition lift {St A} (r : result A) : M St A := fun s => (r, s).

(** [try: m  except C1 as e: h1 e  except C2 as e: h2 e ...]: the first
    clause whose class list matches handles the exception; an exception
    raised by a handler is not offered to the later clauses. *)
Fixpoint find_handler {St A} (e : exc)
  (hs : list (list exc_class * (exc -> M St A))) : option (M St A) :=
  match hs with
  | [] => None
  | (cs, h) :: hs' =>
      if existsb (isinstance e) cs then Some (h e) else find_handler e hs'
  end.

Definition try_except {St A} (m : M St A)
  (hs : list (list exc_class * (exc -> M St A))) : M St A :=
  fun s => match m s with
           | (Ok a, s') => (Ok a, s')
           | (Raise e, s') =>
               match find_handler e hs with
               | Some h => h s'
               | None => (Raise e, s')
               end
           end.

(** [try: m  finally: f]: [f] always runs; if it raises, its exception
    replaces the outcome of [m]. *)
Definition try_finally {St A} (m : M St A) (f : M St unit) : M St A :=
  fun s => match m s with
           | (r, s') =>
               match f s' with
               | (Ok _, s'') => (r, s'')
               | (Raise e, s'') => (Raise e, s'')
               end
           end.

(** A [for] loop whose body may execute [return v] ([Some v]) or fall
    through to the next element ([None]). *)
Fixpoint for_each {St A R} (xs : list A) (body : A -> M St (option R))
  : M St (option R) :=
  match xs with
  | [] => ret None
  | x :: xs' =>
      bind (body x) (fun r =>
        match r with
        | Some v => ret (Some v)
        | None => for_each xs' body
        end)
  end.

(** A [for] loop that threads an accumulator and never returns early. *)
Fixpoint fold_m {St A B} (f : B -> A -> M St B) (xs : list A) (b : B)
  : M St B :=
  match xs with
  | [] => ret b
  | x :: xs' => bind (f b x) (fold_m f xs')
  end.

(** A function frame with a mutable local of type [L] on top of the
    process state [St]. *)
Definition with_local {St L A} (init : L) (m : M (St * L) A) : M St A :=
  fun s => match m (s, init) with
           | (r, (s', _)) => (r, s')
           end.

(** A computation on the process state, run inside such a frame. *)
Definition glob {St L A} (m : M St A) : M (St * L) A :=
  fun sl => match m (fst sl) with
            | (r, s') => (r, (s', snd sl))
            end.

Definition local {St L} : M (St * L) L := fun sl => (Ok (snd sl), sl).

(** [d[k] = v] on the local dict. *)
Definition set_item {St V} (k : string) (v : V)
  : M (St * gmap string V) unit :=
  modify (fun sl => (fst sl, <[k := v]> (snd sl))).

(** [d[k]] on a dict. *)
Definition get_item {St V} (d : gmap string V) (k : string) : M St V :=
  match d !! k with
  | Some v => ret v
  | None => raise (new_exc KeyError k)
  end.

End Py.

Export Py.

Declare Scope py_scope.
Delimit Scope py_scope with py.
Notation "x <- m ;; k" := (bind m (fun x => k))
  (at level 100, m at next level, right associativity) : py_scope.
Notation "m ;;; k" := (bind m (fun _ => k))
  (at level 100, right associativity) : py_scope.
Local Open Scope py_scope.

(** Case analysis on the innermost scrutinee of the goal. *)
Ltac break_match :=
  match goal with
  | |- context [match ?x with _ => _ end] =>
      lazymatch x with
      | context [match _ with _ => _ end] => fail
      | _ => destruct x eqn:?
      end
  end.

(* ===================================================================== *)
(** * app.py: the readiness probe                                         *)
(* ===================================================================== *)

Module App.

(** Handles of the two lazily created module globals. *)
Inductive pool_handle : Type := ThreadedConnectionPool.
Inductive redis_handle : Type := Redis.

(** What the dependencies answer.  Every field is indexed by the number of
    external calls the process has made so far. *)
Record world : Type := mkWorld {
  (* psycopg2.pool.ThreadedConnectionPool(minconn=1, maxconn=10, ...) *)
  connect_pool : nat -> result unit;
  (* pool.getconn() *)
  getconn : nat -> result unit;
  (* conn.cursor(), entering the with block *)
  cursor : nat -> result unit;
  (* cur.execute('SELECT 1') *)
  execute : nat -> result unit;
  (* leaving the with block closes the cursor *)
  close_cursor : nat -> result unit;
  (* pool.putconn(conn) *)
  putconn : nat -> result unit;
  (* redis.Redis(host=..., port=int(...), decode_responses=True) *)
  new_redis : nat -> result unit;
  (* client.ping() *)
  ping : nat -> result bool;
  (* datetime.utcnow().isoformat() *)
  utcnow_iso : nat -> string;
  (* time.time() *)
  time_time : nat -> Z
}.

(** One observation of [REQUEST_COUNT] and [REQUEST_LATENCY]. *)
Record metric : Type := mkMetric {
  m_method : string;
  m_endpoint : string;
  m_status : Z;
  m_latency : Z
}.

(** Process state: the two globals of the module, the number of external
    calls made, the log and the metrics recorded. *)
Record state : Type := mkState {
  db_pool : option pool_handle;
  redis_client : option redis_handle;
  calls : nat;
  log : list (level * list part);
  metrics : list metric
}.

(** Body of the JSON document returned by [/health/ready]. *)
Record report : Type := mkReport {
  status : string;
  checks : gmap string bool;
  timestamp : string
}.

Section Handlers.

Variable W : world.

Definition set_db_pool (p : option pool_handle) (s : state) : state :=
  mkState p (redis_client s) (calls s) (log s) (metrics s).

Definition set_redis_client (r : option redis_handle) (s : state) : state :=
  mkState (db_pool s) r (calls s) (log s) (metrics s).

Definition logger (l : level) (m : list part) : M state unit :=
  modify (fun s =>
    mkState (db_pool s) (redis_client s) (calls s) (log s ++ [(l, m)])
            (metrics s)).

(** One call to a dependency: its answer is read from the oracle at the
    current call index, which then advances. *)
Definition external {A} (op : world -> nat -> result A) : M state A :=
  fun s =>
    (op W (calls s),
     mkState (db_pool s) (redis_client s) (S (calls s)) (log s) (metrics s)).

Definition read_clock {A} (op : world -> nat -> A) : M state A :=
  external (fun w k => Ok (op w k)).

(** [get_db_pool]: the function returns the global, created on first use. *)
Definition get_db_pool : M state (option pool_handle) :=
  s <- get ;;
  match db_pool s with
  | None =>
      try_except
        (external connect_pool ;;;
         modify (set_db_pool (Some ThreadedConnectionPool)) ;;;
         logger INFO [Lit "Database connection pool created"])
        [([Exception], fun e =>
            logger ERROR [Lit "Failed to create database pool: "; PExc e] ;;;
            raise e)]
  | Some _ => ret tt
  end ;;;
  s' <- get ;;
  ret (db_pool s').

(** A method call on the value of one of the two globals. *)
Definition method_of {H A} (object : option H) (name : string)
  (call : M state A) : M state A :=
  match object with
  | Some _ => call
  | None => raise (new_exc AttributeError
                     ("'NoneType' object has no attribute '" ++ name ++ "'"))
  end.

(** [get_redis] *)
Definition get_redis : M state (option redis_handle) :=
  s <- get ;;
  match redis_client s with
  | None =>
      try_except
        (external new_redis ;;;
         modify (set_redis_client (Some Redis)) ;;;
         external ping ;;;
         logger INFO [Lit "Redis connection established"])
        [([Exception], fun e =>
            logger WARNING [Lit "Redis not available: "; PExc e] ;;;
            modify (set_redis_client None))]
  | Some _ => ret tt
  end ;;;
  s' <- get ;;
  ret (redis_client s').

(** [track_metrics]: the decorator applied to the handler. *)
Definition track_metrics {A} (method : string) (endpoint : option string)
  (f : M state (A * Z)) : M state (A * Z) :=
  start_time <- read_clock time_time ;;
  fun s0 =>
    let '(r, s1) := f s0 in
    let status_ := match r with Ok (_, code) => code | Raise _ => 500 end in
    let fin : M state unit :=
      now_ <- read_clock time_time ;;
      modify (fun s =>
        mkState (db_pool s) (redis_client s) (calls s) (log s)
          (metrics s ++
             [mkMetric method (default "unknown" endpoint) status_
                       (now_ - start_time)])) in
    try_finally (lift r) fin s1.

(** The first [try] block of [readiness] ("Check database").  [checks] is
    a local dict that the handler updates in place, so it is a local of the
    frame: an assignment made before an exception is raised stays made. *)
Definition check_database : M (state * gmap string bool) unit :=
  try_except
    (pool <- glob get_db_pool ;;
     conn <- glob (method_of pool "getconn" (external getconn)) ;;
     try_finally
       (cur <- glob (external cursor) ;;
        try_finally (glob (external execute))
                    (glob (external close_cursor)) ;;;
        set_item "database" true)
       (glob (method_of pool "putconn" (external putconn))))
    [([Exception], fun e =>
        glob (logger ERROR
                [Lit "Database health check failed: "; PExc e]))].

(** The second [try] block ("Check Redis (optional - don't fail if
    unavailable)"). *)
Definition check_redis : M (state * gmap string bool) unit :=
  try_except
    (r <- glob get_redis ;;
     match r with
     | None => ret tt
     | Some _ =>
         pong <- glob (external ping) ;;
         if pong then set_item "cache" true else ret tt
     end)
    [([Exception], fun e =>
        glob (logger WARNING [Lit "Redis health check failed: "; PExc e]))].

(** The handler [readiness] before decoration. *)
Definition readiness_body : M state (report * Z) :=
  with_local (<["cache" := false]> (<["database" := false]> ∅)) (
    check_database ;;;
    check_redis ;;;
    (* Determine overall status *)
    checks_ <- local (L := gmap string bool) ;;
    is_ready <- get_item (V := bool) checks_ "database" ;;
    let status_code := if is_ready then 200 else 503 in
    now_ <- glob (read_clock utcnow_iso) ;;
    ret (mkReport (if is_ready then "ready" else "not_ready") checks_ now_,
         status_code)).

(** [readiness] as routed: [@app.route('/health/ready')] over
    [@track_metrics]. *)
Definition readiness (method : string) (endpoint : option string)
  : M state (report * Z) :=
  track_metrics method endpoint readiness_body.

End Handlers.

End App.

(* ===================================================================== *)
(** * deploy.py: the deployment driver                                    *)
(* ===================================================================== *)

Module Deploy.

(** ** String and JSON operations of the Python runtime *)

(** [s.split(sep)] for a one-character separator. *)
Fixpoint split (sep : ascii) (s : string) : list string :=
  match s with
  | EmptyString => [EmptyString]
  | String c r =>
      if Ascii.eqb c sep then EmptyString :: split sep r
      else match split sep r with
           | [] => [String c EmptyString]
           | h :: t => String c h :: t
           end
  end.

Definition is_space (c : ascii) : bool :=
  let n := nat_of_ascii c in
  ((9 <=? n) && (n <=? 13) || (n =? 32))%nat.

Fixpoint lstrip (s : string) : string :=
  match s with
  | EmptyString => EmptyString
  | String c r => if is_space c then lstrip r else s
  end.

Fixpoint rstrip (s : string) : string :=
  match s with
  | EmptyString => EmptyString
  | String c r =>
      let r' := rstrip r in
      if is_space c && String.eqb r' EmptyString then EmptyString
      else String c r'
  end.

(** [s.strip()] *)
Definition strip (s : string) : string := rstrip (lstrip s).

Definition lower_ascii (c : ascii) : ascii :=
  let n := nat_of_ascii c in
  if ((65 <=? n) && (n <=? 90))%nat then ascii_of_nat (n + 32) else c.

(** [s.lower()].  Strings are byte strings here; bytes outside A-Z are kept,
    which agrees with Python on whether the result equals an ASCII
    literal. *)
Fixpoint lower (s : string) : string :=
  match s with
  | EmptyString => EmptyString
  | String c r => String (lower_ascii c) (lower r)
  end.

(** [sep.join(xs)] *)
Definition join (sep : string) (xs : list string) : string :=
  String.concat sep xs.

(** [sep.join(cmd)] on a list of arbitrary values: every element has to be
    a [str]. *)
Fixpoint join_args (cmd : list json) : result (list string) :=
  match cmd with
  | [] => Ok []
  | JStr a :: rest =>
      match join_args rest with
      | Ok l => Ok (a :: l)
      | Raise e => Raise e
      end
  | _ :: _ =>
      Raise (new_exc TypeError "sequence item: expected str instance")
  end.

(** [d.get(k, dflt)] on a dict given by its items. *)
Fixpoint dict_get (d : list (string * json)) (k : string) (dflt : json)
  : json :=
  match d with
  | [] => dflt
  | (k', v) :: d' => if String.eqb k' k then v else dict_get d' k dflt
  end.

Fixpoint dict_lookup (d : list (string * json)) (k : string)
  : option json :=
  match d with
  | [] => None
  | (k', v) :: d' => if String.eqb k' k then Some v else dict_lookup d' k
  end.

(** [d[k] = v] on a dict: an existing key keeps its position. *)
Fixpoint dict_set (d : list (string * json)) (k : string) (v : json)
  : list (string * json) :=
  match d with
  | [] => [(k, v)]
  | (k', v') :: d' =>
      if String.eqb k' k then (k', v) :: d' else (k', v') :: dict_set d' k v
  end.

(** [j[k]] for a string key [k]. *)
Definition getitem (j : json) (k : string) : result json :=
  match j with
  | JObj d =>
      match dict_lookup d k with
      | Some v => Ok v
      | None => Raise (new_exc KeyError k)
      end
  | _ => Raise (new_exc TypeError "indices must be integers or not subscriptable")
  end.

(** [j[0]] *)
Definition getfirst (j : json) : result json :=
  match j with
  | JArr (x :: _) => Ok x
  | JArr [] => Raise (new_exc IndexError "list index out of range")
  | JStr (String c _) => Ok (JStr (String c EmptyString))
  | JStr EmptyString => Raise (new_exc IndexError "string index out of range")
  | JObj _ => Raise (new_exc KeyError "0")
  | _ => Raise (new_exc TypeError "object is not subscriptable")
  end.

(** [len(j)] *)
Definition len (j : json) : result Z :=
  match j with
  | JArr l => Ok (Z.of_nat (length l))
  | JStr s => Ok (Z.of_nat (String.length s))
  | JObj d => Ok (Z.of_nat (length d))
  | _ => Raise (new_exc TypeError "object has no len()")
  end.

(** [j.get(k, dflt)] *)
Definition get_default (j : json) (k : string) (dflt : json) : result json :=
  match j with
  | JObj d => Ok (dict_get d k dflt)
  | _ => Raise (new_exc AttributeError "object has no attribute 'get'")
  end.

(** [j.items()] *)
Definition items (j : json) : result (list (string * json)) :=
  match j with
  | JObj d => Ok d
  | _ => Raise (new_exc AttributeError "object has no attribute 'items'")
  end.

(** [j == 'literal'] *)
Definition eq_str (j : json) (lit : string) : bool :=
  match j with
  | JStr s => String.eqb s lit
  | _ => false
  end.

(** [j.split(sep)[0]] *)
Definition split_first (j : json) (sep : ascii) : result string :=
  match j with
  | JStr s => match split sep s with
              | h :: _ => Ok h
              | [] => Raise (new_exc IndexError "list index out of range")
              end
  | _ => Raise (new_exc AttributeError "object has no attribute 'split'")
  end.

(** ** Effects, oracle and state *)

(** A directory below [PROJECT_ROOT], by its components. *)
Definition path : Type := list string.

Definition PROJECT_ROOT : path := [].

(** The effects the script performs on the outside world, in order. *)
Inductive event : Type :=
| EvLog (l : level) (m : list part)
| EvRun (argv : list string) (cwd : option path) (input : option string)
| EvUrlopen (url : string) (timeout : Z)
| EvSleep (seconds : Z)
| EvInput (prompt : string).

(** How a child process ends: it cannot be started, or it exits. *)
Inductive proc_outcome : Type :=
| SpawnFails (e : exc)
| Exits (code : Z) (out err : string).

(** How [urlopen] ends: a response whose status the opener accepts, or an
    exception. *)
Inductive http_outcome : Type :=
| Responds (status : Z)
| Fails (e : exc).

(** The oracle.  Calls to the outside are indexed by the number of calls
    made before; each answer comes with the time the call took.  The last
    four fields are the library functions used on values. *)
Record world : Type := mkWorld {
  run_process : nat -> list string -> N * proc_outcome;
  open_url : nat -> string -> N * http_outcome;
  read_line : nat -> N * option string;
  json_loads : string -> option json;
  json_dumps : json -> string;
  py_repr : json -> string;
  strftime : Z -> string
}.

(** The clock, the number of external calls made, the effects so far. *)
Record state : Type := mkState {
  now : Z;
  calls : nat;
  trace : list event
}.

(** [subprocess.CompletedProcess] *)
Record CompletedProcess : Type := mkCompleted {
  cp_args : list string;
  cp_returncode : Z;
  cp_stdout : option string;
  cp_stderr : option string
}.

(** A [Deployer] instance. *)
Record Deployer : Type := mkDeployer {
  environment : string;
  dry_run : bool;
  start_time : Z
}.

Definition VALID_ENVIRONMENTS : list string := ["dev"; "staging"; "prod"].

(** Parsed command line ([argparse.Namespace]). *)
Record arguments : Type := mkArguments {
  arg_environment : string;
  arg_dry_run : bool;
  arg_skip_build : bool;
  arg_skip_terraform : bool;
  arg_verbose : bool
}.

Section Script.

Variable W : world.

Definition emit (e : event) : M state unit :=
  modify (fun s => mkState (now s) (calls s) (trace s ++ [e])).

Definition logger (l : level) (m : list part) : M state unit :=
  emit (EvLog l m).

(** [time.time()] and [datetime.utcnow()] read the same clock. *)
Definition time_time : M state Z := fun s => (Ok (now s), s).

Definition utcnow : M state Z := time_time.

(** One external call: the effect is recorded, the clock advances by the
    time the call took and the call index by one. *)
Definition external {A} (e : event) (answer : nat -> N * A) : M state A :=
  fun s =>
    let '(d, a) := answer (calls s) in
    (Ok a, mkState (now s + Z.of_N d) (S (calls s)) (trace s ++ [e])).

(** [time.sleep(seconds)] *)
Definition sleep (seconds : Z) : M state unit :=
  modify (fun s => mkState (now s + seconds) (calls s)
                           (trace s ++ [EvSleep seconds])).

(** [subprocess.run(argv, cwd=cwd, capture_output=capture, input=input,
    check=True)]: every call of the script passes [check=True]. *)
Definition subprocess_run (argv : list string) (cwd : option path)
  (capture : bool) (input : option string) : M state CompletedProcess :=
  o <- external (EvRun argv cwd input) (fun k => run_process W k argv) ;;
  match o with
  | SpawnFails e => raise e
  | Exits code out err =>
      let captured (t : string) := if capture then Some t else None in
      if code =? 0
      then ret (mkCompleted argv code (captured out) (captured err))
      else raise (mkExc CalledProcessError "non-zero exit status"
                        (captured err))
  end.

(** [urllib.request.urlopen(url, timeout=timeout)], giving the status of
    the response. *)
Definition urlopen (url : string) (timeout : Z) : M state Z :=
  o <- external (EvUrlopen url timeout) (fun k => open_url W k url) ;;
  match o with
  | Responds st => ret st
  | Fails e => raise e
  end.

(** [input(prompt)] *)
Definition input (prompt : string) : M state string :=
  o <- external (EvInput prompt) (read_line W) ;;
  match o with
  | Some line => ret line
  | None => raise (new_exc EOFError "EOF when reading a line")
  end.

(** [json.loads(text)] on the captured output of a process. *)
Definition loads (text : option string) : result json :=
  match text with
  | None => Raise (new_exc TypeError "the JSON object must be str, not NoneType")
  | Some t =>
      match json_loads W t with
      | Some j => Ok j
      | None => Raise (new_exc JSONDecodeError "Expecting value")
      end
  end.

(** [str(j)], as an f-string renders a value. *)
Definition py_str (j : json) : string :=
  match j with
  | JStr s => s
  | _ => py_repr W j
  end.

(** [Deployer.__init__] *)
Definition Deployer_init (environment_ : string) (dry_run_ : bool)
  : M state Deployer :=
  if negb (existsb (String.eqb environment_) VALID_ENVIRONMENTS)
  then raise (new_exc ValueError ("Invalid environment: " ++ environment_))
  else
    t <- utcnow ;;
    ret (mkDeployer environment_ dry_run_ t).

(** [Deployer.run_command] *)
Definition run_command (self : Deployer) (cmd : list json)
  (cwd : option path) (capture : bool) : M state CompletedProcess :=
  argv <- lift (join_args cmd) ;;
  logger INFO [Lit "Running: "; Lit (join " " argv)] ;;;
  if dry_run self then
    logger INFO [Lit "[DRY RUN] Command would be executed"] ;;;
    ret (mkCompleted argv 0 (Some "") (Some ""))
  else
    try_except
      (subprocess_run argv (Some (default PROJECT_ROOT cwd)) capture None)
      [([CalledProcessError], fun e =>
          logger ERROR [Lit "Command failed: "; POptStr (exc_stderr e)] ;;;
          raise (new_exc DeploymentError
                         ("Command failed: " ++ join " " argv)))].

(** [Deployer.check_prerequisites] *)
Definition check_prerequisites (self : Deployer) : M state bool :=
  logger INFO [Lit "Checking prerequisites..."] ;;;
  missing <-
    fold_m (fun (missing : list string) (tool : string) =>
              try_except
                (subprocess_run [tool; "--version"] None true None ;;;
                 ret missing)
                [([CalledProcessError; FileNotFoundError], fun _ =>
                    ret (missing ++ [tool])%list)])
           ["docker"; "aws"; "terraform"] [] ;;
  match missing with
  | _ :: _ =>
      logger ERROR [Lit "Missing required tools: "; Lit (join ", " missing)] ;;;
      ret false
  | [] =>
      (* Check AWS credentials *)
      failed <-
        try_except
          (result_ <- subprocess_run ["aws"; "sts"; "get-caller-identity"]
                                     None true None ;;
           identity <- lift (loads (cp_stdout result_)) ;;
           account <- lift (getitem identity "Account") ;;
           logger INFO [Lit "AWS Account: "; PJson account] ;;;
           ret false)
          [([CalledProcessError; JSONDecodeError], fun _ =>
              logger ERROR [Lit "AWS credentials not configured or invalid"] ;;;
              ret true)] ;;
      if (failed : bool) then ret false
      else
        logger INFO [Lit "All prerequisites met"] ;;;
        ret true
  end.

(** [Deployer.build_image] *)
Definition build_image (self : Deployer) (tag : string) : M state string :=
  logger INFO [Lit "Building Docker image with tag: "; Lit tag] ;;;
  let image_name := "ddgo-api:" ++ tag in
  let cmd := [JStr "docker"; JStr "build";
              JStr "-f"; JStr "docker/Dockerfile";
              JStr "-t"; JStr image_name;
              JStr "--target"; JStr "production";
              JStr "."] in
  run_command self cmd None false ;;;
  logger INFO [Lit "Image built: "; Lit image_name] ;;;
  ret image_name.

(** [Deployer.push_to_ecr] *)
Definition push_to_ecr (self : Deployer) (image_name : string)
  (ecr_repo : json) : M state string :=
  logger INFO [Lit "Pushing "; Lit image_name; Lit " to ECR..."] ;;;
  (* Get ECR login *)
  result_ <- run_command self
               [JStr "aws"; JStr "ecr"; JStr "get-login-password";
                JStr "--region"; JStr "us-east-1"]
               None true ;;
  (if negb (dry_run self) then
     (* Login to ECR *)
     registry <- lift (split_first ecr_repo "/") ;;
     let login_cmd := ["docker"; "login"; "--username"; "AWS";
                       "--password-stdin"; registry] in
     subprocess_run login_cmd None false (cp_stdout result_) ;;;
     ret tt
   else ret tt) ;;;
  (* Tag image *)
  tag <- lift (match split ":" image_name with
               | _ :: t :: _ => Ok t
               | _ => Raise (new_exc IndexError "list index out of range")
               end) ;;
  let ecr_image := py_str ecr_repo ++ ":" ++ tag in
  run_command self [JStr "docker"; JStr "tag"; JStr image_name; JStr ecr_image]
              None false ;;;
  (* Push image *)
  run_command self [JStr "docker"; JStr "push"; JStr ecr_image] None false ;;;
  logger INFO [Lit "Image pushed: "; Lit ecr_image] ;;;
  ret ecr_image.

(** [{k: v['value'] for k, v in outputs.items()}] *)
Fixpoint output_values (kvs : list (string * json))
  : result (list (string * json)) :=
  match kvs with
  | [] => Ok []
  | (k, v) :: rest =>
      match getitem v "value" with
      | Raise e => Raise e
      | Ok x =>
          match output_values rest with
          | Raise e => Raise e
          | Ok d => Ok ((k, x) :: d)
          end
      end
  end.

(** [Deployer.deploy_terraform] *)
Definition deploy_terraform (self : Deployer)
  : M state (list (string * json)) :=
  logger INFO [Lit "Deploying Terraform for "; Lit (environment self);
               Lit "..."] ;;;
  let tf_dir : path := ["terraform"; "environments"; environment self] in
  (* Initialize *)
  run_command self [JStr "terraform"; JStr "init"] (Some tf_dir) false ;;;
  (* Plan *)
  run_command self [JStr "terraform"; JStr "plan"; JStr "-out=tfplan"]
              (Some tf_dir) false ;;;
  (* Apply *)
  run_command self [JStr "terraform"; JStr "apply"; JStr "-auto-approve";
                    JStr "tfplan"]
              (Some tf_dir) false ;;;
  (* Get outputs *)
  result_ <- run_command self [JStr "terraform"; JStr "output"; JStr "-json"]
                         (Some tf_dir) true ;;
  if negb (dry_run self) then
    outputs <- lift (loads (cp_stdout result_)) ;;
    kvs <- lift (items outputs) ;;
    lift (output_values kvs)
  else ret [].

(** The loop of [update_ecs_service] over the container definitions: a
    container named ['app'] gets the new image, in place. *)
Fixpoint set_app_image (image : string) (containers : list json)
  : result (list json) :=
  match containers with
  | [] => Ok []
  | c :: rest =>
      match getitem c "name" with
      | Raise e => Raise e
      | Ok name =>
          let c' := match c with
                    | JObj d => if eq_str name "app"
                                then JObj (dict_set d "image" (JStr image))
                                else c
                    | _ => c
                    end in
          match set_app_image image rest with
          | Raise e => Raise e
          | Ok rest' => Ok (c' :: rest')
          end
      end
  end.

(** [for container in defs: ...] on whatever value [defs] is: a list is
    walked, an empty string or dict gives no iteration, any of their
    elements is a [str] and cannot be indexed by ['name']. *)
Definition update_containers (image : string) (defs : json) : result json :=
  match defs with
  | JArr l =>
      match set_app_image image l with
      | Ok l' => Ok (JArr l')
      | Raise e => Raise e
      end
  | JStr EmptyString | JObj [] => Ok defs
  | JStr _ | JObj _ =>
      Raise (new_exc TypeError "string indices must be integers")
  | _ => Raise (new_exc TypeError "object is not iterable")
  end.

(** [Deployer.update_ecs_service] *)
Definition update_ecs_service (self : Deployer) (cluster service : json)
  (image : string) : M state unit :=
  logger INFO [Lit "Updating ECS service "; PJson service;
               Lit " in cluster "; PJson cluster; Lit "..."] ;;;
  (* Get current task definition *)
  result_ <- run_command self
               [JStr "aws"; JStr "ecs"; JStr "describe-services";
                JStr "--cluster"; cluster;
                JStr "--services"; service;
                JStr "--query"; JStr "services[0].taskDefinition";
                JStr "--output"; JStr "text"]
               None true ;;
  if dry_run self then
    logger INFO [Lit "[DRY RUN] Would update task definition and service"]
  else
    current_task_def <-
      lift (match cp_stdout result_ with
            | Some out => Ok (strip out)
            | None => Raise (new_exc AttributeError
                               "'NoneType' object has no attribute 'strip'")
            end) ;;
    logger INFO [Lit "Current task definition: "; Lit current_task_def] ;;;
    (* Get task definition details *)
    result_ <- run_command self
                 [JStr "aws"; JStr "ecs"; JStr "describe-task-definition";
                  JStr "--task-definition"; JStr current_task_def]
                 None true ;;
    doc <- lift (loads (cp_stdout result_)) ;;
    task_def <- lift (getitem doc "taskDefinition") ;;
    (* Update container image *)
    defs <- lift (getitem task_def "containerDefinitions") ;;
    defs' <- lift (update_containers image defs) ;;
    (* Register new task definition *)
    family <- lift (getitem task_def "family") ;;
    executionRoleArn <- lift (getitem task_def "executionRoleArn") ;;
    taskRoleArn <- lift (get_default task_def "taskRoleArn" (JStr "")) ;;
    networkMode <- lift (getitem task_def "networkMode") ;;
    requiresCompatibilities <-
      lift (getitem task_def "requiresCompatibilities") ;;
    cpu <- lift (getitem task_def "cpu") ;;
    memory <- lift (getitem task_def "memory") ;;
    let new_task_def :=
      JObj [("family", family);
            ("containerDefinitions", defs');
            ("executionRoleArn", executionRoleArn);
            ("taskRoleArn", taskRoleArn);
            ("networkMode", networkMode);
            ("requiresCompatibilities", requiresCompatibilities);
            ("cpu", cpu);
            ("memory", memory)] in
    result_ <- run_command self
                 [JStr "aws"; JStr "ecs"; JStr "register-task-definition";
                  JStr "--cli-input-json"; JStr (json_dumps W new_task_def)]
                 None true ;;
    doc <- lift (loads (cp_stdout result_)) ;;
    registered <- lift (getitem doc "taskDefinition") ;;
    new_task_def_arn <- lift (getitem registered "taskDefinitionArn") ;;
    logger INFO [Lit "New task definition: "; PJson new_task_def_arn] ;;;
    (* Update service *)
    run_command self
      [JStr "aws"; JStr "ecs"; JStr "update-service";
       JStr "--cluster"; cluster;
       JStr "--service"; service;
       JStr "--task-definition"; new_task_def_arn]
      None false ;;;
    logger INFO [Lit "ECS service update initiated"].

(** One pass through the body of the [while] loop of
    [wait_for_deployment]: [Some b] when the body executes [return b],
    [None] when it reaches the end of the body. *)
Definition poll_once (self : Deployer) (cluster service : json)
  : M state (option bool) :=
  result_ <- run_command self
               [JStr "aws"; JStr "ecs"; JStr "describe-services";
                JStr "--cluster"; cluster;
                JStr "--services"; service]
               None true ;;
  doc <- lift (loads (cp_stdout result_)) ;;
  services <- lift (getitem doc "services") ;;
  service_info <- lift (getfirst services) ;;
  deployments <- lift (getitem service_info "deployments") ;;
  n <- lift (len deployments) ;;
  completed <-
    (if n =? 1 then
       first <- lift (getfirst deployments) ;;
       rollout <- lift (getitem first "rolloutState") ;;
       ret (eq_str rollout "COMPLETED")
     else ret false) ;;
  if (completed : bool) then
    logger INFO [Lit "Deployment completed successfully"] ;;;
    ret (Some true)
  else
    first <- lift (getfirst deployments) ;;
    running <- lift (get_default first "runningCount" (JNum 0)) ;;
    desired <- lift (get_default first "desiredCount" (JNum 0)) ;;
    logger INFO [Lit "Deployment in progress: "; PJson running; Lit "/";
                 PJson desired; Lit " tasks running"] ;;;
    sleep 15 ;;;
    ret None.

(** The [while time.time() - start < timeout] loop.  It terminates because
    the clock never runs backwards and every pass that reaches the end of
    the body has slept. *)
Equations? wait_loop (self : Deployer) (cluster service : json)
  (start timeout : Z) (s : state) : result bool * state
  by wf (Z.to_nat (start + timeout - now s)) lt :=
wait_loop self cluster service start timeout s
  with Logic.inspect (now s - start <? timeout) := {
  | exist _ true Hlt with Logic.inspect (poll_once self cluster service s) := {
      | exist _ (Ok None, s') Hpoll =>
          wait_loop self cluster service start timeout s'
      | exist _ (Ok (Some b), s') Hpoll => (Ok b, s')
      | exist _ (Raise e, s') Hpoll => (Raise e, s') }
  | exist _ false Hge =>
      (logger ERROR [Lit "Deployment timed out"] ;;; ret false) s }.
Proof.
  apply Z.ltb_lt in Hlt.
  enough (now s + 15 <= now s') by lia.
  revert Hpoll. unfold poll_once, bind at 1.
  destruct (run_command self _ None true s) as [[cp|e] s1] eqn:Hrun;
    [|discriminate].
  assert (Hmono : now s <= now s1).
  { revert Hrun.
    unfold run_command, try_except, subprocess_run, external, logger, emit,
      bind, lift, modify, raise, ret.
    repeat (cbn; break_match);
      cbn; try discriminate; intros Heq; inversion Heq; subst; cbn; lia. }
  unfold logger, emit, sleep, bind, lift, modify, ret.
  repeat (cbn; break_match);
    cbn; try discriminate; intros Heq; inversion Heq; subst; cbn; lia.
Defined.

(** [Deployer.wait_for_deployment] *)
Definition wait_for_deployment (self : Deployer) (cluster service : json)
  (timeout : Z) : M state bool :=
  logger INFO [Lit "Waiting for deployment to complete (timeout: ";
               PInt timeout; Lit "s)..."] ;;;
  if dry_run self then
    logger INFO [Lit "[DRY RUN] Would wait for deployment"] ;;;
    ret true
  else
    start <- time_time ;;
    wait_loop self cluster service start timeout.

(** One pass through the body of the [for attempt in range(5)] loop of
    [verify_deployment]. *)
Definition probe_once (health_url : string) (attempt : nat)
  : M state (option bool) :=
  try_except
    (status_ <- urlopen health_url 10 ;;
     if status_ =? 200 then
       logger INFO [Lit "Health check passed"] ;;;
       ret (Some true)
     else ret None)
    [([URLError], fun e =>
        logger WARNING [Lit "Health check failed (attempt ";
                        PInt (Z.of_nat attempt + 1); Lit "): "; PExc e] ;;;
        sleep 10 ;;;
        ret None)].

(** [Deployer.verify_deployment] *)
Definition verify_deployment (self : Deployer) (url : string)
  : M state bool :=
  logger INFO [Lit "Verifying deployment at "; Lit url; Lit "..."] ;;;
  if dry_run self then
    logger INFO [Lit "[DRY RUN] Would verify deployment"] ;;;
    ret true
  else
    let health_url := url ++ "/health" in
    r <- for_each (seq 0 5) (probe_once health_url) ;;
    match r with
    | Some b => ret b
    | None =>
        logger ERROR [Lit "Health check failed after 5 attempts"] ;;;
        ret false
    end.

(** The [try] block of [deploy]. *)
Definition deploy_steps (self : Deployer) (skip_build skip_terraform : bool)
  : M state bool :=
  (* Check prerequisites *)
  ready <- check_prerequisites self ;;
  if negb ready then ret false
  else
    (* Deploy infrastructure if needed *)
    outputs <- (if negb skip_terraform then deploy_terraform self
                else ret []) ;;
    (* Build and push image *)
    ecr_image <-
      (if negb skip_build then
         t <- utcnow ;;
         let tag := strftime W t in
         image <- build_image self tag ;;
         let ecr_repo := dict_get outputs "ecr_repository" (JStr "ddgo-api") in
         push_to_ecr self image ecr_repo
       else ret "nginx:alpine") ;;
    (* Update ECS service *)
    let cluster :=
      dict_get outputs "ecs_cluster_name"
               (JStr ("ddgo-" ++ environment self)) in
    let service :=
      dict_get outputs "ecs_service_name"
               (JStr ("ddgo-" ++ environment self ++ "-app")) in
    update_ecs_service self cluster service ecr_image ;;;
    (* Wait for deployment *)
    completed <- wait_for_deployment self cluster service 600 ;;
    if negb completed
    then raise (new_exc DeploymentError "Deployment failed to complete")
    else
      (* Verify deployment *)
      let alb_dns := dict_get outputs "alb_dns_name" (JStr "localhost") in
      healthy <- verify_deployment self ("http://" ++ py_str alb_dns) ;;
      if negb healthy
      then raise (new_exc DeploymentError "Deployment verification failed")
      else
        t <- utcnow ;;
        let duration := t - start_time self in
        logger INFO [Lit "Deployment completed successfully in ";
                     PInt duration; Lit "s"] ;;;
        ret true.

(** [Deployer.deploy] *)
Definition deploy (self : Deployer) (skip_build skip_terraform : bool)
  : M state bool :=
  logger INFO [Lit "Starting deployment to "; Lit (environment self)] ;;;
  logger INFO [Lit "Dry run: "; PBool (dry_run self)] ;;;
  try_except (deploy_steps self skip_build skip_terraform)
    [([DeploymentError], fun e =>
        logger ERROR [Lit "Deployment failed: "; PExc e] ;;;
        ret false);
     ([Exception], fun e =>
        logger ERROR [Lit "Unexpected error: "; PExc e] ;;;
        ret false)].

(** [main], after [parser.parse_args()].  The value returned is the exit
    status passed to [sys.exit]; an exception that [main] lets through ends
    the process with a traceback.  The [--verbose] flag only lowers the
    threshold of the logger, and no message of the script is below INFO. *)
Definition main (args : arguments) : M state Z :=
  (* Confirm production deployments *)
  cancelled <-
    (if String.eqb (arg_environment args) "prod" && negb (arg_dry_run args)
     then
       response <- input "You are about to deploy to PRODUCTION. Continue? [y/N] " ;;
       if negb (String.eqb (lower response) "y") then
         logger INFO [Lit "Deployment cancelled"] ;;;
         ret true
       else ret false
     else ret false) ;;
  if (cancelled : bool) then ret 0
  else
    deployer <- Deployer_init (arg_environment args) (arg_dry_run args) ;;
    success <- deploy deployer (arg_skip_build args)
                      (arg_skip_terraform args) ;;
    ret (if (success : bool) then 0 else 1).

End Script.

End Deploy.

(* ===================================================================== *)
(** * app.py: the search endpoint                                         *)
(* ===================================================================== *)

Module Search.

Import App.

(** What the cache answers to the search handler, and the library
    functions the handler applies to values.  [eval_cached] is
    [eval(cached)] as [jsonify] renders its value, or the exception either
    of the two raises; the evaluation is taken to have no other effect on
    the process. *)
Record cache : Type := mkCache {
  (* r.get(key): None when the key is absent *)
  cache_get : nat -> string -> result (option string);
  (* r.setex(key, ttl, value) *)
  cache_setex : nat -> string -> Z -> string -> result unit;
  (* eval(cached) *)
  eval_cached : nat -> string -> result json;
  (* str(v) and repr(v) of a value that is not a str *)
  str_of : json -> string;
  (* bool(x) of the float with this literal *)
  float_nonzero : string -> bool
}.

Section Handler.

Variable W : world.
Variable X : cache.

(** [bool(j)] *)
Definition truthy (j : json) : bool :=
  match j with
  | JNull => false
  | JBool b => b
  | JNum n => negb (n =? 0)
  | JFloat lit => float_nonzero X lit
  | JStr s => negb (String.eqb s EmptyString)
  | JArr l => match l with [] => false | _ :: _ => true end
  | JObj d => match d with [] => false | _ :: _ => true end
  end.

(** [f"{j}"] *)
Definition format (j : json) : string :=
  match j with
  | JStr s => s
  | _ => str_of X j
  end.

(** One call to the cache. *)
Definition cache_call {A} (answer : nat -> result A) : M state A :=
  fun s =>
    (answer (calls s),
     mkState (db_pool s) (redis_client s) (S (calls s)) (log s) (metrics s)).

(** The simulated search results. *)
Definition simulated_results (query : json) : json :=
  JArr [JObj [("id", JNum 1);
              ("title", JStr ("Result for " ++ format query));
              ("score", JFloat "0.95")];
        JObj [("id", JNum 2);
              ("title", JStr ("Another result for " ++ format query));
              ("score", JFloat "0.87")]].

(** The handler [search] before decoration; [request_json] is what
    [request.get_json()] gives, [JNull] standing for [None].  A response
    returned without a status is one with status 200. *)
Definition search_body (request_json : result json) : M state (json * Z) :=
  body <- lift request_json ;;
  let data := if truthy body then body else JObj [] in
  query <- lift (Deploy.get_default data "query" (JStr "")) ;;
  if negb (truthy query) then
    ret (JObj [("error", JStr "Query parameter required")], 400)
  else
    (* Check cache first *)
    let cache_key := "search:" ++ format query in
    r <- get_redis W ;;
    hit <-
      match r with
      | None => ret None
      | Some _ =>
          try_except
            (cached <- cache_call (fun k => cache_get X k cache_key) ;;
             match cached with
             | Some text =>
                 if negb (String.eqb text EmptyString) then
                   logger INFO [Lit "Cache hit for query: "; PJson query] ;;;
                   results <- cache_call (fun k => eval_cached X k text) ;;
                   ret (Some (JObj [("query", query);
                                    ("results", results);
                                    ("cached", JBool true)], 200))
                 else ret None
             | None => ret None
             end)
            [([Exception], fun e =>
                logger WARNING [Lit "Cache read failed: "; PExc e] ;;;
                ret None)]
      end ;;
    match hit with
    | Some response => ret response
    | None =>
        (* Simulate search results *)
        let results := simulated_results query in
        (* Cache results *)
        match r with
        | None => ret tt
        | Some _ =>
            try_except
              (cache_call (fun k => cache_setex X k cache_key 300
                                                (str_of X results)))
              [([Exception], fun e =>
                  logger WARNING [Lit "Cache write failed: "; PExc e])]
        end ;;;
        ret (JObj [("query", query);
                   ("results", results);
                   ("cached", JBool false)], 200)
    end.

(** [search] as routed: [@app.route('/api/v1/search', methods=['POST'])]
    over [@track_metrics]. *)
Definition search (endpoint : option string) (request_json : result json)
  : M state (json * Z) :=
  track_metrics W "POST" endpoint (search_body request_json).

End Handler.

End Search.

(* ===================================================================== *)
(** * Readiness probe: what the properties are stated with                *)
(* ===================================================================== *)

Module AppSpec.

Import App.

Definition is_ok {A} (r : result A) : bool :=
  match r with
  | Ok _ => true
  | Raise _ => false
  end.

Definition is_true (r : result bool) : bool :=
  match r with
  | Ok b => b
  | Raise _ => false
  end.

(** What the database block of [readiness] amounts to when it starts with
    the global [db_pool = p] at call index [k]: the boolean left in
    [checks['database']], the global afterwards, the next call index.  The
    pool is created when missing; then come [getconn], [cursor], [execute],
    the closing of the cursor and [putconn]. *)
Definition db_summary (W : world) (p : option pool_handle) (k : nat)
  : bool * option pool_handle * nat :=
  let '(p1, k1) :=
    match p with
    | Some h => (Some h, k)
    | None => (if is_ok (connect_pool W k) then Some ThreadedConnectionPool
               else None, S k)
    end in
  match p1 with
  | None => (false, None, k1)
  | Some _ =>
      if is_ok (getconn W k1) then
        if is_ok (cursor W (1 + k1)) then
          (is_ok (execute W (2 + k1)) && is_ok (close_cursor W (3 + k1)),
           p1, 5 + k1)%nat
        else (false, p1, 3 + k1)%nat
      else (false, p1, 1 + k1)%nat
  end.

(** The same for the Redis block and [checks['cache']]. *)
Definition cache_summary (W : world) (r : option redis_handle) (k : nat)
  : bool * option redis_handle * nat :=
  match r with
  | Some h => (is_true (ping W k), Some h, S k)
  | None =>
      if is_ok (new_redis W k) then
        if is_ok (ping W (1 + k)) then
          (is_true (ping W (2 + k)), Some Redis, 3 + k)%nat
        else (false, None, 2 + k)%nat
      else (false, None, 1 + k)%nat
  end.

Definition initial_checks : gmap string bool :=
  <["cache" := false]> (<["database" := false]> ∅).

(** The [checks] dict once both blocks have run. *)
Definition recorded_checks (db cache : bool) : gmap string bool :=
  let l := if db then <["database" := true]> initial_checks
           else initial_checks in
  if cache then <["cache" := true]> l else l.

(** Outcome of the required check and of the best-effort check of the
    evaluation that starts in state [s]; the decorator reads the clock
    once before the handler runs. *)
Definition database_check (W : world) (s : state) : bool :=
  (db_summary W (db_pool s) (S (calls s))).1.1.

Definition cache_check (W : world) (s : state) : bool :=
  (cache_summary W (redis_client s)
                 (db_summary W (db_pool s) (S (calls s))).2).1.1.

(** A process that has not served a request yet. *)
Definition fresh : state := mkState None None 0 [] [].

(** Dependencies that always answer the same way: the database query
    succeeds iff [db], the cache answers the ping iff [cache]. *)
Definition world_with (db cache : bool) : world :=
  mkWorld (fun _ => Ok tt) (fun _ => Ok tt) (fun _ => Ok tt)
    (fun _ => if db then Ok tt
              else Raise (new_exc (OtherError "OperationalError")
                                  "connection refused"))
    (fun _ => Ok tt) (fun _ => Ok tt) (fun _ => Ok tt)
    (fun _ => if cache then Ok true
              else Raise (new_exc (OtherError "ConnectionError")
                                  "connection refused"))
    (fun _ => "2024-01-01T00:00:00") (fun k => Z.of_nat k).

(** The dependencies [W] with another cache behind them. *)
Definition with_cache (W : world) (new_redis' : nat -> result unit)
  (ping' : nat -> result bool) : world :=
  mkWorld (connect_pool W) (getconn W) (cursor W) (execute W)
          (close_cursor W) (putconn W) new_redis' ping'
          (utcnow_iso W) (time_time W).

Definition connection_lost : exc :=
  new_exc (OtherError "OperationalError")
          "server closed the connection unexpectedly".

(** A database that answers the probe query and then drops the
    connection, so that returning the connection to the pool fails. *)
Definition world_putconn_fails : world :=
  mkWorld (fun _ => Ok tt) (fun _ => Ok tt) (fun _ => Ok tt) (fun _ => Ok tt)
    (fun _ => Ok tt) (fun _ => Raise connection_lost)
    (fun _ => Ok tt) (fun _ => Ok true)
    (fun _ => "2024-01-01T00:00:00") (fun k => Z.of_nat k).

(** Unchanged dependency responses: every dependency operation answers the
    same whenever it is called.  The clocks are free to move. *)
Record steady (W : world) : Prop := mkSteady {
  steady_connect : forall k, connect_pool W k = connect_pool W 0;
  steady_getconn : forall k, getconn W k = getconn W 0;
  steady_cursor : forall k, cursor W k = cursor W 0;
  steady_execute : forall k, execute W k = execute W 0;
  steady_close : forall k, close_cursor W k = close_cursor W 0;
  steady_putconn : forall k, putconn W k = putconn W 0;
  steady_new_redis : forall k, new_redis W k = new_redis W 0;
  steady_ping : forall k, ping W k = ping W 0
}.

(** The content of a response apart from its timestamp. *)
Definition content (r : result (report * Z))
  : option (string * gmap string bool * Z) :=
  match r with
  | Ok (rep, code) => Some (status rep, checks rep, code)
  | Raise _ => None
  end.

(** [n] successive evaluations of the probe, each starting in the state
    the previous one left. *)
Fixpoint evaluations (W : world) (method : string) (endpoint : option string)
  (n : nat) (s : state) : list (result (report * Z)) :=
  match n with
  | O => []
  | S n' =>
      let '(r, s') := readiness W method endpoint s in
      r :: evaluations W method endpoint n' s'
  end.

Definition expected_content (W : world) (s : state)
  : option (string * gmap string bool * Z) :=
  let db := database_check W s in
  Some (if db then "ready" else "not_ready",
        recorded_checks db (cache_check W s),
        if db then 200 else 503).

End AppSpec.

(* ===================================================================== *)
(** * Deployment driver: what the properties are stated with              *)
(* ===================================================================== *)

Module DeploySpec.

Import Deploy.

Local Open Scope list_scope.

(** ** Projections of the trace *)

Definition commands (t : list event) : list (list string) :=
  omap (fun e => match e with EvRun argv _ _ => Some argv | _ => None end) t.

Definition sleeps (t : list event) : list Z :=
  omap (fun e => match e with EvSleep d => Some d | _ => None end) t.

Definition probes (t : list event) : list string :=
  omap (fun e => match e with EvUrlopen u _ => Some u | _ => None end) t.

(** The events other than log records. *)
Definition effects (t : list event) : list event :=
  List.filter (fun e => match e with EvLog _ _ => false | _ => true end) t.


(** ** Log records and states named in the statements *)

Definition confirmation_prompt : string :=
  "You are about to deploy to PRODUCTION. Continue? [y/N] ".

Definition attempt_warning (attempt : nat) (e : exc) : event :=
  EvLog WARNING [Lit "Health check failed (attempt ";
                 PInt (Z.of_nat attempt + 1); Lit "): "; PExc e].

Definition running_log (argv : list string) : event :=
  EvLog INFO [Lit "Running: "; Lit (join " " argv)].

Definition waiting_log (timeout : Z) : event :=
  EvLog INFO [Lit "Waiting for deployment to complete (timeout: ";
              PInt timeout; Lit "s)..."].

Definition timed_out_log : event := EvLog ERROR [Lit "Deployment timed out"].

Definition log_event (e : event) (s : state) : state :=
  mkState (now s) (calls s) (trace s ++ [e]).

Definition start_logs (self : Deployer) : list event :=
  [EvLog INFO [Lit "Starting deployment to "; Lit (environment self)];
   EvLog INFO [Lit "Dry run: "; PBool (dry_run self)]].

(** The state [s] after the log records [lg] were written. *)
Definition logged (lg : list event) (s : state) : state :=
  mkState (now s) (calls s) (trace s ++ lg).

(** [m] returns a value satisfying [P] and only writes log records. *)
Definition quietly {A} (m : M state A) (P : A -> Prop) : Prop :=
  forall s, exists v lg,
    m s = (Ok v, logged lg s) /\ effects lg = [] /\ P v.

(** The state in which the [try] block of [deploy] starts. *)
Definition started (self : Deployer) (s : state) : state :=
  mkState (now s) (calls s) (trace s ++ start_logs self).

(** ** The orchestrator query and what it fetches *)

Definition describe_services (cluster service : string) : list string :=
  ["aws"; "ecs"; "describe-services"; "--cluster"; cluster;
   "--services"; service].

(** The active deployment generations a descriptor reports:
    [doc['services'][0]['deployments']], when that is a list. *)
Definition generations (doc : json) : option (list json) :=
  match getitem doc "services" with
  | Ok services =>
      match getfirst services with
      | Ok service_info =>
          match getitem service_info "deployments" with
          | Ok (JArr ds) => Some ds
          | _ => None
          end
      | Raise _ => None
      end
  | Raise _ => None
  end.

Definition rollout_state (g : json) : option json :=
  match g with
  | JObj d => dict_lookup d "rolloutState"
  | _ => None
  end.

(** "Exactly one active deployment generation whose rollout state is the
    terminal-success value". *)
Definition exactly_one_completed (ds : list json) : bool :=
  match ds with
  | [g] => match rollout_state g with
           | Some st => eq_str st "COMPLETED"
           | None => false
           end
  | _ => false
  end.

(** The descriptors the orchestrator gives for a service: one generation
    with a rollout state, or more than one generation; a generation is an
    object. *)
Definition reports_generations (ds : list json) : bool :=
  match ds with
  | [JObj d] => bool_decide (is_Some (dict_lookup d "rolloutState"))
  | JObj _ :: _ :: _ => true
  | _ => false
  end.

(** What the query made as call [k] fetches: the time it took and the
    generations of the descriptor it printed. *)
Definition fetched (W : world) (k : nat) (argv : list string)
  : option (N * list json) :=
  match run_process W k argv with
  | (d, Exits code out _) =>
      if code =? 0 then
        match json_loads W out with
        | Some doc =>
            match generations doc with
            | Some ds => Some (d, ds)
            | None => None
            end
        | None => None
        end
      else None
  | (_, SpawnFails _) => None
  end.

Definition progress_log (ds : list json) : event :=
  match ds with
  | JObj d :: _ =>
      EvLog INFO [Lit "Deployment in progress: ";
                  PJson (dict_get d "runningCount" (JNum 0)); Lit "/";
                  PJson (dict_get d "desiredCount" (JNum 0));
                  Lit " tasks running"]
  | _ => EvLog INFO []
  end.

(** State after a tick that found the rollout in progress: the query was
    logged and run, the counts were logged, the loop slept. *)
Definition after_progress (s : state) (d : N) (argv : list string)
  (ds : list json) : state :=
  mkState (now s + Z.of_N d + 15) (S (calls s))
          (trace s ++ [running_log argv; EvRun argv (Some PROJECT_ROOT) None;
                       progress_log ds; EvSleep 15]).

(** State after the tick that found the rollout complete. *)
Definition after_completed (s : state) (d : N) (argv : list string) : state :=
  mkState (now s + Z.of_N d) (S (calls s))
          (trace s ++ [running_log argv; EvRun argv (Some PROJECT_ROOT) None;
                       EvLog INFO [Lit "Deployment completed successfully"]]).



(** The probe made as call [k] fails the way a refused connection or an
    HTTP error status does. *)
Definition probe_fails (W : world) (k : nat) (url : string) : Prop :=
  exists d e, open_url W k url = (d, Fails e) /\ isinstance e URLError = true.

(** The commands of [check_prerequisites]. *)
Definition prerequisite_probes : list (list string) :=
  [["docker"; "--version"]; ["aws"; "--version"]; ["terraform"; "--version"];
   ["aws"; "sts"; "get-caller-identity"]].

Definition probe_event (argv : list string) : event := EvRun argv None None.

(** ** Concrete environments *)

Definition live : Deployer := mkDeployer "dev" false 0.

Definition initial : state := mkState 0 0 [].

(** The double quote character. *)
Definition dq : string := String "034"%char EmptyString.

(** [{"services": [{"deployments": [{"rolloutState": "IN_PROGRESS",
    "runningCount": 1, "desiredCount": 2}, {"rolloutState": "COMPLETED",
    "runningCount": 2, "desiredCount": 2}]}]}] *)
Definition rolling_text : string :=
  String.concat dq
    ["{"; "services"; ": [{"; "deployments"; ": [{";
     "rolloutState"; ": "; "IN_PROGRESS"; ", ";
     "runningCount"; ": 1, "; "desiredCount"; ": 2}, {";
     "rolloutState"; ": "; "COMPLETED"; ", ";
     "runningCount"; ": 2, "; "desiredCount"; ": 2}]}]}"].

Definition rolling_generations : list json :=
  [JObj [("rolloutState", JStr "IN_PROGRESS");
         ("runningCount", JNum 1); ("desiredCount", JNum 2)];
   JObj [("rolloutState", JStr "COMPLETED");
         ("runningCount", JNum 2); ("desiredCount", JNum 2)]].

(** [{"services": [{"deployments": [{"rolloutState": "COMPLETED",
    "runningCount": 2, "desiredCount": 2}]}]}] *)
Definition completed_text : string :=
  String.concat dq
    ["{"; "services"; ": [{"; "deployments"; ": [{";
     "rolloutState"; ": "; "COMPLETED"; ", ";
     "runningCount"; ": 2, "; "desiredCount"; ": 2}]}]}"].

Definition completed_generations : list json :=
  [JObj [("rolloutState", JStr "COMPLETED");
         ("runningCount", JNum 2); ("desiredCount", JNum 2)]].

Definition descriptor (ds : list json) : json :=
  JObj [("services", JArr [JObj [("deployments", JArr ds)]])].

(** [json.loads] on the two texts above. *)
Definition loads_descriptor (text : string) : option json :=
  if String.eqb text rolling_text then Some (descriptor rolling_generations)
  else if String.eqb text completed_text
       then Some (descriptor completed_generations)
       else None.


(** An orchestrator whose rollout is complete. *)
Definition world_completed : world :=
  mkWorld (fun _ _ => (2%N, Exits 0 completed_text ""))
          (fun _ _ => (0%N, Responds 200))
          (fun _ => (0%N, None)) loads_descriptor (fun _ => "")
          (fun _ => "") (fun _ => "").

(** An orchestrator query that is refused. *)
Definition world_access_denied : world :=
  mkWorld (fun _ _ => (1%N, Exits 254 "" "AccessDeniedException"))
          (fun _ _ => (0%N, Responds 200))
          (fun _ => (0%N, None)) (fun _ => None) (fun _ => "")
          (fun _ => "") (fun _ => "").


(** A health endpoint that answers 204 No Content; a probe takes 1. *)
Definition world_no_content : world :=
  mkWorld (fun _ _ => (0%N, Exits 0 "" "")) (fun _ _ => (1%N, Responds 204))
          (fun _ => (0%N, None)) (fun _ => None) (fun _ => "")
          (fun _ => "") (fun _ => "").

(** An operator who answers the confirmation prompt with "N" after 3. *)
Definition world_declines : world :=
  mkWorld (fun _ _ => (0%N, Exits 0 "" "")) (fun _ _ => (0%N, Responds 200))
          (fun _ => (3%N, Some "N")) (fun _ => None) (fun _ => "")
          (fun _ => "") (fun _ => "").

Definition not_installed : exc :=
  new_exc FileNotFoundError "No such file or directory: 'docker'".

(** A machine on which docker is not installed. *)
Definition world_no_docker : world :=
  mkWorld (fun _ argv =>
             match argv with
             | "docker" :: _ => (0%N, SpawnFails not_installed)
             | _ => (0%N, Exits 0 "" "")
             end)
          (fun _ _ => (0%N, Responds 200))
          (fun _ => (0%N, None)) (fun _ => None) (fun _ => "")
          (fun _ => "") (fun _ => "").

(** [{"Account": "123456789012"}] *)
Definition identity_text : string :=
  String.concat dq ["{"; "Account"; ": "; "123456789012"; "}"].

(** A machine with the three tools installed and valid credentials. *)
Definition world_ready : world :=
  mkWorld (fun _ argv =>
             match argv with
             | ["aws"; "sts"; "get-caller-identity"] =>
                 (1%N, Exits 0 identity_text "")
             | _ => (0%N, Exits 0 "" "")
             end)
          (fun _ _ => (0%N, Responds 200))
          (fun _ => (0%N, None))
          (fun text => if String.eqb text identity_text
                       then Some (JObj [("Account", JStr "123456789012")])
                       else None)
          (fun _ => "") (fun _ => "") (fun _ => "20240101-000000").

Definition connection_refused : exc :=
  new_exc URLError "<urlopen error [Errno 111] Connection refused>".

(** A service that refuses the first four probes and answers the fifth
    with 200; a probe takes 1. *)
Definition world_warming_up : world :=
  mkWorld (fun _ _ => (0%N, Exits 0 "" ""))
          (fun k _ => if (k <? 4)%nat then (1%N, Fails connection_refused)
                      else (1%N, Responds 200))
          (fun _ => (0%N, None)) (fun _ => None) (fun _ => "")
          (fun _ => "") (fun _ => "").

(** A service that refuses every probe. *)
Definition world_down : world :=
  mkWorld (fun _ _ => (0%N, Exits 0 "" ""))
          (fun _ _ => (1%N, Fails connection_refused))
          (fun _ => (0%N, None)) (fun _ => None) (fun _ => "")
          (fun _ => "") (fun _ => "").

(** The command line [deploy.py staging --dry-run]. *)
Definition staging_dry_run : arguments :=
  mkArguments "staging" true false false false.

End DeploySpec.

(* ===================================================================== *)
(** * Request handlers: what the properties are stated with               *)
(* ===================================================================== *)

Module HandlerSpec.

Import App AppSpec Search.

Local Open Scope list_scope.

(** ** The metrics decorator *)

(** The status the decorator records for an outcome of the handler. *)
Definition status_of {A} (r : result (A * Z)) : Z :=
  match r with
  | Ok (_, code) => code
  | Raise _ => 500
  end.

(** The state in which the decorated handler starts: the decorator has
    read the clock. *)
Definition entered (s : state) : state :=
  mkState (db_pool s) (redis_client s) (S (calls s)) (log s) (metrics s).

(** The state the decorator leaves when the handler ended in [s1] with
    outcome [r]. *)
Definition observed {A} (W : world) (method : string)
  (endpoint : option string) (s : state) (r : result (A * Z)) (s1 : state)
  : state :=
  mkState (db_pool s1) (redis_client s1) (S (calls s1)) (log s1)
          (metrics s1 ++
             [mkMetric method (default "unknown" endpoint) (status_of r)
                       (time_time W (calls s1) - time_time W (calls s))]).

(** One more observation, with the given status, whatever the latency. *)
Definition counted (before after : list metric) (method : string)
  (endpoint : option string) (code : Z) : Prop :=
  exists latency,
    after = before ++ [mkMetric method (default "unknown" endpoint) code
                                latency].

(** ** The search endpoint *)

Definition missing_query : json :=
  JObj [("error", JStr "Query parameter required")].

(** The request carries no usable query: the body is falsy, or it is an
    object whose 'query' member is missing or falsy. *)
Definition no_query (X : cache) (body : json) : Prop :=
  truthy X body = false \/
  exists d, body = JObj d /\
            truthy X (Deploy.dict_get d "query" (JStr "")) = false.





(** ** Concrete environments *)

(** A cache that holds nothing and accepts every write. *)
Definition cache_empty : cache :=
  mkCache (fun _ _ => Ok None) (fun _ _ _ _ => Ok tt) (fun _ _ => Ok JNull)
          (fun _ => "[...]") (fun _ => true).

End HandlerSpec.

(* ===================================================================== *)
(** * Deployment steps: what the properties are stated with               *)
(* ===================================================================== *)

Module PipelineSpec.

Import Deploy DeploySpec.

Local Open Scope list_scope.

(** ** Commands *)

Definition command_failed_log (stderr : option string) : event :=
  EvLog ERROR [Lit "Command failed: "; POptStr stderr].

(** The command made as call [k], whatever it is, takes [d] and exits with
    status 0, printing [out] and [err]. *)
Definition exits_ok (W : world) (k : nat) (d : N) (out err : string) : Prop :=
  forall argv, run_process W k argv = (d, Exits 0 out err).

(** A command run by [run_command] in the directory [dir]. *)
Definition in_dir (dir : path) (argv : list string) : event :=
  EvRun argv (Some dir) None.

(** ** Prerequisites *)

(** The tool answers [--version] with exit status 0. *)
Definition version_ok (W : world) (k : nat) (tool : string) : bool :=
  match run_process W k [tool; "--version"] with
  | (_, Exits code _ _) => code =? 0
  | (_, SpawnFails _) => false
  end.

(** [aws sts get-caller-identity] exits with status 0 and prints a JSON
    object with an 'Account' member. *)
Definition identity_ok (W : world) (k : nat) : bool :=
  match run_process W k ["aws"; "sts"; "get-caller-identity"] with
  | (_, Exits code out _) =>
      (code =? 0) &&
      match json_loads W out with
      | Some (JObj d) => bool_decide (is_Some (dict_lookup d "Account"))
      | _ => false
      end
  | (_, SpawnFails _) => false
  end.

Definition prerequisites_met (W : world) (k : nat) : bool :=
  version_ok W k "docker" && version_ok W (1 + k) "aws" &&
  version_ok W (2 + k) "terraform" && identity_ok W (3 + k).

(** The version probe of the tool ends the way a missing or broken tool
    does: a non-zero exit status, or a spawn failure that
    [check_prerequisites] catches. *)
Definition tool_missing (W : world) (k : nat) (tool : string) : bool :=
  match run_process W k [tool; "--version"] with
  | (_, Exits code _ _) => negb (code =? 0)
  | (_, SpawnFails e) =>
      isinstance e CalledProcessError || isinstance e FileNotFoundError
  end.

(** The version probe of the tool succeeds or ends as [tool_missing]
    says: it does not fail to start for another reason. *)
Definition probe_settles (W : world) (k : nat) (tool : string) : bool :=
  version_ok W k tool || tool_missing W k tool.

Definition missing_tools (W : world) (k : nat) : list string :=
  (if tool_missing W k "docker" then ["docker"] else []) ++
  (if tool_missing W (1 + k) "aws" then ["aws"] else []) ++
  (if tool_missing W (2 + k) "terraform" then ["terraform"] else []).

Definition version_probes : list (list string) :=
  [["docker"; "--version"]; ["aws"; "--version"]; ["terraform"; "--version"]].

Definition missing_tools_log (missing : list string) : event :=
  EvLog ERROR [Lit "Missing required tools: "; Lit (join ", " missing)].

(** ** Terraform *)

Definition terraform_commands : list (list string) :=
  [["terraform"; "init"];
   ["terraform"; "plan"; "-out=tfplan"];
   ["terraform"; "apply"; "-auto-approve"; "tfplan"];
   ["terraform"; "output"; "-json"]].

(** Directory of the Terraform configuration of the environment. *)
Definition tf_dir (self : Deployer) : path :=
  ["terraform"; "environments"; environment self].

(** ** Polling *)

(** The query made as call [k] takes at most [bound] and fetches a
    descriptor whose rollout is still in progress. *)
Definition in_progress (W : world) (k : nat) (argv : list string)
  (bound : Z) : Prop :=
  exists d ds,
    fetched W k argv = Some (d, ds) /\
    Z.of_N d <= bound /\
    reports_generations ds = true /\
    exactly_one_completed ds = false.

(** The query made as call [k] takes at most [bound] and fetches a
    descriptor whose rollout is complete. *)
Definition completed (W : world) (k : nat) (argv : list string)
  (bound : Z) : Prop :=
  exists d ds,
    fetched W k argv = Some (d, ds) /\
    Z.of_N d <= bound /\
    exactly_one_completed ds = true.

(** ** The image registry *)

Definition get_login_password : list string :=
  ["aws"; "ecr"; "get-login-password"; "--region"; "us-east-1"].

Definition docker_login (registry : string) : list string :=
  ["docker"; "login"; "--username"; "AWS"; "--password-stdin"; registry].

(** The host of a repository: what precedes its first '/'. *)
Definition registry_of (repo : string) : string :=
  hd EmptyString (split "/" repo).

(** ** The task definition *)

(** The members of a task definition that [update_ecs_service] reads;
    'taskRoleArn' may be missing. *)
Record task_definition : Type := mkTaskDefinition {
  td_family : json;
  td_containers : json;
  td_execution_role : json;
  td_task_role : option json;
  td_network_mode : json;
  td_compatibilities : json;
  td_cpu : json;
  td_memory : json
}.



(** The members a task definition must have for [update_ecs_service]. *)
Definition required_members : list string :=
  ["containerDefinitions"; "family"; "executionRoleArn"; "networkMode";
   "requiresCompatibilities"; "cpu"; "memory"].

Definition current_task_definition (cluster service : string)
  : list string :=
  ["aws"; "ecs"; "describe-services"; "--cluster"; cluster;
   "--services"; service; "--query"; "services[0].taskDefinition";
   "--output"; "text"].

Definition describe_task_definition (name : string) : list string :=
  ["aws"; "ecs"; "describe-task-definition"; "--task-definition"; name].



(** ** The command line *)

(** The state of [main] once the operator has answered the prompt. *)
Definition prompted (s : state) (delay : N) : state :=
  mkState (now s + Z.of_N delay) (S (calls s))
          (trace s ++ [EvInput confirmation_prompt]).

(** The exit status for the result of [deploy]. *)
Definition exit_status (success : bool) : Z := if success then 0 else 1.

(** The deployment [main] runs for the command line, created at [t]. *)
Definition deployment (W : world) (args : arguments) (t : Z)
  : M state bool :=
  deploy W (mkDeployer (arg_environment args) (arg_dry_run args) t)
         (arg_skip_build args) (arg_skip_terraform args).

(** ** Concrete environments *)

(** A machine whose commands answer in turn as listed, each after 1, and
    succeed silently afterwards; [parse] is [json.loads]. *)
Definition scripted (answers : list proc_outcome)
  (parse : string -> option json) : world :=
  mkWorld (fun k _ => (1%N, nth k answers (Exits 0 "" "")))
          (fun _ _ => (0%N, Responds 200))
          (fun _ => (0%N, None)) parse (fun _ => "{...}")
          (fun _ => "") (fun _ => "20240101-000000").

Definition silent : proc_outcome := Exits 0 "" "".

(** Credentials whose identity document is [{}]. *)
Definition world_anonymous : world :=
  scripted [silent; silent; silent; Exits 0 "{}" ""]
           (fun text => if String.eqb text "{}" then Some (JObj []) else None).

(** [{"ecs_cluster_name": {"value": "ddgo-dev"}}] as parsed. *)
Definition terraform_outputs : json :=
  JObj [("ecs_cluster_name", JObj [("value", JStr "ddgo-dev")])].

(** Terraform runs and prints its outputs as the fourth command. *)
Definition world_terraform : world :=
  scripted [silent; silent; silent; Exits 0 "<outputs>" ""]
           (fun text => if String.eqb text "<outputs>"
                        then Some terraform_outputs else None).

(** A task definition for Fargate, with a member that
    [update_ecs_service] does not read. *)
Definition current_members : task_definition :=
  mkTaskDefinition
    (JStr "ddgo")
    (JArr [JObj [("name", JStr "app"); ("image", JStr "repo:1")]])
    (JStr "arn:aws:iam::123456789012:role/exec") None
    (JStr "awsvpc") (JArr [JStr "FARGATE"]) (JStr "256") (JStr "512").

Definition current_definition : list (string * json) :=
  [("taskDefinitionArn", JStr "ddgo:7");
   ("family", td_family current_members);
   ("containerDefinitions", td_containers current_members);
   ("executionRoleArn", td_execution_role current_members);
   ("networkMode", td_network_mode current_members);
   ("requiresCompatibilities", td_compatibilities current_members);
   ("cpu", td_cpu current_members);
   ("memory", td_memory current_members);
   ("volumes", JArr [])].

Definition parse_service (definition : list (string * json))
  (text : string) : option json :=
  if String.eqb text "<current>"
  then Some (JObj [("taskDefinition", JObj definition)])
  else if String.eqb text "<registered>"
  then Some (JObj [("taskDefinition",
                    JObj [("taskDefinitionArn", JStr "ddgo:8")])])
  else None.


(** A task definition for the EC2 launch type: no 'cpu', no 'memory'. *)
Definition ec2_definition : list (string * json) :=
  [("family", JStr "ddgo");
   ("containerDefinitions",
    JArr [JObj [("name", JStr "app"); ("image", JStr "repo:1")]]);
   ("executionRoleArn", JStr "arn:aws:iam::123456789012:role/exec");
   ("networkMode", JStr "bridge");
   ("requiresCompatibilities", JArr [JStr "EC2"])].

Definition world_ec2_service : world :=
  scripted [Exits 0 " ddgo:7 " ""; Exits 0 "<current>" "";
            Exits 0 "<registered>" ""; silent]
           (parse_service ec2_definition).

(** A registry that refuses the login. *)
Definition world_login_refused : world :=
  scripted [Exits 0 "secret" ""; Exits 1 "" "401 Unauthorized"]
           (fun _ => None).

(** A registry that accepts the password "secret". *)
Definition world_registry : world :=
  scripted [Exits 0 "secret" ""] (fun _ => None).

Definition sample_repository : string :=
  "123456789012.dkr.ecr.us-east-1.amazonaws.com/ddgo-api".

(** An orchestrator that reports the rollout in progress twice and
    complete at the third query; a query takes 2. *)
Definition world_settling : world :=
  mkWorld (fun k _ => (2%N, Exits 0 (if (k <? 2)%nat then rolling_text
                                     else completed_text) ""))
          (fun _ _ => (0%N, Responds 200))
          (fun _ => (0%N, None)) loads_descriptor (fun _ => "")
          (fun _ => "") (fun _ => "").

(** A service without deployments:
    [{"services": [{"deployments": []}]}] as parsed. *)
Definition world_no_deployments : world :=
  mkWorld (fun _ _ => (1%N, Exits 0 "<idle>" ""))
          (fun _ _ => (0%N, Responds 200))
          (fun _ => (0%N, None))
          (fun _ => Some (JObj [("services",
                                 JArr [JObj [("deployments", JArr [])]])]))
          (fun _ => "") (fun _ => "") (fun _ => "").

(** A machine and a service on which a deployment that skips Terraform
    and the build goes through: the prerequisite check, the update of
    the service, one query of the rollout, one probe. *)
Definition world_deployable : world :=
  mkWorld (fun k _ =>
             (1%N, nth k [silent; silent; silent; Exits 0 identity_text "";
                          Exits 0 " ddgo:7 " ""; Exits 0 "<current>" "";
                          Exits 0 "<registered>" ""; silent;
                          Exits 0 completed_text ""] silent))
          (fun _ _ => (1%N, Responds 200))
          (fun _ => (2%N, Some "Y"))
          (fun text =>
             if String.eqb text identity_text
             then Some (JObj [("Account", JStr "123456789012")])
             else match parse_service current_definition text with
                  | Some j => Some j
                  | None => loads_descriptor text
                  end)
          (fun _ => "{...}") (fun _ => "") (fun _ => "20240101-000000").

(** The command line [deploy.py dev --skip-build --skip-terraform]. *)
Definition dev_service_only : arguments :=
  mkArguments "dev" false true true false.

(** The operator has closed the standard input. *)
Definition world_unattended : world :=
  mkWorld (fun _ _ => (0%N, silent)) (fun _ _ => (0%N, Responds 200))
          (fun _ => (0%N, None)) (fun _ => None) (fun _ => "")
          (fun _ => "") (fun _ => "").

(** [terraform plan] fails. *)
Definition world_plan_fails : world :=
  scripted [silent; Exits 1 "" "Error: Invalid reference"] (fun _ => None).

End PipelineSpec.

(* ===================================================================== *)
(** * Facts about the Python runtime model                                *)
(* ===================================================================== *)

Module PyFacts.

(** Every exception of the model is an instance of [Exception], so an
    [except Exception] clause catches it. *)
Lemma isinstance_Exception e : isinstance e Exception = true.
Proof. destruct e as [[] m o]; reflexivity. Qed.

(** [HTTPError] is caught by [except URLError]; a socket timeout is not. *)
Lemma isinstance_URLError_classes :
  isinstance (new_exc HTTPError "HTTP Error 503") URLError = true /\
  isinstance (new_exc TimeoutError "timed out") URLError = false.
Proof. split; reflexivity. Qed.

End PyFacts.

(* ===================================================================== *)
(** * Properties of the readiness probe                                   *)
(* ===================================================================== *)

Module AppProofs.

Import App AppSpec PyFacts.

Local Open Scope list_scope.

(** Runs a block of the handler on every answer of the oracle. *)
Ltac run_phase :=
  repeat (cbn in *; rewrite ?isinstance_Exception; break_match);
  simplify_eq; cbn;
  first [ exists []; rewrite app_nil_r; reflexivity
        | eexists; rewrite <- ?app_assoc; reflexivity ].

(** The database block never raises; it only appends to the log, and it
    leaves in [checks] and in the global what [db_summary] says. *)
Lemma check_database_spec W s l :
  exists lg,
    check_database W (s, l) =
    (Ok tt,
     (mkState (db_summary W (db_pool s) (calls s)).1.2 (redis_client s)
              (db_summary W (db_pool s) (calls s)).2 (log s ++ lg) (metrics s),
      if (db_summary W (db_pool s) (calls s)).1.1
      then <["database" := true]> l else l)).
Proof.
  destruct s as [p r k lg0 ms].
  unfold check_database, db_summary, get_db_pool, method_of, try_except,
    try_finally, glob, external, logger, set_item, set_db_pool, bind, get,
    modify, raise, ret, is_ok.
  cbn. run_phase.
Qed.

(** The same for the Redis block and [cache_summary]. *)
Lemma check_redis_spec W s l :
  exists lg,
    check_redis W (s, l) =
    (Ok tt,
     (mkState (db_pool s) (cache_summary W (redis_client s) (calls s)).1.2
              (cache_summary W (redis_client s) (calls s)).2 (log s ++ lg)
              (metrics s),
      if (cache_summary W (redis_client s) (calls s)).1.1
      then <["cache" := true]> l else l)).
Proof.
  destruct s as [p r k lg0 ms].
  unfold check_redis, cache_summary, get_redis, try_except, try_finally,
    glob, external, logger, set_item, set_redis_client, bind, get, modify,
    raise, ret, is_ok, is_true.
  cbn. run_phase.
Qed.

Lemma recorded_checks_database db cache :
  recorded_checks db cache !! "database" = Some db.
Proof. destruct db, cache; reflexivity. Qed.

Lemma recorded_checks_cache db cache :
  recorded_checks db cache !! "cache" = Some cache.
Proof. destruct db, cache; reflexivity. Qed.

(** The decorated handler, end to end. *)
Lemma readiness_spec W method endpoint s :
  let d := db_summary W (db_pool s) (S (calls s)) in
  let c := cache_summary W (redis_client s) d.2 in
  exists lg mt,
    readiness W method endpoint s =
    (Ok (mkReport (if d.1.1 then "ready" else "not_ready")
                  (recorded_checks d.1.1 c.1.1) (utcnow_iso W c.2),
         if d.1.1 then 200 else 503),
     mkState d.1.2 c.1.2 (2 + c.2) (log s ++ lg) (metrics s ++ mt)).
Proof.
  intros d c.
  unfold readiness, track_metrics, readiness_body, with_local, read_clock,
    external.
  unfold bind at 1. cbn [calls db_pool redis_client log metrics].
  unfold bind at 1.
  destruct (check_database_spec W
              (mkState (db_pool s) (redis_client s) (S (calls s)) (log s)
                       (metrics s)) initial_checks) as [lg1 H1].
  fold initial_checks. rewrite H1.
  cbn [calls db_pool redis_client log metrics]. fold d.
  unfold bind at 1.
  match goal with
  | |- context [check_redis W (?s1, ?l1)] =>
      destruct (check_redis_spec W s1 l1) as [lg2 H2]; rewrite H2
  end.
  cbn [calls db_pool redis_client log metrics]. fold c.
  unfold local, bind at 1. cbn [snd fst].
  change (if c.1.1
          then <["cache" := true]>
                 (if d.1.1 then <["database" := true]> initial_checks
                  else initial_checks)
          else if d.1.1 then <["database" := true]> initial_checks
               else initial_checks)
    with (recorded_checks d.1.1 c.1.1).
  unfold get_item. rewrite recorded_checks_database.
  cbn. exists (lg1 ++ lg2). eexists. rewrite <- app_assoc. reflexivity.
Qed.

(** No exception leaves the probe, whatever the dependencies do. *)
Lemma readiness_never_raises W method endpoint s :
  exists rep code s', readiness W method endpoint s = (Ok (rep, code), s').
Proof.
  destruct (readiness_spec W method endpoint s) as (lg & mt & H). eauto.
Qed.

(** The required check is recorded as passed exactly when the pool is
    there or can be created and taking a connection, opening the cursor,
    running the query and closing the cursor all succeed: an exception in
    any of these leaves it recorded as failed.  The outcome of [putconn]
    has no part in it. *)
Lemma database_check_operations W s :
  database_check W s =
  match db_pool s with
  | Some _ =>
      let k := S (calls s) in
      is_ok (getconn W k) && is_ok (cursor W (1 + k)) &&
      is_ok (execute W (2 + k)) && is_ok (close_cursor W (3 + k))
  | None =>
      let k := S (S (calls s)) in
      is_ok (connect_pool W (S (calls s))) &&
      is_ok (getconn W k) && is_ok (cursor W (1 + k)) &&
      is_ok (execute W (2 + k)) && is_ok (close_cursor W (3 + k))
  end.
Proof.
  unfold database_check, db_summary.
  destruct (db_pool s); [|destruct (is_ok (connect_pool W _))]; cbn;
    try reflexivity;
    destruct (is_ok (getconn W _)); cbn; try reflexivity;
    destruct (is_ok (cursor W _)); reflexivity.
Qed.

(** C1.  Whatever the two dependency checks do, the probe answers; its
    report carries the outcome of the required (database) check and of the
    best-effort (cache) check; the status is "ready" with code 200 when the
    required check passed and "not_ready" with code 503 otherwise.  The
    outcome of the required check is the same with any other cache and any
    other value of the cache global, so the best-effort check has no part
    in the status or the code.  Each of the four combinations of outcomes
    occurs. *)
Theorem readiness_ready_iff_database_check :
  (forall W method endpoint s,
     exists rep code s',
       readiness W method endpoint s = (Ok (rep, code), s') /\
       checks rep !! "database" = Some (database_check W s) /\
       checks rep !! "cache" = Some (cache_check W s) /\
       status rep = (if database_check W s then "ready" else "not_ready") /\
       code = (if database_check W s then 200 else 503)) /\
  (forall W new_redis' ping' client s,
     database_check (with_cache W new_redis' ping')
                    (set_redis_client client s)
     = database_check W s) /\
  (forall db cache,
     database_check (world_with db cache) fresh = db /\
     cache_check (world_with db cache) fresh = cache).
Proof.
  split; [|split].
  - intros W method endpoint s.
    destruct (readiness_spec W method endpoint s) as (lg & mt & H).
    do 3 eexists. split; [exact H|]. cbn.
    rewrite recorded_checks_database, recorded_checks_cache. auto.
  - reflexivity.
  - intros [] []; split; reflexivity.
Qed.

(** C5.  The probe on a database that answers the query and then fails
    [pool.putconn(conn)]: the exception is caught and logged as a failed
    database health check, yet [checks['database']] was already set, and
    the report says database passed, "ready", 200. *)
Theorem readiness_putconn_error_reported_ready :
  exists rep s',
    readiness world_putconn_fails "GET" (Some "readiness") fresh
    = (Ok (rep, 200), s') /\
    status rep = "ready" /\
    checks rep !! "database" = Some true /\
    In (ERROR, [Lit "Database health check failed: "; PExc connection_lost])
       (log s').
Proof.
  do 2 eexists. split; [vm_compute; reflexivity|].
  split; [reflexivity|]. split; [reflexivity|]. cbn. auto.
Qed.

(** Names the eight constant answers of steady dependencies. *)
Ltac steady_consts H :=
  destruct H as [H1 H2 H3 H4 H5 H6 H7 H8];
  remember (connect_pool _ 0%nat) as c1 eqn:E1 in H1; clear E1;
  remember (getconn _ 0%nat) as c2 eqn:E2 in H2; clear E2;
  remember (cursor _ 0%nat) as c3 eqn:E3 in H3; clear E3;
  remember (execute _ 0%nat) as c4 eqn:E4 in H4; clear E4;
  remember (close_cursor _ 0%nat) as c5 eqn:E5 in H5; clear E5;
  remember (putconn _ 0%nat) as c6 eqn:E6 in H6; clear E6;
  remember (new_redis _ 0%nat) as c7 eqn:E7 in H7; clear E7;
  remember (ping _ 0%nat) as c8 eqn:E8 in H8; clear E8.

(** With steady dependencies the database block gives the same outcome and
    leaves the same global when run again from the global it left. *)
Lemma db_summary_stable W p k k' :
  steady W ->
  (db_summary W (db_summary W p k).1.2 k').1 = (db_summary W p k).1.
Proof.
  intros H. steady_consts H. unfold db_summary.
  destruct p; rewrite ?H1; destruct c1; cbn;
    rewrite ?H1, ?H2, ?H3, ?H4, ?H5;
    destruct c2, c3, c4, c5; cbn; rewrite ?H1, ?H2, ?H3, ?H4, ?H5;
    reflexivity.
Qed.

Lemma cache_summary_stable W r k k' :
  steady W ->
  (cache_summary W (cache_summary W r k).1.2 k').1 = (cache_summary W r k).1.
Proof.
  intros H. steady_consts H. unfold cache_summary.
  destruct r; rewrite ?H7, ?H8; destruct c7, c8 as [[]|]; cbn;
    rewrite ?H7, ?H8; reflexivity.
Qed.

Lemma readiness_content W method endpoint s :
  content (readiness W method endpoint s).1 = expected_content W s.
Proof.
  destruct (readiness_spec W method endpoint s) as (lg & mt & H).
  rewrite H. reflexivity.
Qed.

Lemma expected_content_stable W method endpoint s :
  steady W ->
  expected_content W (readiness W method endpoint s).2 = expected_content W s.
Proof.
  intros HW.
  destruct (readiness_spec W method endpoint s) as (lg & mt & H).
  rewrite H. unfold expected_content, database_check, cache_check.
  cbn [snd calls db_pool redis_client].
  set (d := db_summary W (db_pool s) (S (calls s))).
  set (c := cache_summary W (redis_client s) d.2).
  rewrite (db_summary_stable W (db_pool s) (S (calls s)) _ HW). fold d.
  rewrite (cache_summary_stable W (redis_client s) d.2 _ HW). fold c.
  reflexivity.
Qed.

(** C8.  With unchanged dependency responses, any number of successive
    evaluations of the probe, from any state of the process, give reports
    of one and the same content (status, check booleans, response code);
    only the timestamp may differ. *)
Theorem readiness_idempotent W method endpoint n s :
  steady W ->
  exists c, forall r,
    In r (evaluations W method endpoint n s) -> content r = Some c.
Proof.
  intros HW.
  assert (Hc : exists c, expected_content W s = Some c)
    by (eexists; reflexivity).
  destruct Hc as [c Hc]. exists c.
  revert s Hc. induction n as [|n IH]; intros s Hc r; cbn [evaluations];
    [intros []|].
  pose proof (readiness_content W method endpoint s) as Hr.
  pose proof (expected_content_stable W method endpoint s HW) as Hs.
  destruct (readiness W method endpoint s) as [r0 s'].
  cbn [fst snd] in *. intros [<-|Hin].
  - congruence.
  - apply (IH s'); [congruence|assumption].
Qed.

Lemma readiness_idempotent_witness :
  exists c, forall r,
    In r (evaluations (world_with true false) "GET" (Some "readiness") 3 fresh)
    -> content r = Some c.
Proof.
  apply (readiness_idempotent (world_with true false) "GET"
           (Some "readiness") 3 fresh).
  constructor; intros k; reflexivity.
Defined.

End AppProofs.

(* ===================================================================== *)
(** * Properties of the deployment driver                                 *)
(* ===================================================================== *)

Module DeployProofs.

Import Deploy DeploySpec PyFacts.

Local Open Scope list_scope.

(** ** The string operations on sample values *)

Lemma string_operations :
  split "/" "123456789012.dkr.ecr.us-east-1.amazonaws.com/ddgo-api"
  = ["123456789012.dkr.ecr.us-east-1.amazonaws.com"; "ddgo-api"] /\
  split ":" "ddgo-api:20240101-000000" = ["ddgo-api"; "20240101-000000"] /\
  split ":" "" = [""] /\
  strip "  arn:aws:ecs:task-definition/ddgo:7  "
  = "arn:aws:ecs:task-definition/ddgo:7" /\
  lower "Y" = "y" /\
  lower "Yes" = "yes" /\
  join " " ["docker"; "push"; "ddgo-api"] = "docker push ddgo-api".
Proof. repeat split. Qed.

(** ** The trace projections distribute over concatenation *)

Lemma probes_app t u : probes (t ++ u) = probes t ++ probes u.
Proof. apply omap_app. Qed.

Lemma sleeps_app t u : sleeps (t ++ u) = sleeps t ++ sleeps u.
Proof. apply omap_app. Qed.

Lemma commands_app t u : commands (t ++ u) = commands t ++ commands u.
Proof. apply omap_app. Qed.

Lemma effects_app t u : effects (t ++ u) = effects t ++ effects u.
Proof. apply List.filter_app. Qed.


(** ** Construction and the confirmation prompt *)

Lemma valid_environment env :
  In env VALID_ENVIRONMENTS ->
  existsb (String.eqb env) VALID_ENVIRONMENTS = true.
Proof.
  intros H. apply existsb_exists. exists env.
  split; [exact H|apply String.eqb_refl].
Qed.

(** C9.  Constructing a [Deployer] raises [ValueError] if and only if the
    environment is not one of 'dev', 'staging', 'prod'; for each of these
    three the construction succeeds, touches nothing, and the instance
    holds the environment and the dry-run flag it was given. *)
Theorem deployer_init_valid_environments :
  (forall env dry s,
     (exists e s', Deployer_init env dry s = (Raise e, s') /\
                   exc_cls e = ValueError)
     <-> ~ In env VALID_ENVIRONMENTS) /\
  Forall (fun env => forall dry s,
            exists d, Deployer_init env dry s = (Ok d, s) /\
                      environment d = env /\ dry_run d = dry)
         ["dev"; "staging"; "prod"].
Proof.
  split.
  - intros env dry s. unfold Deployer_init.
    destruct (existsb (String.eqb env) VALID_ENVIRONMENTS) eqn:Hin; cbn.
    + split.
      * intros (e & s' & H & _). discriminate.
      * intros Hn. exfalso. apply Hn.
        apply existsb_exists in Hin as (x & Hx & Heq).
        apply String.eqb_eq in Heq. subst. exact Hx.
    + split.
      * intros _ Hn. rewrite (valid_environment _ Hn) in Hin. discriminate.
      * intros _. do 2 eexists. split; reflexivity.
  - repeat constructor; intros dry s; eexists; repeat split.
Qed.

(** C10.  A deployment to 'prod' without the dry-run flag starts by asking
    for confirmation.  When the answer, lowercased, is not 'y', all that
    [main] does is prompt, log the cancellation and exit with status 0: no
    [Deployer] is constructed and no deployment step is performed. *)
Theorem main_production_requires_confirmation W args s delay response :
  arg_environment args = "prod" ->
  arg_dry_run args = false ->
  read_line W (calls s) = (delay, Some response) ->
  lower response <> "y" ->
  main W args s =
  (Ok 0,
   mkState (now s + Z.of_N delay) (S (calls s))
           (trace s ++ [EvInput confirmation_prompt;
                        EvLog INFO [Lit "Deployment cancelled"]])).
Proof.
  intros Henv Hdry Hline Hresp.
  unfold main. rewrite Henv, Hdry. cbn.
  unfold bind at 1. unfold bind at 1. unfold input, bind at 1, external.
  rewrite Hline. cbn.
  destruct (String.eqb (lower response) "y") eqn:Hy.
  - apply String.eqb_eq in Hy. contradiction.
  - cbn. rewrite <- app_assoc. reflexivity.
Qed.

Lemma main_production_requires_confirmation_witness :
  main world_declines (mkArguments "prod" false false false false) initial =
  (Ok 0, mkState 3 1 [EvInput confirmation_prompt;
                      EvLog INFO [Lit "Deployment cancelled"]]).
Proof.
  apply (main_production_requires_confirmation world_declines
           (mkArguments "prod" false false false false) initial
           3%N "N"); [reflexivity|reflexivity|reflexivity|].
  vm_compute. discriminate.
Defined.

(** ** Post-rollout verification *)

(** Runs one probe on a given answer of the oracle. *)
Ltac run_probe H :=
  unfold probe_once, try_except, urlopen, external, logger, emit, sleep, bind,
    modify, raise, ret;
  cbn; rewrite H; cbn.

Lemma probe_once_healthy W url attempt s d :
  open_url W (calls s) url = (d, Responds 200) ->
  probe_once W url attempt s =
  (Ok (Some true),
   mkState (now s + Z.of_N d) (S (calls s))
           (trace s ++ [EvUrlopen url 10;
                        EvLog INFO [Lit "Health check passed"]])).
Proof. intros H. run_probe H. rewrite <- app_assoc. reflexivity. Qed.

(** A response with a status other than 200: the body of the loop ends
    without a log record and without a sleep. *)
Lemma probe_once_other_status W url attempt s d st :
  open_url W (calls s) url = (d, Responds st) -> st <> 200 ->
  probe_once W url attempt s =
  (Ok None,
   mkState (now s + Z.of_N d) (S (calls s)) (trace s ++ [EvUrlopen url 10])).
Proof.
  intros H Hst. run_probe H.
  destruct (st =? 200) eqn:E; [apply Z.eqb_eq in E; contradiction|].
  reflexivity.
Qed.

Lemma probe_once_url_error W url attempt s d e :
  open_url W (calls s) url = (d, Fails e) -> isinstance e URLError = true ->
  probe_once W url attempt s =
  (Ok None,
   mkState (now s + Z.of_N d + 10) (S (calls s))
           (trace s ++ [EvUrlopen url 10; attempt_warning attempt e;
                        EvSleep 10])).
Proof.
  intros H He. run_probe H. rewrite He. cbn.
  rewrite <- !app_assoc. reflexivity.
Qed.


Lemma probe_once_trace W url attempt s :
  exists t,
    trace (probe_once W url attempt s).2 = trace s ++ t /\
    (length (probes t) <= 1)%nat /\
    Forall (fun d => d = 10) (sleeps t) /\
    (length (sleeps t) <= 1)%nat.
Proof.
  unfold probe_once, try_except, urlopen, external, logger, emit, sleep, bind,
    modify, raise, ret.
  repeat (cbn; break_match); cbn;
    eexists; (split; [rewrite <- ?app_assoc; reflexivity|]);
    cbn; repeat split; repeat constructor.
Qed.

Lemma probe_loop_trace W url n a s :
  exists t,
    trace (for_each (seq a n) (probe_once W url) s).2 = trace s ++ t /\
    (length (probes t) <= n)%nat /\
    Forall (fun d => d = 10) (sleeps t) /\
    (length (sleeps t) <= n)%nat.
Proof.
  revert a s. induction n as [|n IH]; intros a s; cbn [seq for_each].
  - exists []. rewrite app_nil_r. cbn. repeat split; constructor.
  - destruct (probe_once_trace W url a s) as (t1 & Ht1 & Hp1 & Hs1 & Hl1).
    unfold bind at 1.
    destruct (probe_once W url a s) as [[[b|]|e] s1]; cbn [snd] in *.
    + exists t1. cbn. repeat split; auto; lia.
    + destruct (IH (S a) s1) as (t2 & Ht2 & Hp2 & Hs2 & Hl2).
      exists (t1 ++ t2). rewrite Ht2, Ht1, <- app_assoc.
      rewrite probes_app, sleeps_app, !length_app.
      repeat split; [lia|apply Forall_app; auto|lia].
    + exists t1. cbn. repeat split; auto; lia.
Qed.

(** Whatever the endpoint does, [verify_deployment] probes it at most five
    times, and each of its sleeps is of 10. *)
Lemma verify_deployment_bounded W self url s :
  exists t,
    trace (verify_deployment W self url s).2 = trace s ++ t /\
    (length (probes t) <= 5)%nat /\
    Forall (fun d => d = 10) (sleeps t).
Proof.
  unfold verify_deployment.
  destruct (dry_run self).
  - cbn. eexists. split; [rewrite <- app_assoc; reflexivity|].
    cbn. split; [lia|constructor].
  - set (loop := for_each (seq 0 5) _).
    unfold bind, logger, emit, modify. cbn beta.
    match goal with
    | |- context [loop ?s1] =>
        destruct (probe_loop_trace W (url ++ "/health")%string 5 0 s1)
          as (t & Ht & Hp & Hs & _);
        fold loop in Ht; destruct (loop s1) as [[[b|]|e] s2]
    end; cbn in *; rewrite Ht; eexists;
      (split; [rewrite <- ?app_assoc; reflexivity|]);
      cbn; rewrite ?probes_app, ?sleeps_app, ?app_nil_r; cbn;
      rewrite ?app_nil_r; split; auto.
Qed.

Lemma probe_loop_succeeds W url k :
  forall n a s d,
    (k < n)%nat ->
    (forall i, (i < k)%nat -> probe_fails W (calls s + i) url) ->
    open_url W (calls s + k) url = (d, Responds 200) ->
    exists s',
      for_each (seq a n) (probe_once W url) s = (Ok (Some true), s') /\
      sleeps (trace s') = sleeps (trace s) ++ replicate k 10 /\
      probes (trace s') = probes (trace s) ++ replicate (S k) url.
Proof.
  induction k as [|k IH]; intros n a s d Hn Hfail Hok;
    (destruct n as [|n]; [lia|]); cbn [seq for_each]; unfold bind at 1.
  - rewrite Nat.add_0_r in Hok.
    rewrite (probe_once_healthy W url a s d Hok). cbn.
    eexists. split; [reflexivity|]. cbn.
    rewrite sleeps_app, probes_app. cbn. rewrite app_nil_r. auto.
  - destruct (Hfail 0%nat ltac:(lia)) as (d0 & e & H0 & He).
    rewrite Nat.add_0_r in H0.
    rewrite (probe_once_url_error W url a s d0 e H0 He).
    match goal with
    | |- context [for_each _ _ ?s1] =>
        destruct (IH n (S a) s1 d ltac:(lia)) as (s' & Hrun & Hsl & Hpr)
    end.
    + intros i Hi. cbn.
      replace (S (calls s + i)) with (calls s + S i)%nat by lia.
      apply Hfail. lia.
    + cbn. replace (S (calls s + k)) with (calls s + S k)%nat by lia.
      exact Hok.
    + exists s'. split; [exact Hrun|].
      rewrite Hsl, Hpr. cbn [trace].
      rewrite sleeps_app, probes_app. cbn. rewrite <- !app_assoc. auto.
Qed.

(** When the first [k] probes fail with a URL error and probe [k + 1],
    among the five, gets a 200, the verification succeeds after [k] sleeps
    of 10: after four failures and a success on the fifth attempt it has
    slept four times. *)
Lemma verify_deployment_succeeds_after W self url s k d :
  dry_run self = false ->
  (k < 5)%nat ->
  (forall i, (i < k)%nat ->
     probe_fails W (calls s + i) (url ++ "/health")%string) ->
  open_url W (calls s + k) (url ++ "/health")%string = (d, Responds 200) ->
  exists s',
    verify_deployment W self url s = (Ok true, s') /\
    sleeps (trace s') = sleeps (trace s) ++ replicate k 10 /\
    probes (trace s') =
      probes (trace s) ++ replicate (S k) (url ++ "/health")%string.
Proof.
  intros Hdry Hk Hfail Hok. unfold verify_deployment. rewrite Hdry.
  set (loop := for_each (seq 0 5) _).
  unfold bind, logger, emit, modify. cbn beta.
  match goal with
  | |- context [loop ?s1] =>
      destruct (probe_loop_succeeds W (url ++ "/health")%string k 5 0%nat
                  s1 d Hk)
        as (s' & Hrun & Hsl & Hpr); [exact Hfail|exact Hok|]
  end.
  fold loop in Hrun. rewrite Hrun. cbn.
  exists s'. split; [reflexivity|]. rewrite Hsl, Hpr. cbn.
  rewrite sleeps_app, probes_app. cbn. rewrite !app_nil_r. auto.
Qed.

Lemma probe_loop_exhausted W url n :
  forall a s,
    (forall i, (i < n)%nat -> probe_fails W (calls s + i) url) ->
    exists s',
      for_each (seq a n) (probe_once W url) s = (Ok None, s') /\
      sleeps (trace s') = sleeps (trace s) ++ replicate n 10 /\
      probes (trace s') = probes (trace s) ++ replicate n url.
Proof.
  induction n as [|n IH]; intros a s Hfail; cbn [seq for_each].
  - exists s. cbn. rewrite !app_nil_r. auto.
  - unfold bind at 1.
    destruct (Hfail 0%nat ltac:(lia)) as (d0 & e & H0 & He).
    rewrite Nat.add_0_r in H0.
    rewrite (probe_once_url_error W url a s d0 e H0 He).
    match goal with
    | |- context [for_each _ _ ?s1] =>
        destruct (IH (S a) s1) as (s' & Hrun & Hsl & Hpr)
    end.
    + intros i Hi. cbn.
      replace (S (calls s + i)) with (calls s + S i)%nat by lia.
      apply Hfail. lia.
    + exists s'. split; [exact Hrun|].
      rewrite Hsl, Hpr. cbn [trace].
      rewrite sleeps_app, probes_app. cbn. rewrite <- !app_assoc. auto.
Qed.

(** When all five probes fail with a URL error the verification reports
    failure; it has then slept five times, once after the last attempt
    too. *)
Lemma verify_deployment_exhausted W self url s :
  dry_run self = false ->
  (forall i, (i < 5)%nat ->
     probe_fails W (calls s + i) (url ++ "/health")%string) ->
  exists s',
    verify_deployment W self url s = (Ok false, s') /\
    sleeps (trace s') = sleeps (trace s) ++ replicate 5 10 /\
    probes (trace s') =
      probes (trace s) ++ replicate 5 (url ++ "/health")%string.
Proof.
  intros Hdry Hfail. unfold verify_deployment. rewrite Hdry.
  set (loop := for_each (seq 0 5) _).
  unfold bind, logger, emit, modify. cbn beta.
  match goal with
  | |- context [loop ?s1] =>
      destruct (probe_loop_exhausted W (url ++ "/health")%string 5 0%nat s1)
        as (s' & Hrun & Hsl & Hpr); [exact Hfail|]
  end.
  fold loop in Hrun. rewrite Hrun. cbn.
  eexists. split; [reflexivity|]. cbn. rewrite sleeps_app, probes_app, Hsl, Hpr.
  cbn. rewrite sleeps_app, probes_app. cbn. rewrite !app_nil_r. auto.
Qed.


(** The two runs of the specification: four refused probes and a 200 on
    the fifth attempt give success after four sleeps of 10; five refused
    probes give failure. *)
Lemma verify_deployment_fifth_attempt :
  (exists s',
     verify_deployment world_warming_up live "http://localhost" initial
     = (Ok true, s') /\
     probes (trace s') = replicate 5 "http://localhost/health" /\
     sleeps (trace s') = [10; 10; 10; 10]) /\
  (exists s',
     verify_deployment world_down live "http://localhost" initial
     = (Ok false, s') /\
     probes (trace s') = replicate 5 "http://localhost/health" /\
     sleeps (trace s') = [10; 10; 10; 10; 10]).
Proof.
  split; eexists; (split; [vm_compute; reflexivity|]); split; reflexivity.
Qed.

(** C3.  The verification against an endpoint that answers every probe
    with 204 No Content: five probes are made one after the other with no
    sleep between them, and the result is failure.  The sleep of 10 is in
    the handler of [URLError] only. *)
Theorem verify_deployment_non_200_no_backoff :
  exists s',
    verify_deployment world_no_content live "http://localhost" initial
    = (Ok false, s') /\
    probes (trace s') = replicate 5 "http://localhost/health" /\
    sleeps (trace s') = [] /\
    now s' = 5.
Proof. eexists. split; [vm_compute; reflexivity|]. repeat split. Qed.

(** ** The polling loop *)

(** The loop unfolds as the [while] statement reads. *)
Lemma wait_loop_step W self cluster service start timeout s :
  wait_loop W self cluster service start timeout s =
  if now s - start <? timeout then
    match poll_once W self cluster service s with
    | (Ok None, s') => wait_loop W self cluster service start timeout s'
    | (Ok (Some b), s') => (Ok b, s')
    | (Raise e, s') => (Raise e, s')
    end
  else (bind (logger ERROR [Lit "Deployment timed out"])
             (fun _ => ret false)) s.
Proof.
  simp wait_loop.
  enough (Hgen : forall i : {b | (now s - start <? timeout) = b},
            Deploy.wait_loop_unfold_clause_1 W self cluster service start
              timeout s i =
            if proj1_sig i then
              match poll_once W self cluster service s with
              | (Ok None, s') =>
                  wait_loop W self cluster service start timeout s'
              | (Ok (Some b), s') => (Ok b, s')
              | (Raise e, s') => (Raise e, s')
              end
            else (bind (logger ERROR [Lit "Deployment timed out"])
                       (fun _ => ret false)) s)
    by apply Hgen.
  intros [[] Hb]; simp wait_loop; [|reflexivity].
  enough (Hgen : forall j : {r | poll_once W self cluster service s = r},
            Deploy.wait_loop_unfold_clause_1_clause_1 W self cluster service
              start timeout s j Hb =
            match proj1_sig j with
            | (Ok None, s') =>
                wait_loop W self cluster service start timeout s'
            | (Ok (Some b), s') => (Ok b, s')
            | (Raise e, s') => (Raise e, s')
            end)
    by apply Hgen.
  intros [[[[b|]|e] s'] Hp]; cbn [proj1_sig]; simp wait_loop; reflexivity.
Qed.

(** One pass through the body of the loop on a descriptor that was
    fetched. *)
Lemma poll_once_spec W self cluster service s d ds :
  dry_run self = false ->
  fetched W (calls s) (describe_services cluster service) = Some (d, ds) ->
  reports_generations ds = true ->
  poll_once W self (JStr cluster) (JStr service) s =
  if exactly_one_completed ds
  then (Ok (Some true), after_completed s d (describe_services cluster service))
  else (Ok None, after_progress s d (describe_services cluster service) ds).
Proof.
  intros Hdry Hf Hwf. unfold fetched in Hf.
  destruct (run_process W (calls s) (describe_services cluster service))
    as [d' [e|code out err]] eqn:Hrun; [discriminate|].
  destruct (code =? 0) eqn:Hcode; [|discriminate].
  destruct (json_loads W out) as [doc|] eqn:Hdoc; [|discriminate].
  destruct (generations doc) as [ds'|] eqn:Hgen; [|discriminate].
  injection Hf as -> ->.
  unfold generations in Hgen.
  destruct (getitem doc "services") as [services|] eqn:Hsv; [|discriminate].
  destruct (getfirst services) as [info|] eqn:Hinfo; [|discriminate].
  destruct (getitem info "deployments") as [[| | | | |ds'|]|] eqn:Hdep;
    try discriminate.
  injection Hgen as ->.
  unfold poll_once, run_command. rewrite Hdry.
  unfold try_except, subprocess_run, external, logger, emit, bind, lift,
    modify, raise, ret, sleep, loads.
  cbn [join_args now calls trace].
  fold (describe_services cluster service). rewrite Hrun. cbn. rewrite Hcode.
  cbn. rewrite Hdoc, Hsv, Hinfo, Hdep. cbn.
  unfold after_completed, after_progress, running_log.
  destruct ds as [|[| | | | | |g] [|g2 rest]]; try discriminate.
  - cbn in Hwf. apply bool_decide_eq_true in Hwf. destruct Hwf as [st Hst].
    cbn [len length]. change (Z.of_nat 1 =? 1) with true. cbn.
    rewrite Hst. cbn.
    destruct (eq_str st "COMPLETED"); cbn; rewrite <- !app_assoc; reflexivity.
  - cbn [len length exactly_one_completed].
    destruct (Z.of_nat (S (S (length rest))) =? 1) eqn:E;
      [apply Z.eqb_eq in E; lia|].
    cbn. rewrite <- !app_assoc. reflexivity.
Qed.







(** ** Failures of a poll *)

(** An exception raised by the first pass through the body of the loop
    leaves [wait_for_deployment] as it is. *)
Lemma wait_for_deployment_poll_raises W self cluster service timeout s e s1 :
  dry_run self = false ->
  0 < timeout ->
  poll_once W self cluster service (log_event (waiting_log timeout) s)
  = (Raise e, s1) ->
  wait_for_deployment W self cluster service timeout s = (Raise e, s1).
Proof.
  intros Hdry Htimeout Hpoll.
  unfold wait_for_deployment. rewrite Hdry.
  unfold bind, logger, emit, modify, time_time. cbn beta iota.
  cbn [now calls trace].
  rewrite wait_loop_step. cbn [now].
  replace (now s - now s <? timeout) with true
    by (symmetry; apply Z.ltb_lt; lia).
  unfold log_event, waiting_log in Hpoll. rewrite Hpoll. reflexivity.
Qed.

(** A query that exits with a non-zero status makes the pass raise
    [DeploymentError]; an output that is not JSON makes it raise
    [JSONDecodeError]. *)
Lemma poll_once_query_error W self cluster service s d code out err :
  dry_run self = false ->
  run_process W (calls s) (describe_services cluster service)
  = (d, Exits code out err) ->
  code <> 0 ->
  exists e s',
    poll_once W self (JStr cluster) (JStr service) s = (Raise e, s') /\
    exc_cls e = DeploymentError /\
    commands (trace s') =
      commands (trace s) ++ [describe_services cluster service] /\
    sleeps (trace s') = sleeps (trace s).
Proof.
  intros Hdry Hrun Hcode.
  unfold poll_once, run_command. rewrite Hdry.
  unfold try_except, subprocess_run, external, logger, emit, bind, lift,
    modify, raise, ret.
  cbn [join_args now calls trace].
  fold (describe_services cluster service). rewrite Hrun. cbn.
  destruct (code =? 0) eqn:E; [apply Z.eqb_eq in E; contradiction|].
  cbn. do 2 eexists. split; [reflexivity|]. split; [reflexivity|].
  cbn [trace]. rewrite !commands_app, !sleeps_app. cbn.
  rewrite !app_nil_r. auto.
Qed.

Lemma poll_once_malformed_response W self cluster service s d out err :
  dry_run self = false ->
  run_process W (calls s) (describe_services cluster service)
  = (d, Exits 0 out err) ->
  json_loads W out = None ->
  exists e s',
    poll_once W self (JStr cluster) (JStr service) s = (Raise e, s') /\
    exc_cls e = JSONDecodeError /\
    commands (trace s') =
      commands (trace s) ++ [describe_services cluster service] /\
    sleeps (trace s') = sleeps (trace s).
Proof.
  intros Hdry Hrun Hout.
  unfold poll_once, run_command. rewrite Hdry.
  unfold try_except, subprocess_run, external, logger, emit, bind, lift,
    modify, raise, ret, loads.
  cbn [join_args now calls trace].
  fold (describe_services cluster service). rewrite Hrun. cbn.
  rewrite Hout. cbn.
  do 2 eexists. split; [reflexivity|]. split; [reflexivity|].
  cbn [trace]. rewrite !commands_app, !sleeps_app. cbn.
  rewrite !app_nil_r. auto.
Qed.





(** ** Dry run *)

(** Closes a case of [check_prerequisites] that has run [n] commands. *)
Ltac probed n :=
  exists n; eexists; (split; [lia|]);
  (split; [rewrite <- ?app_assoc; reflexivity|]);
  (split; [lia|]);
  (split; [reflexivity|]);
  let H := fresh in intros H; first [discriminate H | reflexivity].

(** [check_prerequisites] runs the first one to four of its commands and
    nothing else; when it answers [True] it has run all four. *)
Lemma check_prerequisites_effects W self s :
  exists n t,
    (1 <= n <= 4)%nat /\
    trace (check_prerequisites W self s).2 = trace s ++ t /\
    now s <= now (check_prerequisites W self s).2 /\
    effects t = map probe_event (take n prerequisite_probes) /\
    ((check_prerequisites W self s).1 = Ok true -> n = 4%nat).
Proof.
  unfold check_prerequisites, try_except, subprocess_run, external, logger,
    emit, bind, lift, modify, raise, ret, loads. cbn [fold_m].
  unfold try_except, subprocess_run, external, logger,
    emit, bind, lift, modify, raise, ret.
  repeat (cbn; break_match); cbn;
    first [ probed 1%nat | probed 2%nat | probed 3%nat | probed 4%nat ].
Qed.

Lemma split_nonempty sep s : split sep s <> [].
Proof.
  destruct s as [|c r]; cbn; [discriminate|].
  destruct (Ascii.eqb c sep); [discriminate|].
  destruct (split sep r); discriminate.
Qed.

(** *** Steps that only write log records *)

Lemma quietly_ret {A} (v : A) : quietly (ret v) (fun x => x = v).
Proof.
  intros s. exists v, []. unfold ret, logged. rewrite app_nil_r.
  destruct s; repeat split.
Qed.

Lemma quietly_lift {A} (v : A) : quietly (lift (Ok v)) (fun x => x = v).
Proof. apply (quietly_ret v). Qed.

Lemma quietly_logger l m : quietly (logger l m) (fun _ => True).
Proof. intros s. exists tt, [EvLog l m]. repeat split. Qed.

Lemma quietly_utcnow : quietly utcnow (fun _ => True).
Proof.
  intros s. exists (now s), []. unfold utcnow, time_time, logged.
  rewrite app_nil_r. destruct s; repeat split.
Qed.

Lemma quietly_bind {A B} (m : M state A) (k : A -> M state B) P Q :
  quietly m P -> (forall a, P a -> quietly (k a) Q) -> quietly (bind m k) Q.
Proof.
  intros Hm Hk s. destruct (Hm s) as (a & lg1 & H1 & E1 & Ha).
  destruct (Hk a Ha (logged lg1 s)) as (b & lg2 & H2 & E2 & Hb).
  exists b, (lg1 ++ lg2). unfold bind. rewrite H1, H2. split; [|split].
  - unfold logged. cbn. rewrite app_assoc. reflexivity.
  - rewrite effects_app, E1, E2. reflexivity.
  - exact Hb.
Qed.

(** Sequencing when the value of the first computation is not used. *)
Lemma quietly_then {A B} (m : M state A) (k : M state B) P Q :
  quietly m P -> quietly k Q -> quietly (bind m (fun _ => k)) Q.
Proof. intros Hm Hk. apply (quietly_bind m _ P Q Hm). intros; exact Hk. Qed.

Lemma quietly_weaken {A} (m : M state A) (P Q : A -> Prop) :
  quietly m P -> (forall a, P a -> Q a) -> quietly m Q.
Proof.
  intros Hm HPQ s. destruct (Hm s) as (a & lg & H & E & Ha).
  exists a, lg. auto.
Qed.

Lemma run_command_quietly W self cmd cwd capture argv :
  dry_run self = true ->
  join_args cmd = Ok argv ->
  quietly (run_command W self cmd cwd capture) (fun _ => True).
Proof.
  intros Hdry Hargs. unfold run_command. rewrite Hargs, Hdry.
  eapply quietly_bind; [apply quietly_lift|]. intros ? ->.
  apply (quietly_then _ _ _ _ (quietly_logger _ _)).
  apply (quietly_then _ _ _ _ (quietly_logger _ _)).
  eapply quietly_weaken; [apply quietly_ret|]. auto.
Qed.

Ltac quiet_command Hdry :=
  eapply quietly_then;
  [eapply run_command_quietly; [exact Hdry|reflexivity]|].

Ltac quiet_log := eapply quietly_then; [apply quietly_logger|].

Lemma deploy_terraform_quietly W self :
  dry_run self = true ->
  quietly (deploy_terraform W self) (fun outputs => outputs = []).
Proof.
  intros Hdry. unfold deploy_terraform. rewrite Hdry. cbn [negb].
  quiet_log. do 3 quiet_command Hdry.
  eapply quietly_bind;
    [eapply run_command_quietly; [exact Hdry|reflexivity]|].
  intros _ _. apply quietly_ret.
Qed.

Lemma build_image_quietly W self tag :
  dry_run self = true ->
  quietly (build_image W self tag)
          (fun image => image = ("ddgo-api:" ++ tag)%string).
Proof.
  intros Hdry. unfold build_image.
  quiet_log. quiet_command Hdry. quiet_log. apply quietly_ret.
Qed.

Lemma push_to_ecr_quietly W self tag repo :
  dry_run self = true ->
  quietly (push_to_ecr W self ("ddgo-api:" ++ tag)%string (JStr repo))
          (fun _ => True).
Proof.
  intros Hdry. unfold push_to_ecr. rewrite Hdry. cbn [negb].
  change (split ":" ("ddgo-api:" ++ tag)%string)
    with ("ddgo-api" :: split ":" tag).
  destruct (split ":" tag) as [|t rest] eqn:Hs;
    [exfalso; exact (split_nonempty _ _ Hs)|].
  quiet_log.
  eapply quietly_bind;
    [eapply run_command_quietly; [exact Hdry|reflexivity]|].
  intros _ _.
  eapply quietly_then; [apply quietly_ret|].
  eapply quietly_bind; [apply quietly_lift|]. intros ? ->. cbn zeta.
  do 2 quiet_command Hdry. quiet_log.
  eapply quietly_weaken; [apply quietly_ret|]. auto.
Qed.

Lemma update_ecs_service_quietly W self cluster service image :
  dry_run self = true ->
  quietly (update_ecs_service W self (JStr cluster) (JStr service) image)
          (fun _ => True).
Proof.
  intros Hdry. unfold update_ecs_service. rewrite Hdry.
  quiet_log.
  eapply quietly_bind;
    [eapply run_command_quietly; [exact Hdry|reflexivity]|].
  intros _ _. apply quietly_logger.
Qed.

Lemma wait_for_deployment_quietly W self cluster service timeout :
  dry_run self = true ->
  quietly (wait_for_deployment W self cluster service timeout)
          (fun completed => completed = true).
Proof.
  intros Hdry. unfold wait_for_deployment. rewrite Hdry.
  do 2 quiet_log. apply quietly_ret.
Qed.

Lemma verify_deployment_quietly W self url :
  dry_run self = true ->
  quietly (verify_deployment W self url) (fun healthy => healthy = true).
Proof.
  intros Hdry. unfold verify_deployment. rewrite Hdry.
  do 2 quiet_log. apply quietly_ret.
Qed.

(** With the dry-run flag, the steps after the prerequisite check only
    write log records, and the outcome is that of the check. *)
Lemma deploy_steps_dry_run W self skip_build skip_terraform s :
  dry_run self = true ->
  exists lg,
    deploy_steps W self skip_build skip_terraform s =
    ((check_prerequisites W self s).1,
     logged lg (check_prerequisites W self s).2) /\
    effects lg = [].
Proof.
  intros Hdry. unfold deploy_steps. unfold bind at 1.
  destruct (check_prerequisites W self s) as [[[]|e] s1]; cbn [fst snd negb];
    [|exists []; unfold logged; rewrite app_nil_r; destruct s1;
      split; reflexivity..].
  match goal with
  | |- exists lg, ?m s1 = _ /\ _ =>
      enough (Hq : quietly m (fun b => b = true));
      [destruct (Hq s1) as (v & lg & Heq & Heff & ->); exists lg; auto|]
  end.
  eapply quietly_bind.
  { destruct skip_terraform; cbn [negb];
      [apply quietly_ret|apply deploy_terraform_quietly; exact Hdry]. }
  intros outputs ->. cbn [dict_get].
  eapply (quietly_bind _ _ (fun _ => True)).
  { destruct skip_build; cbn [negb].
    - eapply quietly_weaken; [apply quietly_ret|]. intros; exact I.
    - eapply quietly_bind; [apply quietly_utcnow|]. intros t _.
      eapply quietly_bind; [apply build_image_quietly; exact Hdry|].
      intros image ->. apply push_to_ecr_quietly. exact Hdry. }
  intros ecr_image _.
  eapply quietly_then; [apply update_ecs_service_quietly; exact Hdry|].
  eapply quietly_bind; [apply wait_for_deployment_quietly; exact Hdry|].
  intros completed ->. cbn [negb].
  eapply quietly_bind; [apply verify_deployment_quietly; exact Hdry|].
  intros healthy ->. cbn [negb].
  eapply quietly_bind; [apply quietly_utcnow|]. intros t _.
  quiet_log. apply quietly_ret.
Qed.

(** C7, as the code has it.  With the dry-run flag set, the only external
    commands executed are those of the prerequisite check (the version of
    docker, aws and terraform, then the caller identity), which runs as in
    a real deployment; after it nothing is run, probed, slept on or asked.
    The process exits with status 0 when the prerequisite check passes and
    with status 1 when it fails or raises. *)
Theorem main_dry_run_runs_only_prerequisite_probes W args s :
  arg_dry_run args = true ->
  In (arg_environment args) VALID_ENVIRONMENTS ->
  let self := mkDeployer (arg_environment args) true (now s) in
  let pre := check_prerequisites W self (started self s) in
  exists s' n,
    main W args s = (Ok (match pre.1 with Ok true => 0 | _ => 1 end), s') /\
    (1 <= n <= 4)%nat /\
    effects (trace s') =
      effects (trace s) ++ map probe_event (take n prerequisite_probes) /\
    (pre.1 = Ok true -> n = 4%nat).
Proof.
  intros Hdry Henv self pre.
  destruct (check_prerequisites_effects W self (started self s))
    as (n & t & Hn & Ht & _ & Heff & Hall).
  destruct (deploy_steps_dry_run W self (arg_skip_build args)
              (arg_skip_terraform args) (started self s) eq_refl)
    as (lg & Hsteps & Hlg).
  fold pre in Ht, Hall, Hsteps.
  unfold main. rewrite Hdry, andb_false_r.
  unfold bind at 1. cbn [ret].
  unfold bind at 1. unfold Deployer_init.
  rewrite (valid_environment _ Henv). cbn [negb].
  unfold bind at 1, utcnow, time_time. cbn [ret]. fold self.
  unfold bind at 1.
  unfold deploy, try_except, bind at 1, logger, emit, modify.
  cbn [now calls trace]. unfold bind at 1. cbn [now calls trace].
  rewrite <- app_assoc. cbn [app].
  change [EvLog INFO [Lit "Starting deployment to "; Lit (environment self)];
          EvLog INFO [Lit "Dry run: "; PBool (dry_run self)]]
    with (start_logs self).
  fold (started self s). rewrite Hsteps. unfold logged.
  assert (Hpre : effects (trace pre.2) =
                 effects (trace s) ++
                 map probe_event (take n prerequisite_probes)).
  { rewrite Ht. unfold started. cbn [trace].
    rewrite !effects_app, Heff. cbn. rewrite app_nil_r. reflexivity. }
  destruct pre.1 as [[]|e] eqn:Hres.
  - do 2 eexists. split; [reflexivity|]. split; [exact Hn|].
    cbn [trace]. rewrite effects_app, Hlg, app_nil_r. auto.
  - do 2 eexists. split; [reflexivity|]. split; [exact Hn|].
    cbn [trace]. rewrite effects_app, Hlg, app_nil_r. auto.
  - cbn [find_handler existsb].
    destruct (isinstance e DeploymentError || false);
      [|rewrite isinstance_Exception; cbn [orb]];
      unfold bind, ret; cbn;
      do 2 eexists; (split; [reflexivity|]); (split; [exact Hn|]);
      cbn [trace]; rewrite !effects_app, Hlg; cbn; rewrite !app_nil_r; auto.
Qed.

Lemma main_dry_run_runs_only_prerequisite_probes_witness :
  let self := mkDeployer "staging" true (now initial) in
  let pre := check_prerequisites world_no_docker self (started self initial) in
  exists s' n,
    main world_no_docker staging_dry_run initial
    = (Ok (match pre.1 with Ok true => 0 | _ => 1 end), s') /\
    (1 <= n <= 4)%nat /\
    effects (trace s') =
      effects (trace initial) ++ map probe_event (take n prerequisite_probes)
    /\ (pre.1 = Ok true -> n = 4%nat).
Proof.
  apply (main_dry_run_runs_only_prerequisite_probes world_no_docker
           staging_dry_run initial); [reflexivity|].
  cbn. auto.
Defined.

(** A dry run on a machine that passes the prerequisite check: the four
    commands of the check are executed, and the exit status is 0. *)
Lemma main_dry_run_with_prerequisites :
  exists s',
    main world_ready staging_dry_run initial = (Ok 0, s') /\
    effects (trace s') = map probe_event prerequisite_probes.
Proof. eexists. split; [vm_compute; reflexivity|]. reflexivity. Qed.

(** C7, as stated, fails: a dry run on a machine without docker executes
    three external commands and exits with status 1. *)
Lemma main_dry_run_executes_commands_and_fails :
  exists s',
    main world_no_docker staging_dry_run initial = (Ok 1, s') /\
    commands (trace s') =
      [["docker"; "--version"]; ["aws"; "--version"];
       ["terraform"; "--version"]].
Proof. eexists. split; [vm_compute; reflexivity|]. reflexivity. Qed.

End DeployProofs.

(* ===================================================================== *)
(** * Properties of the request handlers                                  *)
(* ===================================================================== *)

Module HandlerProofs.

Import App AppSpec Search HandlerSpec PyFacts.

Local Open Scope list_scope.

(** ** The lazily created globals *)

(** X1.  [get_redis] never raises.  A client that exists is returned with
    no call made; otherwise one is created and pinged, and it is kept and
    returned exactly when both succeed: after a failure the global is
    [None] again and [None] is returned.  The database pool is not
    touched. *)
Theorem get_redis_never_raises W s :
  exists r s',
    get_redis W s = (Ok r, s') /\
    redis_client s' = r /\
    db_pool s' = db_pool s /\
    (is_Some (redis_client s) -> s' = s) /\
    (redis_client s = None ->
     (is_Some r <->
      is_ok (new_redis W (calls s)) && is_ok (ping W (S (calls s))) = true)).
Proof.
  destruct s as [p r k lg ms].
  unfold get_redis, try_except, external, logger, set_redis_client, bind, get,
    modify, raise, ret, is_ok.
  repeat (cbn in *; rewrite ?isinstance_Exception; break_match);
    simplify_eq; cbn; do 2 eexists; (split; [reflexivity|]); cbn;
    repeat split; try (intros [? ?]; discriminate); try discriminate;
    try (intros _; eexists; reflexivity); try (intros []; discriminate); eauto.
Qed.

(** X2.  [get_db_pool] returns the pool that exists, or creates one and
    keeps it, so that the next call returns the same pool with no call
    made; when the creation fails it logs the error and raises the same
    exception, and the global stays [None], so that the next call tries
    again. *)
Theorem get_db_pool_caches_or_reraises W s :
  (forall p s', get_db_pool W s = (Ok p, s') ->
     is_Some p /\ db_pool s' = p /\ redis_client s' = redis_client s /\
     get_db_pool W s' = (Ok p, s')) /\
  (forall e s', get_db_pool W s = (Raise e, s') ->
     db_pool s = None /\ connect_pool W (calls s) = Raise e /\
     db_pool s' = None /\ calls s' = S (calls s) /\
     In (ERROR, [Lit "Failed to create database pool: "; PExc e]) (log s')).
Proof.
  destruct s as [p r k lg ms].
  unfold get_db_pool, try_except, external, logger, set_db_pool, bind, get,
    modify, raise, ret.
  split; intros x s';
    repeat (cbn in *; rewrite ?isinstance_Exception; break_match);
    intros Heq; simplify_eq; cbn; repeat split; eauto.
  apply in_or_app. right. left. reflexivity.
Qed.

(** ** The metrics decorator *)

Lemma track_metrics_run {A} W method endpoint (f : M state (A * Z)) s :
  track_metrics W method endpoint f s =
  ((f (entered s)).1,
   observed W method endpoint s (f (entered s)).1 (f (entered s)).2).
Proof.
  unfold track_metrics, read_clock, external, bind at 1. cbn.
  fold (entered s). destruct (f (entered s)) as [[[a code]|e] s1]; reflexivity.
Qed.


(** ** The search endpoint *)

Lemma search_body_no_query W X body s :
  no_query X body ->
  search_body W X (Ok body) s = (Ok (missing_query, 400), s).
Proof.
  unfold search_body, bind, lift, ret.
  intros [Hb|(d & -> & Hq)].
  - rewrite Hb. reflexivity.
  - destruct (truthy X (JObj d)) eqn:Hd.
    + cbn. rewrite Hq. reflexivity.
    + destruct d; [reflexivity|discriminate].
Qed.

(** X4.  A search request without a usable query, that is with a missing,
    null or empty body or with a 'query' member that is missing or falsy,
    is answered with status 400 and the error message; the cache is not
    contacted, no client is created, nothing is logged, and the request
    is counted with status 400. *)
Theorem search_requires_query W X endpoint body s :
  no_query X body ->
  exists s',
    search W X endpoint (Ok body) s = (Ok (missing_query, 400), s') /\
    db_pool s' = db_pool s /\ redis_client s' = redis_client s /\
    log s' = log s /\ calls s' = (2 + calls s)%nat /\
    counted (metrics s) (metrics s') "POST" endpoint 400.
Proof.
  intros Hq. unfold search. rewrite track_metrics_run.
  rewrite (search_body_no_query W X body (entered s) Hq).
  eexists. split; [reflexivity|]. cbn. repeat split. eexists. reflexivity.
Qed.

Lemma search_requires_query_witness :
  exists s',
    search (world_with true true) cache_empty (Some "search")
           (Ok (JObj [("query", JStr "")])) fresh
    = (Ok (missing_query, 400), s') /\
    db_pool s' = db_pool fresh /\ redis_client s' = redis_client fresh /\
    log s' = log fresh /\ calls s' = (2 + calls fresh)%nat /\
    counted (metrics fresh) (metrics s') "POST" (Some "search") 400.
Proof.
  apply (search_requires_query (world_with true true) cache_empty
           (Some "search") (JObj [("query", JStr "")]) fresh).
  right. eexists. split; reflexivity.
Defined.





(** X6.  A request body that is valid JSON, truthy and not an object, a
    non-empty list or string for instance, makes the handler raise
    [AttributeError] on [data.get]: no response is produced, the cache is
    not contacted, and the request is counted with status 500. *)
Theorem search_body_not_an_object W X endpoint body s :
  truthy X body = true ->
  (forall d, body <> JObj d) ->
  exists e s',
    search W X endpoint (Ok body) s = (Raise e, s') /\
    exc_cls e = AttributeError /\
    redis_client s' = redis_client s /\
    log s' = log s /\
    calls s' = (2 + calls s)%nat /\
    counted (metrics s) (metrics s') "POST" endpoint 500.
Proof.
  intros Ht Hobj. unfold search. rewrite track_metrics_run.
  assert (Hrun : exists e,
             search_body W X (Ok body) (entered s) = (Raise e, entered s) /\
             exc_cls e = AttributeError).
  { unfold search_body, bind, lift. rewrite Ht.
    destruct body; try (eexists; split; reflexivity).
    exfalso. eapply Hobj. reflexivity. }
  destruct Hrun as (e & -> & He).
  do 2 eexists. split; [reflexivity|]. cbn.
  repeat split; [exact He|]. eexists. reflexivity.
Qed.

Lemma search_body_not_an_object_witness :
  exists e s',
    search (world_with true true) cache_empty (Some "search")
           (Ok (JArr [JStr "rocq"])) fresh = (Raise e, s') /\
    exc_cls e = AttributeError /\
    redis_client s' = redis_client fresh /\
    log s' = log fresh /\
    calls s' = (2 + calls fresh)%nat /\
    counted (metrics fresh) (metrics s') "POST" (Some "search") 500.
Proof.
  apply (search_body_not_an_object (world_with true true) cache_empty
           (Some "search") (JArr [JStr "rocq"]) fresh);
    [reflexivity|discriminate].
Defined.

End HandlerProofs.

(* ===================================================================== *)
(** * Properties of the deployment steps                                  *)
(* ===================================================================== *)

Module PipelineProofs.

Import Deploy DeploySpec PipelineSpec PyFacts DeployProofs.

Local Open Scope list_scope.

(** ** Projections of the trace *)

Lemma trace_commands_app t u : commands (t ++ u) = commands t ++ commands u.
Proof. apply omap_app. Qed.

Lemma trace_effects_app t u : effects (t ++ u) = effects t ++ effects u.
Proof. apply List.filter_app. Qed.

Lemma trace_sleeps_app t u : sleeps (t ++ u) = sleeps t ++ sleeps u.
Proof. apply omap_app. Qed.

Lemma trace_probes_app t u : probes (t ++ u) = probes t ++ probes u.
Proof. apply omap_app. Qed.

(** ** [run_command] *)

Lemma join_args_strings argv : join_args (map JStr argv) = Ok argv.
Proof.
  induction argv as [|a l IH]; cbn; [reflexivity|]. rewrite IH. reflexivity.
Qed.

Lemma join_args_raises cmd :
  (exists j, In j cmd /\ forall s, j <> JStr s) <->
  exists e, join_args cmd = Raise e.
Proof.
  induction cmd as [|j l IH]; cbn.
  - split; [intros (? & [] & _)|intros [? ?]; discriminate].
  - split.
    + intros (x & [->|Hin] & Hx).
      * destruct x; eauto. exfalso. eapply Hx. reflexivity.
      * destruct j; eauto.
        destruct (proj1 IH (ex_intro _ x (conj Hin Hx))) as [e He].
        rewrite He. eauto.
    + intros [e He]. destruct j;
        try (eexists; split; [left; reflexivity|discriminate]).
      destruct (join_args l) eqn:E; [discriminate|].
      destruct (proj2 IH (ex_intro _ _ eq_refl)) as (x & Hin & Hx).
      exists x. auto.
Qed.

Lemma join_args_TypeError cmd e :
  join_args cmd = Raise e -> exc_cls e = TypeError.
Proof.
  induction cmd as [|j l IH]; cbn; [discriminate|].
  destruct j; try (intros [= <-]; reflexivity).
  destruct (join_args l); [discriminate|]. intros [= <-]. auto.
Qed.

Lemma run_command_ok W self cmd cwd capture s argv d out err :
  dry_run self = false ->
  join_args cmd = Ok argv ->
  run_process W (calls s) argv = (d, Exits 0 out err) ->
  run_command W self cmd cwd capture s =
  (Ok (mkCompleted argv 0 (if capture then Some out else None)
                   (if capture then Some err else None)),
   mkState (now s + Z.of_N d) (S (calls s))
           (trace s ++ [running_log argv;
                        EvRun argv (Some (default PROJECT_ROOT cwd)) None])).
Proof.
  intros Hdry Hargs Hrun. unfold run_command. rewrite Hargs, Hdry.
  unfold try_except, subprocess_run, external, logger, emit, bind, lift,
    modify, raise, ret. cbn. rewrite Hrun. cbn.
  rewrite <- app_assoc. reflexivity.
Qed.

Lemma run_command_error W self cmd cwd capture s argv d code out err :
  dry_run self = false ->
  join_args cmd = Ok argv ->
  run_process W (calls s) argv = (d, Exits code out err) ->
  code <> 0 ->
  run_command W self cmd cwd capture s =
  (Raise (new_exc DeploymentError ("Command failed: " ++ join " " argv)%string),
   mkState (now s + Z.of_N d) (S (calls s))
           (trace s ++ [running_log argv;
                        EvRun argv (Some (default PROJECT_ROOT cwd)) None;
                        command_failed_log
                          (if capture then Some err else None)])).
Proof.
  intros Hdry Hargs Hrun Hcode. unfold run_command. rewrite Hargs, Hdry.
  unfold try_except, subprocess_run, external, logger, emit, bind, lift,
    modify, raise, ret. cbn. rewrite Hrun. cbn.
  destruct (code =? 0) eqn:E; [apply Z.eqb_eq in E; contradiction|].
  cbn. unfold isinstance. cbn. rewrite <- !app_assoc. reflexivity.
Qed.

Lemma run_command_spawn_error W self cmd cwd capture s argv d e :
  dry_run self = false ->
  join_args cmd = Ok argv ->
  run_process W (calls s) argv = (d, SpawnFails e) ->
  isinstance e CalledProcessError = false ->
  run_command W self cmd cwd capture s =
  (Raise e,
   mkState (now s + Z.of_N d) (S (calls s))
           (trace s ++ [running_log argv;
                        EvRun argv (Some (default PROJECT_ROOT cwd)) None])).
Proof.
  intros Hdry Hargs Hrun He. unfold run_command. rewrite Hargs, Hdry.
  unfold try_except, subprocess_run, external, logger, emit, bind, lift,
    modify, raise, ret. cbn. rewrite Hrun. cbn. rewrite He. cbn.
  rewrite <- !app_assoc. reflexivity.
Qed.

(** X7.  A command that exits with a non-zero status makes [run_command]
    raise [DeploymentError]; the message names the command line, and what
    the command wrote on its error stream goes to the log only, where it
    is [None] unless the output was captured.  The command was run once,
    in the given directory or in the project root. *)
Theorem run_command_failure_raises_DeploymentError W self cmd cwd capture s
  argv d code out err :
  dry_run self = false ->
  join_args cmd = Ok argv ->
  run_process W (calls s) argv = (d, Exits code out err) ->
  code <> 0 ->
  exists s',
    run_command W self cmd cwd capture s =
    (Raise (new_exc DeploymentError
              ("Command failed: " ++ join " " argv)%string), s') /\
    effects (trace s') =
      effects (trace s) ++ [in_dir (default PROJECT_ROOT cwd) argv] /\
    last (trace s') =
      Some (command_failed_log (if capture then Some err else None)).
Proof.
  intros Hdry Hargs Hrun Hcode.
  rewrite (run_command_error W self cmd cwd capture s argv d code out err
             Hdry Hargs Hrun Hcode).
  eexists. split; [reflexivity|]. cbn [trace]. split.
  - rewrite trace_effects_app. reflexivity.
  - change [running_log argv; EvRun argv (Some (default PROJECT_ROOT cwd)) None;
            command_failed_log (if capture then Some err else None)]
      with ([running_log argv;
             EvRun argv (Some (default PROJECT_ROOT cwd)) None] ++
            [command_failed_log (if capture then Some err else None)]).
    rewrite app_assoc. apply last_snoc.
Qed.

Lemma run_command_failure_raises_DeploymentError_witness :
  exists s',
    run_command world_access_denied live
                [JStr "terraform"; JStr "init"] None false initial =
    (Raise (new_exc DeploymentError "Command failed: terraform init"), s') /\
    effects (trace s') =
      effects (trace initial) ++ [in_dir PROJECT_ROOT ["terraform"; "init"]] /\
    last (trace s') = Some (command_failed_log None).
Proof.
  apply (run_command_failure_raises_DeploymentError world_access_denied live
           [JStr "terraform"; JStr "init"] None false initial
           ["terraform"; "init"] 1%N 254 "" "AccessDeniedException");
    [reflexivity|reflexivity|reflexivity|lia].
Defined.

(** X8.  When the program cannot be started and the failure is not a
    [CalledProcessError], [run_command] lets the exception through as it
    is: it is not turned into a [DeploymentError], and no failure record
    is logged. *)
Theorem run_command_spawn_failure_propagates W self cmd cwd capture s argv
  d e :
  dry_run self = false ->
  join_args cmd = Ok argv ->
  run_process W (calls s) argv = (d, SpawnFails e) ->
  isinstance e CalledProcessError = false ->
  exists s',
    run_command W self cmd cwd capture s = (Raise e, s') /\
    trace s' =
      trace s ++ [running_log argv; in_dir (default PROJECT_ROOT cwd) argv].
Proof.
  intros Hdry Hargs Hrun He.
  rewrite (run_command_spawn_error W self cmd cwd capture s argv d e
             Hdry Hargs Hrun He).
  eexists. split; reflexivity.
Qed.

Lemma run_command_spawn_failure_propagates_witness :
  exists s',
    run_command world_no_docker live [JStr "docker"; JStr "push"; JStr "img"]
                None false initial = (Raise not_installed, s') /\
    trace s' =
      trace initial ++ [running_log ["docker"; "push"; "img"];
                        in_dir PROJECT_ROOT ["docker"; "push"; "img"]].
Proof.
  apply (run_command_spawn_failure_propagates world_no_docker live
           [JStr "docker"; JStr "push"; JStr "img"] None false initial
           ["docker"; "push"; "img"] 0%N not_installed);
    reflexivity.
Defined.

(** X9.  A command line with an element that is not a string is rejected
    with [TypeError] before anything is logged or run, in a dry run too:
    the command line is joined for the log first. *)
Theorem run_command_rejects_non_string_argument W self cmd cwd capture s :
  (exists j, In j cmd /\ forall a, j <> JStr a) ->
  exists e,
    run_command W self cmd cwd capture s = (Raise e, s) /\
    exc_cls e = TypeError.
Proof.
  intros Hj. apply join_args_raises in Hj. destruct Hj as [e He].
  exists e. split; [|exact (join_args_TypeError cmd e He)].
  unfold run_command, bind, lift. rewrite He. reflexivity.
Qed.

Lemma run_command_rejects_non_string_argument_witness :
  exists e,
    run_command world_ready (mkDeployer "dev" true 0)
                [JStr "aws"; JStr "ecs"; JStr "update-service";
                 JStr "--cluster"; JNum 7] None false initial
    = (Raise e, initial) /\
    exc_cls e = TypeError.
Proof.
  apply (run_command_rejects_non_string_argument world_ready
           (mkDeployer "dev" true 0)
           [JStr "aws"; JStr "ecs"; JStr "update-service";
            JStr "--cluster"; JNum 7] None false initial).
  exists (JNum 7). split; [cbn; tauto|discriminate].
Defined.

(** ** [check_prerequisites] *)

Lemma check_prerequisites_true_iff W self s :
  (check_prerequisites W self s).1 = Ok true <->
  prerequisites_met W (calls s) = true.
Proof.
  unfold prerequisites_met, version_ok, identity_ok.
  unfold check_prerequisites, try_except, subprocess_run, external, logger,
    emit, bind, lift, modify, raise, ret, loads, getitem. cbn [fold_m].
  unfold try_except, subprocess_run, external, logger,
    emit, bind, lift, modify, raise, ret.
  repeat (cbn; break_match); cbn; simplify_eq; cbn.
  all: try (split; [discriminate|]; cbn; try discriminate;
            rewrite ?andb_false_r; try discriminate).
  split; reflexivity.
Qed.

(** One pass through the loop over the required tools. *)
Lemma version_probe_step W (missing : list string) tool s :
  probe_settles W (calls s) tool = true ->
  try_except
    (bind (subprocess_run W [tool; "--version"] None true None)
          (fun _ => ret missing))
    [([CalledProcessError; FileNotFoundError],
      fun _ => ret (missing ++ [tool]))] s =
  (Ok (if tool_missing W (calls s) tool then missing ++ [tool] else missing),
   mkState (now s + Z.of_N (run_process W (calls s) [tool; "--version"]).1)
           (S (calls s))
           (trace s ++ [probe_event [tool; "--version"]])).
Proof.
  unfold probe_settles, version_ok, tool_missing, try_except, subprocess_run,
    external, bind, raise, ret.
  destruct (run_process W (calls s) [tool; "--version"]) as [d [e|code out err]];
    cbn.
  - intros He. rewrite orb_false_r, He. reflexivity.
  - intros _. destruct (code =? 0); cbn; [reflexivity|].
    unfold isinstance. cbn. reflexivity.
Qed.

Lemma version_ok_settles W k tool :
  version_ok W k tool = true ->
  probe_settles W k tool = true /\ tool_missing W k tool = false.
Proof.
  unfold probe_settles, version_ok, tool_missing.
  destruct (run_process W k [tool; "--version"]) as [d [e|code out err]];
    [discriminate|].
  intros ->. split; reflexivity.
Qed.

(** X10.  [check_prerequisites] answers [True] exactly when the three
    version probes exit with status 0 and [aws sts get-caller-identity]
    exits with status 0 printing a JSON object that has an 'Account'
    member; it then has run these four commands and nothing else. *)
Theorem check_prerequisites_passes_iff W self s :
  ((check_prerequisites W self s).1 = Ok true <->
   prerequisites_met W (calls s) = true) /\
  ((check_prerequisites W self s).1 = Ok true ->
   effects (trace (check_prerequisites W self s).2) =
     effects (trace s) ++ map probe_event prerequisite_probes).
Proof.
  split; [apply check_prerequisites_true_iff|].
  intros Hok.
  destruct (check_prerequisites_effects W self s)
    as (n & t & _ & Ht & _ & He & H4).
  rewrite Ht, trace_effects_app, He, (H4 Hok). reflexivity.
Qed.

(** X11.  When at least one version probe fails the way a missing tool
    does, [check_prerequisites] still probes all three tools, logs the
    missing ones in the order docker, aws, terraform, and answers [False]
    without checking the credentials. *)
Theorem check_prerequisites_reports_missing_tools W self s :
  probe_settles W (calls s) "docker" = true ->
  probe_settles W (1 + calls s) "aws" = true ->
  probe_settles W (2 + calls s) "terraform" = true ->
  missing_tools W (calls s) <> [] ->
  exists s',
    check_prerequisites W self s = (Ok false, s') /\
    effects (trace s') = effects (trace s) ++ map probe_event version_probes /\
    last (trace s') = Some (missing_tools_log (missing_tools W (calls s))).
Proof.
  intros H1 H2 H3 Hmiss.
  unfold check_prerequisites. unfold bind at 1, logger, emit, modify.
  cbn [fold_m]. unfold bind at 1. unfold bind at 1.
  rewrite version_probe_step by exact H1. cbn [calls now trace].
  unfold bind at 1.
  rewrite version_probe_step by exact H2. cbn [calls now trace].
  unfold bind at 1.
  rewrite version_probe_step by exact H3. cbn [calls now trace].
  unfold ret at 1.
  unfold missing_tools in *. cbn [Nat.add] in *.
  destruct (tool_missing W (calls s) "docker"),
    (tool_missing W (S (calls s)) "aws"),
    (tool_missing W (S (S (calls s))) "terraform"); cbn in Hmiss |- *;
    try congruence;
    eexists; (split; [reflexivity|]); cbn [trace];
    rewrite !trace_effects_app, ?last_snoc; cbn; rewrite ?app_nil_r;
    (split; [rewrite <- ?app_assoc; reflexivity|reflexivity]).
Qed.

Lemma check_prerequisites_reports_missing_tools_witness :
  exists s',
    check_prerequisites world_no_docker live initial = (Ok false, s') /\
    effects (trace s') =
      effects (trace initial) ++ map probe_event version_probes /\
    last (trace s') = Some (missing_tools_log ["docker"]).
Proof.
  apply (check_prerequisites_reports_missing_tools world_no_docker live
           initial); [reflexivity|reflexivity|reflexivity|discriminate].
Defined.

(** X12.  Credentials whose identity document is a JSON object without an
    'Account' member make [check_prerequisites] raise [KeyError]: the
    handler of the credentials check catches a failed command and
    undecodable output only. *)
Theorem check_prerequisites_identity_without_account W self s d out err dct :
  version_ok W (calls s) "docker" = true ->
  version_ok W (1 + calls s) "aws" = true ->
  version_ok W (2 + calls s) "terraform" = true ->
  run_process W (3 + calls s) ["aws"; "sts"; "get-caller-identity"]
  = (d, Exits 0 out err) ->
  json_loads W out = Some (JObj dct) ->
  dict_lookup dct "Account" = None ->
  exists s',
    check_prerequisites W self s = (Raise (new_exc KeyError "Account"), s') /\
    effects (trace s') =
      effects (trace s) ++ map probe_event prerequisite_probes.
Proof.
  intros H1 H2 H3 Hrun Hjson Hacct.
  destruct (version_ok_settles _ _ _ H1) as [S1 M1].
  destruct (version_ok_settles _ _ _ H2) as [S2 M2].
  destruct (version_ok_settles _ _ _ H3) as [S3 M3].
  cbn [Nat.add] in *.
  unfold check_prerequisites. unfold bind at 1, logger at 1, emit, modify.
  cbn [fold_m]. unfold bind at 1. unfold bind at 1.
  rewrite version_probe_step by exact S1. cbn [calls now trace]. rewrite M1.
  unfold bind at 1.
  rewrite version_probe_step by exact S2. cbn [calls now trace]. rewrite M2.
  unfold bind at 1.
  rewrite version_probe_step by exact S3. cbn [calls now trace]. rewrite M3.
  unfold ret at 1. cbn iota.
  unfold try_except, subprocess_run, external, logger, emit, bind, lift,
    modify, raise, ret, loads, getitem.
  cbn [calls now trace]. cbn in Hrun. rewrite Hrun. cbn.
  rewrite Hjson, Hacct. cbn. unfold isinstance. cbn.
  eexists. split; [reflexivity|]. cbn [trace].
  rewrite !trace_effects_app. cbn. rewrite !app_nil_r, <- !app_assoc.
  reflexivity.
Qed.

Lemma check_prerequisites_identity_without_account_witness :
  exists s',
    check_prerequisites world_anonymous live initial
    = (Raise (new_exc KeyError "Account"), s') /\
    effects (trace s') =
      effects (trace initial) ++ map probe_event prerequisite_probes.
Proof.
  apply (check_prerequisites_identity_without_account world_anonymous live
           initial 1%N "{}" "" []); reflexivity.
Defined.

(** ** [deploy_terraform] *)

(** Runs the next [run_command] of the goal on an answer with status 0. *)
Ltac command_ok Hdry H :=
  unfold bind at 1;
  match goal with
  | |- context [run_command ?W ?self ?cmd ?cwd ?cap ?s] =>
      rewrite (run_command_ok W self cmd cwd cap s _ _ _ _ Hdry eq_refl
                 (H _));
      cbn [now calls trace]
  end.

(** Runs the next [run_command] of the goal on a non-zero status. *)
Ltac command_error Hdry H Hcode :=
  unfold bind at 1;
  match goal with
  | |- context [run_command ?W ?self ?cmd ?cwd ?cap ?s] =>
      rewrite (run_command_error W self cmd cwd cap s _ _ _ _ _ Hdry eq_refl
                 H Hcode);
      cbn [now calls trace]
  end.

Ltac log_step :=
  unfold bind at 1, logger at 1, emit at 1, modify at 1;
  cbn [now calls trace].

(** Closes a goal on the effects of a trace given by its events. *)
Ltac effects_done :=
  cbn [trace]; rewrite ?trace_effects_app; cbn;
  rewrite ?app_nil_r, <- ?app_assoc; reflexivity.

(** X13.  When the four Terraform commands succeed, [deploy_terraform] has
    run init, plan, apply and output, in this order and in the directory
    of the environment, and returns the outputs with each one replaced by
    its 'value' member. *)
Theorem deploy_terraform_returns_outputs W self s d0 out0 err0 d1 out1 err1
  d2 out2 err2 d3 out3 err3 kvs outputs :
  dry_run self = false ->
  exits_ok W (calls s) d0 out0 err0 ->
  exits_ok W (1 + calls s) d1 out1 err1 ->
  exits_ok W (2 + calls s) d2 out2 err2 ->
  exits_ok W (3 + calls s) d3 out3 err3 ->
  json_loads W out3 = Some (JObj kvs) ->
  output_values kvs = Ok outputs ->
  exists s',
    deploy_terraform W self s = (Ok outputs, s') /\
    effects (trace s') =
      effects (trace s) ++ map (in_dir (tf_dir self)) terraform_commands.
Proof.
  intros Hdry H0 H1 H2 H3 Hjson Hout.
  unfold deploy_terraform. rewrite Hdry. cbn [negb].
  log_step.
  command_ok Hdry H0. command_ok Hdry H1. command_ok Hdry H2.
  command_ok Hdry H3. cbn [cp_stdout].
  unfold bind, lift, loads, items. rewrite Hjson, Hout.
  eexists. split; [reflexivity|]. effects_done.
Qed.

Lemma deploy_terraform_returns_outputs_witness :
  exists s',
    deploy_terraform world_terraform live initial
    = (Ok [("ecs_cluster_name", JStr "ddgo-dev")], s') /\
    effects (trace s') =
      effects (trace initial) ++ map (in_dir (tf_dir live)) terraform_commands.
Proof.
  apply (deploy_terraform_returns_outputs world_terraform live initial
           1%N "" "" 1%N "" "" 1%N "" "" 1%N "<outputs>" ""
           [("ecs_cluster_name", JObj [("value", JStr "ddgo-dev")])]);
    try reflexivity; intros argv; reflexivity.
Defined.

(** X14.  [deploy_terraform] stops at the first command that exits with a
    non-zero status: it raises [DeploymentError] naming that command and
    runs none of the later ones, so a failed plan is never applied. *)
Theorem deploy_terraform_stops_at_first_failure W self s i argv d code out
  err :
  dry_run self = false ->
  terraform_commands !! i = Some argv ->
  (forall j, (j < i)%nat ->
     exists dj outj errj, exits_ok W (j + calls s) dj outj errj) ->
  run_process W (i + calls s) argv = (d, Exits code out err) ->
  code <> 0 ->
  exists s',
    deploy_terraform W self s =
    (Raise (new_exc DeploymentError
              ("Command failed: " ++ join " " argv)%string), s') /\
    effects (trace s') =
      effects (trace s) ++
      map (in_dir (tf_dir self)) (take (S i) terraform_commands).
Proof.
  intros Hdry Hi Hbefore Hrun Hcode.
  unfold deploy_terraform. log_step.
  destruct i as [|[|[|[|i]]]]; [| | | |discriminate];
    injection Hi as <-; cbn [Nat.add] in Hrun.
  - command_error Hdry Hrun Hcode.
    eexists. split; [reflexivity|]. effects_done.
  - destruct (Hbefore 0%nat ltac:(lia)) as (? & ? & ? & H0).
    command_ok Hdry H0. command_error Hdry Hrun Hcode.
    eexists. split; [reflexivity|]. effects_done.
  - destruct (Hbefore 0%nat ltac:(lia)) as (? & ? & ? & H0).
    destruct (Hbefore 1%nat ltac:(lia)) as (? & ? & ? & H1).
    command_ok Hdry H0. command_ok Hdry H1. command_error Hdry Hrun Hcode.
    eexists. split; [reflexivity|]. effects_done.
  - destruct (Hbefore 0%nat ltac:(lia)) as (? & ? & ? & H0).
    destruct (Hbefore 1%nat ltac:(lia)) as (? & ? & ? & H1).
    destruct (Hbefore 2%nat ltac:(lia)) as (? & ? & ? & H2).
    command_ok Hdry H0. command_ok Hdry H1. command_ok Hdry H2.
    command_error Hdry Hrun Hcode.
    eexists. split; [reflexivity|]. effects_done.
Qed.

Lemma deploy_terraform_stops_at_first_failure_witness :
  exists s',
    deploy_terraform world_plan_fails live initial =
    (Raise (new_exc DeploymentError
              "Command failed: terraform plan -out=tfplan"), s') /\
    effects (trace s') =
      effects (trace initial) ++
      map (in_dir (tf_dir live))
          [["terraform"; "init"]; ["terraform"; "plan"; "-out=tfplan"]].
Proof.
  apply (deploy_terraform_stops_at_first_failure world_plan_fails live
           initial 1%nat ["terraform"; "plan"; "-out=tfplan"] 1%N 1 ""
           "Error: Invalid reference");
    [reflexivity|reflexivity| |reflexivity|lia].
  intros j Hj. exists 1%N, "", "". intros argv.
  destruct j as [|j]; [reflexivity|lia].
Defined.

(** X15.  The outputs returned are built entry by entry: the keys are kept
    in order, every value is the 'value' member of the output of that
    key, and the comprehension fails exactly when some output has no such
    member. *)
Theorem output_values_members kvs :
  (forall outputs,
     output_values kvs = Ok outputs ->
     map fst outputs = map fst kvs /\
     forall k, dict_lookup outputs k =
               match dict_lookup kvs k with
               | Some v => match getitem v "value" with
                           | Ok x => Some x
                           | Raise _ => None
                           end
               | None => None
               end) /\
  ((exists e, output_values kvs = Raise e) <->
   Exists (fun kv => exists e, getitem kv.2 "value" = Raise e) kvs).
Proof.
  induction kvs as [|[k v] rest [IHok IHerr]]; cbn [output_values].
  - split.
    + intros ? [= <-]. split; reflexivity.
    + split; [intros [? ?]; discriminate|intros H; inversion H].
  - destruct (getitem v "value") as [x|e] eqn:Hv.
    + destruct (output_values rest) as [d|e] eqn:Hrest.
      * split.
        -- intros ? [= <-]. destruct (IHok d eq_refl) as [Hk Hl].
           split; [cbn; rewrite Hk; reflexivity|].
           intros k'. cbn. destruct (String.eqb k k'); [rewrite Hv|]; auto.
        -- split; [intros [? ?]; discriminate|].
           intros H. inversion H as [? ? [e He]|? ? H']; subst; cbn in *.
           ++ congruence.
           ++ apply IHerr in H'. destruct H'; discriminate.
      * split; [discriminate|].
        split; [|eauto]. intros _. right. apply IHerr. eauto.
    + split; [discriminate|].
      split; [|eauto]. intros _. left. cbn. eauto.
Qed.

(** ** [update_ecs_service] *)

Lemma dict_lookup_set_same d k v : dict_lookup (dict_set d k v) k = Some v.
Proof.
  induction d as [|[k' v'] d IH]; cbn.
  - rewrite String.eqb_refl. reflexivity.
  - destruct (String.eqb k' k) eqn:E; cbn; rewrite E; auto.
Qed.

Lemma dict_lookup_set_other d k k' v :
  k <> k' -> dict_lookup (dict_set d k v) k' = dict_lookup d k'.
Proof.
  intros Hk. induction d as [|[k0 v0] d IH]; cbn.
  - destruct (String.eqb k k') eqn:E; [|reflexivity].
    apply String.eqb_eq in E. contradiction.
  - destruct (String.eqb k0 k) eqn:E; cbn.
    + apply String.eqb_eq in E. subst k0.
      destruct (String.eqb k k') eqn:E'; [|reflexivity].
      apply String.eqb_eq in E'. contradiction.
    + rewrite IH. reflexivity.
Qed.

(** X16.  The loop over the container definitions changes the 'image'
    member of the containers named 'app' and nothing else: the containers
    keep their number, order and every other member, a container with
    another name is left as it is, and running the loop again changes
    nothing. *)
Theorem set_app_image_updates_app_containers image l l' :
  set_app_image image l = Ok l' ->
  Forall2 (fun c c' =>
             (forall k, k <> "image" -> getitem c' k = getitem c k) /\
             exists name,
               getitem c "name" = Ok name /\
               if eq_str name "app"
               then getitem c' "image" = Ok (JStr image)
               else c' = c) l l' /\
  set_app_image image l' = Ok l'.
Proof.
  revert l'. induction l as [|c rest IH]; intros l'; cbn [set_app_image].
  - intros [= <-]. split; [constructor|reflexivity].
  - destruct (getitem c "name") as [name|e] eqn:Hname; [|discriminate].
    destruct (set_app_image image rest) as [rest'|e]; [|discriminate].
    intros [= <-]. destruct (IH rest' eq_refl) as [Hall Hagain].
    destruct c as [| | | | | |d]; try discriminate.
    destruct (eq_str name "app") eqn:Happ.
    + split.
      * constructor; [|exact Hall]. split.
        -- intros k Hk. cbn. rewrite dict_lookup_set_other by congruence.
           reflexivity.
        -- exists name. rewrite Happ. split; [exact Hname|].
           cbn. rewrite dict_lookup_set_same. reflexivity.
      * cbn [set_app_image].
        assert (Hname' : getitem (JObj (dict_set d "image" (JStr image)))
                                 "name" = Ok name).
        { cbn. rewrite dict_lookup_set_other by discriminate. exact Hname. }
        rewrite Hname', Happ, Hagain.
        assert (Hsame : dict_set (dict_set d "image" (JStr image)) "image"
                                 (JStr image) =
                        dict_set d "image" (JStr image)).
        { clear. induction d as [|[k v] d IH]; cbn; [reflexivity|].
          destruct (String.eqb k "image") eqn:E; cbn; rewrite E;
            [reflexivity|]. rewrite IH. reflexivity. }
        rewrite Hsame. reflexivity.
    + split.
      * constructor; [|exact Hall]. split; [reflexivity|].
        exists name. rewrite Happ. auto.
      * cbn [set_app_image]. rewrite Hname, Happ, Hagain. reflexivity.
Qed.

Lemma set_app_image_updates_app_containers_witness :
  Forall2 (fun c c' =>
             (forall k, k <> "image" -> getitem c' k = getitem c k) /\
             exists name,
               getitem c "name" = Ok name /\
               if eq_str name "app"
               then getitem c' "image" = Ok (JStr "repo:2")
               else c' = c)
          [JObj [("name", JStr "app"); ("image", JStr "repo:1")];
           JObj [("name", JStr "proxy"); ("image", JStr "nginx")]]
          [JObj [("name", JStr "app"); ("image", JStr "repo:2")];
           JObj [("name", JStr "proxy"); ("image", JStr "nginx")]] /\
  set_app_image "repo:2"
          [JObj [("name", JStr "app"); ("image", JStr "repo:2")];
           JObj [("name", JStr "proxy"); ("image", JStr "nginx")]]
  = Ok [JObj [("name", JStr "app"); ("image", JStr "repo:2")];
        JObj [("name", JStr "proxy"); ("image", JStr "nginx")]].
Proof.
  apply (set_app_image_updates_app_containers "repo:2"
           [JObj [("name", JStr "app"); ("image", JStr "repo:1")];
            JObj [("name", JStr "proxy"); ("image", JStr "nginx")]]).
  reflexivity.
Defined.


(** Closes the case in which the step has raised. *)
Ltac stopped :=
  unfold bind, lift; do 2 eexists; (split; [reflexivity|]);
  (split; [reflexivity|]);
  cbn [trace]; rewrite !trace_commands_app; cbn;
  rewrite ?app_nil_r, <- ?app_assoc; reflexivity.

(** Runs the next [lift] of the goal on the value it gives. *)
Ltac lift_step := unfold bind at 1, lift at 1.




(** X18.  A task definition that lacks one of the members read without a
    default, as one for the EC2 launch type lacks 'cpu' and 'memory',
    makes [update_ecs_service] raise [KeyError] after the two describe
    commands: nothing is registered and the service is not updated. *)
Theorem update_ecs_service_missing_member W self cluster service image s
  d0 out0 err0 d1 out1 err1 doc td k :
  dry_run self = false ->
  exits_ok W (calls s) d0 out0 err0 ->
  exits_ok W (1 + calls s) d1 out1 err1 ->
  json_loads W out1 = Some doc ->
  getitem doc "taskDefinition" = Ok (JObj td) ->
  In k required_members ->
  dict_lookup td k = None ->
  (forall defs,
     dict_lookup td "containerDefinitions" = Some defs ->
     exists defs', update_containers image defs = Ok defs') ->
  exists e s',
    update_ecs_service W self (JStr cluster) (JStr service) image s
    = (Raise e, s') /\
    exc_cls e = KeyError /\
    commands (trace s') =
      commands (trace s) ++
      [current_task_definition cluster service;
       describe_task_definition (strip out0)].
Proof.
  intros Hdry H0 H1 Hdoc Htd Hin Hk Hcont.
  unfold update_ecs_service. log_step.
  command_ok Hdry H0. rewrite Hdry. cbn [cp_stdout].
  lift_step. log_step.
  command_ok Hdry H1. cbn [cp_stdout].
  lift_step. unfold loads at 1. rewrite Hdoc.
  lift_step. rewrite Htd.
  unfold getitem at 1 2 3 4 5 6 7, get_default.
  destruct (dict_lookup td "containerDefinitions") as [defs|] eqn:E1;
    [|stopped].
  lift_step. lift_step. destruct (Hcont defs eq_refl) as [defs' ->].
  lift_step. destruct (dict_lookup td "family") eqn:E2; [|stopped].
  lift_step. destruct (dict_lookup td "executionRoleArn") eqn:E3; [|stopped].
  lift_step. lift_step.
  destruct (dict_lookup td "networkMode") eqn:E4; [|stopped].
  lift_step.
  destruct (dict_lookup td "requiresCompatibilities") eqn:E5; [|stopped].
  lift_step. destruct (dict_lookup td "cpu") eqn:E6; [|stopped].
  lift_step. destruct (dict_lookup td "memory") eqn:E7; [|stopped].
  exfalso. cbn in Hin.
  repeat (destruct Hin as [<-|Hin]; [congruence|]). exact Hin.
Qed.

Lemma update_ecs_service_missing_member_witness :
  exists e s',
    update_ecs_service world_ec2_service live (JStr "ddgo-dev")
                       (JStr "ddgo-dev-app") "repo:2" initial
    = (Raise e, s') /\
    exc_cls e = KeyError /\
    commands (trace s') =
      commands (trace initial) ++
      [current_task_definition "ddgo-dev" "ddgo-dev-app";
       describe_task_definition "ddgo:7"].
Proof.
  apply (update_ecs_service_missing_member world_ec2_service live
           "ddgo-dev" "ddgo-dev-app" "repo:2" initial
           1%N " ddgo:7 " "" 1%N "<current>" ""
           (JObj [("taskDefinition", JObj ec2_definition)])
           ec2_definition "cpu");
    try reflexivity; try (intros argv; reflexivity).
  - cbn. tauto.
  - intros defs [= <-]. eexists. reflexivity.
Defined.
(** ** [push_to_ecr] *)

(** X19.  When its commands succeed, [push_to_ecr] fetches the registry
    password, logs in at the host of the repository with the password on
    the standard input of the command, tags the image with the
    repository and the tag of its name, pushes it and returns the new
    name. *)
Theorem push_to_ecr_pushes_tagged_image W self image_name repo s name tag
  rest d0 password err0 d1 out1 err1 d2 out2 err2 d3 out3 err3 :
  dry_run self = false ->
  split ":" image_name = name :: tag :: rest ->
  exits_ok W (calls s) d0 password err0 ->
  exits_ok W (1 + calls s) d1 out1 err1 ->
  exits_ok W (2 + calls s) d2 out2 err2 ->
  exits_ok W (3 + calls s) d3 out3 err3 ->
  exists s',
    push_to_ecr W self image_name (JStr repo) s
    = (Ok (repo ++ ":" ++ tag)%string, s') /\
    effects (trace s') =
      effects (trace s) ++
      [in_dir PROJECT_ROOT get_login_password;
       EvRun (docker_login (registry_of repo)) None (Some password);
       in_dir PROJECT_ROOT
              ["docker"; "tag"; image_name; (repo ++ ":" ++ tag)%string];
       in_dir PROJECT_ROOT ["docker"; "push"; (repo ++ ":" ++ tag)%string]].
Proof.
  intros Hdry Hsplit H0 H1 H2 H3.
  unfold push_to_ecr. log_step.
  command_ok Hdry H0. rewrite Hdry. cbn [negb cp_stdout].
  unfold bind at 1. unfold bind at 1, lift at 1, split_first.
  unfold registry_of.
  destruct (split "/" repo) as [|registry more] eqn:Hrepo;
    [exfalso; exact (split_nonempty _ _ Hrepo)|].
  unfold bind at 1, subprocess_run, external, bind at 1.
  cbn [now calls trace]. rewrite (H1 _). cbn [Z.eqb].
  unfold ret at 1. unfold ret at 1.
  lift_step. rewrite Hsplit.
  cbn [py_str].
  command_ok Hdry H2. command_ok Hdry H3.
  unfold bind, logger, emit, modify, ret.
  eexists. split; [reflexivity|]. effects_done.
Qed.

Lemma push_to_ecr_pushes_tagged_image_witness :
  exists s',
    push_to_ecr world_registry live "ddgo-api:20240101-000000"
                (JStr sample_repository) initial
    = (Ok (sample_repository ++ ":" ++ "20240101-000000")%string, s') /\
    effects (trace s') =
      effects (trace initial) ++
      [in_dir PROJECT_ROOT get_login_password;
       EvRun (docker_login (registry_of sample_repository)) None
             (Some "secret");
       in_dir PROJECT_ROOT
              ["docker"; "tag"; "ddgo-api:20240101-000000";
               (sample_repository ++ ":" ++ "20240101-000000")%string];
       in_dir PROJECT_ROOT
              ["docker"; "push";
               (sample_repository ++ ":" ++ "20240101-000000")%string]].
Proof.
  apply (push_to_ecr_pushes_tagged_image world_registry live
           "ddgo-api:20240101-000000" sample_repository initial
           "ddgo-api" "20240101-000000" [] 1%N "secret" ""
           1%N "" "" 1%N "" "" 1%N "" "");
    try reflexivity; intros argv; reflexivity.
Defined.

(** X20.  A login that the registry refuses ends [push_to_ecr] with the
    [CalledProcessError] of the login command itself, which is run
    without [run_command]: no [DeploymentError] is raised, no failure
    record is logged, and the image is neither tagged nor pushed. *)
Theorem push_to_ecr_login_failure W self image_name repo s d0 password err0
  d code out err :
  dry_run self = false ->
  exits_ok W (calls s) d0 password err0 ->
  run_process W (1 + calls s) (docker_login (registry_of repo))
  = (d, Exits code out err) ->
  code <> 0 ->
  exists e s',
    push_to_ecr W self image_name (JStr repo) s = (Raise e, s') /\
    exc_cls e = CalledProcessError /\
    trace s' =
      trace s ++
      [EvLog INFO [Lit "Pushing "; Lit image_name; Lit " to ECR..."];
       running_log get_login_password;
       in_dir PROJECT_ROOT get_login_password;
       EvRun (docker_login (registry_of repo)) None (Some password)].
Proof.
  intros Hdry H0 Hrun Hcode.
  unfold push_to_ecr. log_step.
  command_ok Hdry H0. rewrite Hdry. cbn [negb cp_stdout].
  unfold bind at 1. unfold bind at 1, lift at 1, split_first.
  unfold registry_of in *.
  destruct (split "/" repo) as [|registry more] eqn:Hrepo;
    [exfalso; exact (split_nonempty _ _ Hrepo)|].
  unfold bind at 1, subprocess_run, external, bind at 1.
  cbn [now calls trace hd Nat.add] in *. unfold docker_login in Hrun.
  rewrite Hrun.
  destruct (code =? 0) eqn:E; [apply Z.eqb_eq in E; contradiction|].
  unfold raise. do 2 eexists. split; [reflexivity|].
  split; [reflexivity|]. cbn [trace]. rewrite <- !app_assoc. reflexivity.
Qed.

Lemma push_to_ecr_login_failure_witness :
  exists e s',
    push_to_ecr world_login_refused live "ddgo-api:20240101-000000"
                (JStr sample_repository) initial = (Raise e, s') /\
    exc_cls e = CalledProcessError /\
    trace s' =
      trace initial ++
      [EvLog INFO [Lit "Pushing "; Lit "ddgo-api:20240101-000000";
                   Lit " to ECR..."];
       running_log get_login_password;
       in_dir PROJECT_ROOT get_login_password;
       EvRun (docker_login (registry_of sample_repository)) None
             (Some "secret")].
Proof.
  apply (push_to_ecr_login_failure world_login_refused live
           "ddgo-api:20240101-000000" sample_repository initial
           1%N "secret" "" 1%N 1 "" "401 Unauthorized");
    [reflexivity|intros argv; reflexivity|reflexivity|lia].
Defined.
(** ** [wait_for_deployment] *)

Lemma run_command_spawn_raises W self cmd cwd capture s argv d e :
  dry_run self = false ->
  join_args cmd = Ok argv ->
  run_process W (calls s) argv = (d, SpawnFails e) ->
  exists e' s', run_command W self cmd cwd capture s = (Raise e', s').
Proof.
  intros Hdry Hargs Hrun. unfold run_command. rewrite Hargs, Hdry.
  unfold try_except, subprocess_run, external, logger, emit, bind, lift,
    modify, raise, ret. cbn. rewrite Hrun. cbn.
  destruct (isinstance e CalledProcessError); cbn; eauto.
Qed.

(** Runs the next [run_command] of the goal on the answer [H]. *)
Ltac command_ran Hdry H :=
  unfold bind at 1;
  match goal with
  | |- context [run_command ?W ?self ?cmd ?cwd ?cap ?s] =>
      rewrite (run_command_ok W self cmd cwd cap s _ _ _ _ Hdry eq_refl H);
      cbn [now calls trace]
  end.

(** What a pass through the body of the loop that does not raise has
    done. *)
Lemma poll_once_returns W self cluster service s r s' :
  dry_run self = false ->
  poll_once W self (JStr cluster) (JStr service) s = (Ok r, s') ->
  calls s' = S (calls s) /\
  exists d ds,
    fetched W (calls s) (describe_services cluster service) = Some (d, ds) /\
    match r with
    | Some b =>
        b = true /\ exactly_one_completed ds = true /\
        now s' = now s + Z.of_N d
    | None =>
        exactly_one_completed ds = false /\ now s' = now s + Z.of_N d + 15
    end.
Proof.
  intros Hdry. unfold poll_once, fetched.
  destruct (run_process W (calls s) (describe_services cluster service))
    as [d [e|code out err]] eqn:Hrun.
  { unfold bind at 1.
    match goal with
    | |- context [run_command W self ?cmd None true s] =>
        destruct (run_command_spawn_raises W self cmd None true s _ d e
                    Hdry eq_refl Hrun) as (e' & s1 & ->)
    end.
    discriminate. }
  destruct (Z.eq_dec code 0) as [->|Hcode].
  2: { command_error Hdry Hrun Hcode. discriminate. }
  command_ran Hdry Hrun. cbn [Z.eqb cp_stdout].
  lift_step. unfold loads at 1.
  destruct (json_loads W out) as [doc|]; [|discriminate].
  unfold generations.
  lift_step. destruct (getitem doc "services") as [services|]; [|discriminate].
  lift_step. destruct (getfirst services) as [info|]; [|discriminate].
  lift_step.
  destruct (getitem info "deployments") as [deployments|]; [|discriminate].
  unfold bind, lift, logger, emit, sleep, modify, ret.
  destruct deployments as [| | | |str|ds|dct]; cbn [len]; try discriminate.
  - destruct str as [|c [|c' str]]; cbn [String.length].
    + cbn. discriminate.
    + change (Z.of_nat 1 =? 1) with true. cbn. discriminate.
    + destruct (Z.of_nat (S (S (String.length str))) =? 1) eqn:E;
        [apply Z.eqb_eq in E; lia|]. cbn. discriminate.
  - destruct ds as [|g [|g2 rest]].
    + cbn. discriminate.
    + cbn [length]. change (Z.of_nat 1 =? 1) with true. cbn iota.
      cbn [getfirst exactly_one_completed rollout_state].
      destruct g as [| | | | | |dd]; cbn; try discriminate.
      destruct (dict_lookup dd "rolloutState") as [st|] eqn:Hst; cbn;
        [|discriminate].
      destruct (eq_str st "COMPLETED") eqn:Heq; cbn; intros [= <- <-];
        (split; [reflexivity|]); do 2 eexists; (split; [reflexivity|]);
        cbn; rewrite Hst, Heq; auto.
    + cbn [length].
      destruct (Z.of_nat (S (S (length rest))) =? 1) eqn:E;
        [apply Z.eqb_eq in E; lia|].
      cbn [getfirst exactly_one_completed].
      destruct g as [| | | | | |dd]; cbn; try discriminate.
      intros [= <- <-].
      (split; [reflexivity|]); do 2 eexists; (split; [reflexivity|]); auto.
  - destruct dct as [|kv [|kv' dct]]; cbn [length].
    + cbn. discriminate.
    + change (Z.of_nat 1 =? 1) with true. cbn. discriminate.
    + destruct (Z.of_nat (S (S (length dct))) =? 1) eqn:E;
        [apply Z.eqb_eq in E; lia|]. cbn. discriminate.
Qed.

Lemma wait_loop_true_only_if_completed W self cluster service start timeout
  n :
  dry_run self = false ->
  forall s s',
    (Z.to_nat (start + timeout - now s) <= n)%nat ->
    wait_loop W self (JStr cluster) (JStr service) start timeout s
    = (Ok true, s') ->
    exists k d ds,
      (calls s <= k)%nat /\ calls s' = S k /\
      fetched W k (describe_services cluster service) = Some (d, ds) /\
      exactly_one_completed ds = true.
Proof.
  intros Hdry. induction n as [|n IH]; intros s s' Hn;
    rewrite wait_loop_step;
    destruct (now s - start <? timeout) eqn:Hcmp;
    try (cbn; discriminate).
  - apply Z.ltb_lt in Hcmp. lia.
  - apply Z.ltb_lt in Hcmp.
    destruct (poll_once W self (JStr cluster) (JStr service) s)
      as [[[b|]|e] s1] eqn:Hpoll; [| |discriminate].
    + intros [= -> ->].
      destruct (poll_once_returns _ _ _ _ _ _ _ Hdry Hpoll)
        as (Hc & d & ds & Hf & _ & Hone & _).
      exists (calls s), d, ds. auto.
    + destruct (poll_once_returns _ _ _ _ _ _ _ Hdry Hpoll)
        as (Hc & d & ds & _ & _ & Hnow).
      intros Hloop. destruct (IH s1 s' ltac:(lia) Hloop)
        as (k & d' & ds' & Hk & Hc' & Hf' & Hone).
      exists k, d', ds'. repeat split; auto. lia.
Qed.

(** X21.  Outside a dry run [wait_for_deployment] answers [True] only
    when its last query exited with status 0 and printed a descriptor
    whose list of deployments has exactly one element, with rollout state
    'COMPLETED'. *)
Theorem wait_for_deployment_true_only_if_completed W self cluster service
  timeout s s' :
  dry_run self = false ->
  wait_for_deployment W self (JStr cluster) (JStr service) timeout s
  = (Ok true, s') ->
  exists k d ds,
    (calls s <= k)%nat /\ calls s' = S k /\
    fetched W k (describe_services cluster service) = Some (d, ds) /\
    exactly_one_completed ds = true.
Proof.
  intros Hdry. unfold wait_for_deployment. rewrite Hdry.
  unfold bind, logger, emit, modify, time_time. cbn beta iota.
  cbn [now calls trace].
  intros Hloop.
  exact (wait_loop_true_only_if_completed W self cluster service (now s)
           timeout _ Hdry _ s' (Nat.le_refl _) Hloop).
Qed.

Lemma wait_for_deployment_true_only_if_completed_witness :
  exists k d ds,
    (calls initial <= k)%nat /\
    calls (wait_for_deployment world_completed live (JStr "ddgo-dev")
             (JStr "ddgo-dev-app") 600 initial).2 = S k /\
    fetched world_completed k (describe_services "ddgo-dev" "ddgo-dev-app")
    = Some (d, ds) /\
    exactly_one_completed ds = true.
Proof.
  apply (wait_for_deployment_true_only_if_completed world_completed live
           "ddgo-dev" "ddgo-dev-app" 600 initial);
    [reflexivity|vm_compute; reflexivity].
Defined.

(** X22.  With a timeout that is not positive [wait_for_deployment] makes
    no query at all: it logs the timeout and answers [False]. *)
Theorem wait_for_deployment_without_time W self cluster service timeout s :
  dry_run self = false ->
  timeout <= 0 ->
  wait_for_deployment W self cluster service timeout s =
  (Ok false,
   mkState (now s) (calls s)
           (trace s ++ [waiting_log timeout; timed_out_log])).
Proof.
  intros Hdry Htimeout. unfold wait_for_deployment. rewrite Hdry.
  unfold bind at 1, logger at 1, emit, modify, time_time.
  unfold bind at 1. rewrite wait_loop_step. cbn [now calls trace].
  replace (now s - now s <? timeout) with false
    by (symmetry; apply Z.ltb_ge; lia).
  cbn. rewrite <- app_assoc. reflexivity.
Qed.

Lemma wait_for_deployment_without_time_witness :
  wait_for_deployment world_completed live (JStr "ddgo-dev")
                      (JStr "ddgo-dev-app") 0 initial =
  (Ok false, mkState 0 0 [waiting_log 0; timed_out_log]).
Proof.
  apply (wait_for_deployment_without_time world_completed live
           (JStr "ddgo-dev") (JStr "ddgo-dev-app") 0 initial);
    [reflexivity|lia].
Defined.

Lemma exactly_one_completed_reports ds :
  exactly_one_completed ds = true -> reports_generations ds = true.
Proof.
  destruct ds as [|[| | | | | |d] [|g rest]]; cbn; try discriminate.
  destruct (dict_lookup d "rolloutState"); [|discriminate].
  intros _. apply bool_decide_eq_true. eauto.
Qed.

Lemma wait_loop_completes_after W self cluster service start timeout bound
  n :
  dry_run self = false ->
  0 <= bound ->
  forall s,
    (forall i, (i < n)%nat ->
       in_progress W (calls s + i) (describe_services cluster service)
                   bound) ->
    completed W (calls s + n) (describe_services cluster service) bound ->
    now s - start + Z.of_nat n * (15 + bound) < timeout ->
    exists s',
      wait_loop W self (JStr cluster) (JStr service) start timeout s
      = (Ok true, s') /\
      sleeps (trace s') = sleeps (trace s) ++ replicate n 15 /\
      commands (trace s') =
        commands (trace s) ++
        replicate (S n) (describe_services cluster service) /\
      now s' <= now s + Z.of_nat n * (15 + bound) + bound.
Proof.
  intros Hdry Hbound. induction n as [|n IH]; intros s Hprog Hdone Htime;
    rewrite wait_loop_step.
  - rewrite Nat.add_0_r in Hdone. destruct Hdone as (d & ds & Hf & Hd & Hone).
    replace (now s - start <? timeout) with true
      by (symmetry; apply Z.ltb_lt; lia).
    rewrite (poll_once_spec W self cluster service s d ds Hdry Hf
               (exactly_one_completed_reports ds Hone)), Hone.
    eexists. split; [reflexivity|]. unfold after_completed. cbn [trace now].
    rewrite trace_sleeps_app, trace_commands_app. cbn.
    rewrite app_nil_r. repeat split. lia.
  - destruct (Hprog 0%nat ltac:(lia)) as (d & ds & Hf & Hd & Hwf & Hnot).
    rewrite Nat.add_0_r in Hf.
    replace (now s - start <? timeout) with true
      by (symmetry; apply Z.ltb_lt; lia).
    rewrite (poll_once_spec W self cluster service s d ds Hdry Hf Hwf), Hnot.
    set (s1 := after_progress s d (describe_services cluster service) ds).
    assert (Hs1 : sleeps (trace s1) = sleeps (trace s) ++ [15] /\
                  commands (trace s1) =
                    commands (trace s) ++
                    [describe_services cluster service]).
    { unfold s1, after_progress. cbn [trace].
      rewrite trace_sleeps_app, trace_commands_app.
      unfold running_log, progress_log. destruct ds as [|[] ?]; cbn; auto. }
    destruct Hs1 as [Hsl Hcm].
    destruct (IH s1) as (s' & Hrun & Hsl' & Hcm' & Hnow).
    + intros i Hi. cbn [calls s1 after_progress].
      replace (S (calls s) + i)%nat with (calls s + S i)%nat by lia.
      apply Hprog. lia.
    + cbn [calls s1 after_progress].
      replace (S (calls s) + n)%nat with (calls s + S n)%nat by lia.
      exact Hdone.
    + cbn [now s1 after_progress]. lia.
    + exists s'. split; [exact Hrun|].
      rewrite Hsl', Hcm', Hsl, Hcm, <- !app_assoc.
      cbn [now s1 after_progress] in Hnow.
      repeat split. lia.
Qed.

(** X23.  When the first [n] queries find the rollout in progress and the
    next one finds it complete, and the timeout leaves room for [n]
    rounds of one query and one sleep of 15, [wait_for_deployment]
    answers [True] after [n + 1] queries and [n] sleeps of 15. *)
Theorem wait_for_deployment_completes_after W self cluster service timeout
  bound n s :
  dry_run self = false ->
  0 <= bound ->
  (forall i, (i < n)%nat ->
     in_progress W (calls s + i) (describe_services cluster service)
                 bound) ->
  completed W (calls s + n) (describe_services cluster service) bound ->
  Z.of_nat n * (15 + bound) < timeout ->
  exists s',
    wait_for_deployment W self (JStr cluster) (JStr service) timeout s
    = (Ok true, s') /\
    sleeps (trace s') = sleeps (trace s) ++ replicate n 15 /\
    commands (trace s') =
      commands (trace s) ++
      replicate (S n) (describe_services cluster service) /\
    now s' <= now s + Z.of_nat n * (15 + bound) + bound.
Proof.
  intros Hdry Hbound Hprog Hdone Htime.
  unfold wait_for_deployment. rewrite Hdry.
  unfold bind, logger, emit, modify, time_time. cbn beta iota.
  cbn [now calls trace].
  match goal with
  | |- context [wait_loop _ _ _ _ _ _ ?s0] =>
      destruct (wait_loop_completes_after W self cluster service (now s)
                  timeout bound n Hdry Hbound s0 Hprog Hdone)
        as (s' & Hrun & Hsl & Hcm & Hnow); [cbn [now]; lia|]
  end.
  exists s'. split; [exact Hrun|]. rewrite Hsl, Hcm. cbn [trace now] in *.
  rewrite trace_sleeps_app, trace_commands_app. cbn. rewrite !app_nil_r.
  auto.
Qed.

Lemma wait_for_deployment_completes_after_witness :
  exists s',
    wait_for_deployment world_settling live (JStr "ddgo-dev")
                        (JStr "ddgo-dev-app") 600 initial
    = (Ok true, s') /\
    sleeps (trace s') = sleeps (trace initial) ++ replicate 2 15 /\
    commands (trace s') =
      commands (trace initial) ++
      replicate 3 (describe_services "ddgo-dev" "ddgo-dev-app") /\
    now s' <= now initial + Z.of_nat 2 * (15 + 2) + 2.
Proof.
  apply (wait_for_deployment_completes_after world_settling live
           "ddgo-dev" "ddgo-dev-app" 600 2 2 initial);
    [reflexivity|lia| | |lia].
  - intros i Hi. exists 2%N, rolling_generations.
    destruct i as [|[|i]]; [| |lia];
      (split; [vm_compute; reflexivity|]); (split; [lia|]);
      split; reflexivity.
  - exists 2%N, completed_generations.
    split; [vm_compute; reflexivity|]. split; [lia|reflexivity].
Defined.

(** X24.  A descriptor whose list of deployments is empty ends
    [wait_for_deployment] with [IndexError] at once: the query is neither
    repeated nor followed by a sleep. *)
Theorem wait_for_deployment_no_deployments W self cluster service timeout
  s d :
  dry_run self = false ->
  0 < timeout ->
  fetched W (calls s) (describe_services cluster service) = Some (d, []) ->
  exists e s',
    wait_for_deployment W self (JStr cluster) (JStr service) timeout s
    = (Raise e, s') /\
    exc_cls e = IndexError /\
    commands (trace s') =
      commands (trace s) ++ [describe_services cluster service] /\
    sleeps (trace s') = sleeps (trace s).
Proof.
  intros Hdry Htimeout Hf. unfold fetched in Hf.
  destruct (run_process W (calls s) (describe_services cluster service))
    as [d' [e|code out err]] eqn:Hrun; [discriminate|].
  destruct (code =? 0) eqn:Hcode; [|discriminate].
  apply Z.eqb_eq in Hcode. subst code.
  destruct (json_loads W out) as [doc|] eqn:Hdoc; [|discriminate].
  destruct (generations doc) as [ds|] eqn:Hgen; [|discriminate].
  injection Hf as -> ->.
  unfold generations in Hgen.
  destruct (getitem doc "services") as [services|] eqn:Hsv; [|discriminate].
  destruct (getfirst services) as [info|] eqn:Hinfo; [|discriminate].
  destruct (getitem info "deployments") as [[| | | | |ds|]|] eqn:Hdep;
    try discriminate.
  injection Hgen as ->.
  do 2 eexists. split.
  - apply wait_for_deployment_poll_raises; [exact Hdry|exact Htimeout|].
    unfold poll_once.
    unfold log_event at 1.
    command_ran Hdry Hrun. cbn [cp_stdout].
    unfold bind, lift, loads. rewrite Hdoc, Hsv, Hinfo, Hdep. cbn.
    reflexivity.
  - split; [reflexivity|]. cbn [trace log_event].
    rewrite !trace_commands_app, !trace_sleeps_app. cbn.
    rewrite !app_nil_r. auto.
Qed.

Lemma wait_for_deployment_no_deployments_witness :
  exists e s',
    wait_for_deployment world_no_deployments live (JStr "ddgo-dev")
                        (JStr "ddgo-dev-app") 600 initial
    = (Raise e, s') /\
    exc_cls e = IndexError /\
    commands (trace s') =
      commands (trace initial) ++
      [describe_services "ddgo-dev" "ddgo-dev-app"] /\
    sleeps (trace s') = sleeps (trace initial).
Proof.
  apply (wait_for_deployment_no_deployments world_no_deployments live
           "ddgo-dev" "ddgo-dev-app" 600 initial 1%N);
    [reflexivity|lia|reflexivity].
Defined.

(** ** [verify_deployment] *)

(** What a pass through the body of the probing loop that does not raise
    has done. *)
Lemma probe_once_returns W url attempt s r s' :
  probe_once W url attempt s = (Ok r, s') ->
  calls s' = S (calls s) /\
  match r with
  | Some b => b = true /\ exists d, open_url W (calls s) url = (d, Responds 200)
  | None => forall d, open_url W (calls s) url <> (d, Responds 200)
  end.
Proof.
  unfold probe_once, try_except, urlopen, external, logger, emit, sleep, bind,
    modify, raise, ret.
  destruct (open_url W (calls s) url) as [d [st|e]]; cbn.
  - destruct (st =? 200) eqn:E; cbn; intros [= <- <-]; (split; [reflexivity|]).
    + apply Z.eqb_eq in E. subst st. eauto.
    + intros d' [= _ ->]. discriminate.
  - destruct (isinstance e URLError || false); cbn; [|discriminate].
    intros [= <- <-]. split; [reflexivity|]. intros d'. discriminate.
Qed.

Lemma probe_loop_returns W url n :
  forall a s r s',
    for_each (seq a n) (probe_once W url) s = (Ok r, s') ->
    match r with
    | Some b =>
        b = true /\
        exists k d, (k < n)%nat /\
                    open_url W (calls s + k) url = (d, Responds 200)
    | None =>
        forall k d, (k < n)%nat ->
                    open_url W (calls s + k) url <> (d, Responds 200)
    end.
Proof.
  induction n as [|n IH]; intros a s r s'; cbn [seq for_each].
  - intros [= <- <-]. intros k d Hk. lia.
  - unfold bind at 1.
    destruct (probe_once W url a s) as [[[b|]|e] s1] eqn:Hp; [| |discriminate].
    + intros [= <- <-]. destruct (probe_once_returns _ _ _ _ _ _ Hp)
        as (_ & -> & d & Hd).
      split; [reflexivity|]. exists 0%nat, d. rewrite Nat.add_0_r.
      split; [lia|exact Hd].
    + destruct (probe_once_returns _ _ _ _ _ _ Hp) as (Hc & Hnot).
      intros Hloop. specialize (IH _ _ _ _ Hloop). rewrite Hc in IH.
      destruct r as [b|].
      * destruct IH as (-> & k & d & Hk & Hd).
        split; [reflexivity|]. exists (S k), d. split; [lia|].
        replace (calls s + S k)%nat with (S (calls s) + k)%nat by lia.
        exact Hd.
      * intros k d Hk. destruct k as [|k].
        -- rewrite Nat.add_0_r. apply Hnot.
        -- replace (calls s + S k)%nat with (S (calls s) + k)%nat by lia.
           apply IH. lia.
Qed.

(** X25.  Outside a dry run, a call of [verify_deployment] that returns
    answers [True] exactly when one of its five probes of the health URL
    got a response with status 200. *)
Theorem verify_deployment_true_iff_probe_200 W self url s b s' :
  dry_run self = false ->
  verify_deployment W self url s = (Ok b, s') ->
  (b = true <->
   exists k d, (k < 5)%nat /\
               open_url W (calls s + k) (url ++ "/health")%string
               = (d, Responds 200)).
Proof.
  intros Hdry. unfold verify_deployment. rewrite Hdry.
  set (loop := for_each (seq 0 5) _).
  unfold bind, logger, emit, modify. cbn beta.
  match goal with
  | |- context [loop ?s1] =>
      pose proof (probe_loop_returns W (url ++ "/health")%string 5 0%nat s1)
        as Hloop;
      fold loop in Hloop; destruct (loop s1) as [[[b0|]|e] s2];
      [| |discriminate]
  end.
  - intros [= <- <-]. specialize (Hloop _ _ eq_refl).
    destruct Hloop as (-> & k & d & Hk & Hd). split; eauto.
  - cbn. intros [= <- <-]. specialize (Hloop _ _ eq_refl). cbn in Hloop.
    split; [discriminate|]. intros (k & d & Hk & Hd).
    exfalso. exact (Hloop k d Hk Hd).
Qed.

Lemma verify_deployment_true_iff_probe_200_witness :
  true = true <->
  exists k d, (k < 5)%nat /\
              open_url world_warming_up (calls initial + k)
                       ("http://localhost" ++ "/health")%string
              = (d, Responds 200).
Proof.
  apply (verify_deployment_true_iff_probe_200 world_warming_up live
           "http://localhost" initial true
           (verify_deployment world_warming_up live "http://localhost"
                              initial).2);
    [reflexivity|vm_compute; reflexivity].
Defined.

(** ** [deploy] *)

(** [deploy] answers what its steps return, and [False] when they raise;
    besides the steps it only writes log records. *)
Lemma deploy_outcome W self skip_build skip_terraform s :
  exists lg,
    effects lg = [] /\
    deploy W self skip_build skip_terraform s =
    (Ok match (deploy_steps W self skip_build skip_terraform
                            (started self s)).1 with
        | Ok b => b
        | Raise _ => false
        end,
     logged lg (deploy_steps W self skip_build skip_terraform
                             (started self s)).2).
Proof.
  unfold deploy, try_except, bind, logger, emit, modify, ret.
  cbn [now calls trace]. rewrite <- app_assoc. cbn [app].
  fold (start_logs self). fold (started self s).
  destruct (deploy_steps W self skip_build skip_terraform (started self s))
    as [[b|e] [t k tr]]; cbn [fst snd].
  - exists []. split; [reflexivity|]. unfold logged. cbn.
    rewrite app_nil_r. reflexivity.
  - cbn [find_handler existsb].
    destruct (isinstance e DeploymentError || false).
    + eexists. split; [|reflexivity]. reflexivity.
    + rewrite isinstance_Exception. cbn.
      eexists. split; [|reflexivity]. reflexivity.
Qed.

Lemma update_ecs_service_needs_names W self cluster service image s s' :
  update_ecs_service W self cluster service image s = (Ok tt, s') ->
  exists c sv, cluster = JStr c /\ service = JStr sv.
Proof.
  unfold update_ecs_service. log_step. unfold bind at 1.
  destruct cluster as [| | | |c| |];
    try (unfold run_command at 1, bind at 1, lift at 1; cbn; discriminate).
  destruct service as [| | | |sv| |];
    try (unfold run_command at 1, bind at 1, lift at 1; cbn; discriminate).
  eauto.
Qed.

Lemma verify_deployment_returns W self url s b s' :
  dry_run self = false ->
  verify_deployment W self url s = (Ok b, s') ->
  if b
  then exists k d, (k < 5)%nat /\
                   open_url W (calls s + k) (url ++ "/health")%string
                   = (d, Responds 200)
  else forall k d, (k < 5)%nat ->
                   open_url W (calls s + k) (url ++ "/health")%string
                   <> (d, Responds 200).
Proof.
  intros Hdry. unfold verify_deployment. rewrite Hdry.
  set (loop := for_each (seq 0 5) _).
  unfold bind, logger, emit, modify. cbn beta.
  match goal with
  | |- context [loop ?s1] =>
      pose proof (probe_loop_returns W (url ++ "/health")%string 5 0%nat s1)
        as Hloop;
      fold loop in Hloop; destruct (loop s1) as [[[b0|]|e] s2];
      [| |discriminate]
  end.
  - intros [= <- <-]. specialize (Hloop _ _ eq_refl).
    destruct Hloop as (-> & Hk). exact Hk.
  - cbn. intros [= <- <-]. exact (Hloop _ _ eq_refl).
Qed.

Lemma wait_for_deployment_returns_true W self cluster service timeout s s' :
  dry_run self = false ->
  wait_for_deployment W self (JStr cluster) (JStr service) timeout s
  = (Ok true, s') ->
  exists k d ds,
    (calls s <= k)%nat /\ calls s' = S k /\
    fetched W k (describe_services cluster service) = Some (d, ds) /\
    exactly_one_completed ds = true.
Proof.
  intros Hdry. unfold wait_for_deployment. rewrite Hdry.
  unfold bind, logger, emit, modify, time_time. cbn beta iota.
  cbn [now calls trace].
  intros Hloop.
  exact (wait_loop_true_only_if_completed W self cluster service (now s)
           timeout _ Hdry _ s' (Nat.le_refl _) Hloop).
Qed.

(** X26.  Outside a dry run [deploy] answers [True] only if the
    prerequisite check passed, a query of the service then fetched a
    descriptor with exactly one deployment in state 'COMPLETED', and after
    that query a probe of the health URL got status 200. *)
Theorem deploy_true_means_completed_and_healthy W self skip_build
  skip_terraform s s' :
  dry_run self = false ->
  deploy W self skip_build skip_terraform s = (Ok true, s') ->
  prerequisites_met W (calls s) = true /\
  exists cluster service url kq d ds kp dp,
    fetched W kq (describe_services cluster service) = Some (d, ds) /\
    exactly_one_completed ds = true /\
    (kq < kp)%nat /\
    open_url W kp (url ++ "/health")%string = (dp, Responds 200).
Proof.
  intros Hdry Hdeploy.
  destruct (deploy_outcome W self skip_build skip_terraform s)
    as (lg & _ & Hout).
  rewrite Hout in Hdeploy. clear Hout.
  assert (Hsteps : (deploy_steps W self skip_build skip_terraform
                                 (started self s)).1 = Ok true).
  { destruct (deploy_steps W self skip_build skip_terraform (started self s))
      as [[[|]|e] s1]; cbn in *; congruence. }
  clear Hdeploy. revert Hsteps. unfold deploy_steps.
  unfold bind at 1.
  destruct (check_prerequisites W self (started self s))
    as [[[|]|e] s1] eqn:Hpre; cbn [negb]; try discriminate.
  assert (Hmet : prerequisites_met W (calls s) = true).
  { apply (check_prerequisites_true_iff W self (started self s)).
    rewrite Hpre. reflexivity. }
  unfold bind at 1.
  destruct ((if negb skip_terraform then deploy_terraform W self else ret [])
              s1) as [[outputs|e] s2]; [|discriminate].
  unfold bind at 1.
  match goal with
  | |- context [(if negb skip_build then ?m else ?n) s2] =>
      destruct ((if negb skip_build then m else n) s2)
        as [[ecr_image|e] s3]; [|discriminate]
  end.
  unfold bind at 1.
  match goal with
  | |- context [update_ecs_service W self ?c ?sv ecr_image s3] =>
      destruct (update_ecs_service W self c sv ecr_image s3)
        as [[[]|e] s4] eqn:Hupd; [|discriminate];
      destruct (update_ecs_service_needs_names _ _ _ _ _ _ _ Hupd)
        as (cluster & service & Hc & Hsv);
      rewrite Hc, Hsv
  end.
  unfold bind at 1.
  destruct (wait_for_deployment W self (JStr cluster) (JStr service) 600 s4)
    as [[[|]|e] s5] eqn:Hwait; cbn [negb]; try discriminate.
  unfold bind at 1.
  match goal with
  | |- context [verify_deployment W self ?url s5] =>
      destruct (verify_deployment W self url s5)
        as [[[|]|e] s6] eqn:Hver; cbn [negb]; try discriminate;
      pose proof (verify_deployment_returns _ _ _ _ _ _ Hdry Hver)
        as (k & dp & _ & Hprobe);
      pose (u := url)
  end.
  intros _.
  destruct (wait_for_deployment_returns_true _ _ _ _ _ _ _ Hdry Hwait)
    as (kq & d & ds & _ & Hcalls & Hf & Hone).
  split; [exact Hmet|].
  exists cluster, service, u, kq, d, ds, (calls s5 + k)%nat, dp.
  repeat split; auto. lia.
Qed.

(** X27.  When the prerequisite check does not pass, in a dry run or not,
    [deploy] answers [False] having run nothing but commands of that
    check: no Terraform, build, push or service command, no query, probe
    or sleep. *)
Theorem deploy_stops_when_prerequisites_fail W self skip_build
  skip_terraform s :
  prerequisites_met W (calls s) = false ->
  exists s' n,
    deploy W self skip_build skip_terraform s = (Ok false, s') /\
    (n <= 4)%nat /\
    effects (trace s') =
      effects (trace s) ++ map probe_event (take n prerequisite_probes).
Proof.
  intros Hmet.
  destruct (deploy_outcome W self skip_build skip_terraform s)
    as (lg & Hlg & Hout).
  destruct (check_prerequisites_effects W self (started self s))
    as (n & t & Hn & Ht & _ & He & _).
  assert (Hpre : (check_prerequisites W self (started self s)).1 <> Ok true).
  { intros H. apply check_prerequisites_true_iff in H. cbn [calls started] in H.
    congruence. }
  assert (Hsteps :
            deploy_steps W self skip_build skip_terraform (started self s) =
            (match (check_prerequisites W self (started self s)).1 with
             | Ok _ => Ok false
             | Raise e => Raise e
             end, (check_prerequisites W self (started self s)).2)).
  { unfold deploy_steps. unfold bind at 1.
    destruct (check_prerequisites W self (started self s)) as [[[|]|e] s1];
      [exfalso; apply Hpre; reflexivity|reflexivity|reflexivity]. }
  rewrite Hsteps in Hout. cbn [fst snd] in Hout.
  exists (logged lg (check_prerequisites W self (started self s)).2), n.
  split.
  - rewrite Hout.
    destruct (check_prerequisites W self (started self s)).1 as [[|]|e];
      reflexivity.
  - split; [lia|]. unfold logged. cbn [trace]. rewrite Ht.
    rewrite !trace_effects_app, Hlg, He, app_nil_r.
    unfold started, start_logs. cbn [trace]. rewrite trace_effects_app. cbn.
    rewrite app_nil_r. reflexivity.
Qed.

Lemma deploy_stops_when_prerequisites_fail_witness :
  exists s' n,
    deploy world_no_docker live false false initial = (Ok false, s') /\
    (n <= 4)%nat /\
    effects (trace s') =
      effects (trace initial) ++ map probe_event (take n prerequisite_probes).
Proof.
  apply (deploy_stops_when_prerequisites_fail world_no_docker live false
           false initial).
  reflexivity.
Defined.
Lemma deploy_true_means_completed_and_healthy_witness :
  prerequisites_met world_deployable (calls initial) = true /\
  exists cluster service url kq d ds kp dp,
    fetched world_deployable kq (describe_services cluster service)
    = Some (d, ds) /\
    exactly_one_completed ds = true /\
    (kq < kp)%nat /\
    open_url world_deployable kp (url ++ "/health")%string
    = (dp, Responds 200).
Proof.
  apply (deploy_true_means_completed_and_healthy world_deployable live
           true true initial
           (deploy world_deployable live true true initial).2);
    [reflexivity|vm_compute; reflexivity].
Defined.

(** ** [main] *)

Lemma lower_y response :
  lower response = "y" <-> response = "y" \/ response = "Y".
Proof.
  destruct response as [|c [|c' r]]; cbn.
  - split; [discriminate|intros [|]; discriminate].
  - destruct c as [[] [] [] [] [] [] [] []]; cbn;
      (split; [intros H; try discriminate H; auto
              |intros [H|H]; try discriminate H; reflexivity]).
  - split; [discriminate|intros [|]; discriminate].
Qed.

(** [main] from the construction of the [Deployer] on. *)
Lemma main_runs_deployment W args s :
  In (arg_environment args) VALID_ENVIRONMENTS ->
  exists b s',
    deployment W args (now s) s = (Ok b, s') /\
    (bind (Deployer_init (arg_environment args) (arg_dry_run args))
          (fun deployer =>
             bind (deploy W deployer (arg_skip_build args)
                          (arg_skip_terraform args))
                  (fun success : bool => ret (if success then 0 else 1)))) s
    = (Ok (exit_status b), s').
Proof.
  intros Henv. unfold deployment.
  set (self := mkDeployer (arg_environment args) (arg_dry_run args) (now s)).
  destruct (deploy_outcome W self (arg_skip_build args)
              (arg_skip_terraform args) s) as (lg & _ & Hout).
  do 2 eexists. split; [exact Hout|].
  unfold bind at 1. unfold Deployer_init.
  rewrite (valid_environment _ Henv). cbn [negb].
  unfold bind at 1, utcnow, time_time. cbn [ret]. fold self.
  unfold bind at 1. rewrite Hout. reflexivity.
Qed.

(** X28.  For a deployment that needs no confirmation, to 'dev' or
    'staging' or in a dry run, [main] never raises: it runs [deploy] on a
    [Deployer] for the command line and exits with status 0 when
    [deploy] answers [True] and with status 1 otherwise. *)
Theorem main_exit_status_reflects_deploy W args s :
  In (arg_environment args) VALID_ENVIRONMENTS ->
  (arg_environment args = "prod" -> arg_dry_run args = true) ->
  exists b s',
    deployment W args (now s) s = (Ok b, s') /\
    main W args s = (Ok (exit_status b), s').
Proof.
  intros Henv Hprod.
  destruct (main_runs_deployment W args s Henv) as (b & s' & Hd & Hm).
  exists b, s'. split; [exact Hd|].
  unfold main.
  replace (String.eqb (arg_environment args) "prod" &&
           negb (arg_dry_run args)) with false.
  - unfold bind at 1. cbn [ret]. exact Hm.
  - destruct (String.eqb (arg_environment args) "prod") eqn:E;
      [|reflexivity].
    apply String.eqb_eq in E. rewrite (Hprod E). reflexivity.
Qed.

Lemma main_exit_status_reflects_deploy_witness :
  exists b s',
    deployment world_deployable dev_service_only (now initial) initial
    = (Ok b, s') /\
    main world_deployable dev_service_only initial = (Ok (exit_status b), s').
Proof.
  apply (main_exit_status_reflects_deploy world_deployable dev_service_only
           initial); [cbn; auto|discriminate].
Defined.

(** X29.  At the confirmation prompt of a production deployment exactly
    the answers 'y' and 'Y' confirm: after one of them [main] runs the
    deployment and exits with its status; after any other line it exits
    with status 0 having done nothing else. *)
Theorem main_production_confirmed_by_y W args s delay response :
  arg_environment args = "prod" ->
  arg_dry_run args = false ->
  read_line W (calls s) = (delay, Some response) ->
  (response = "y" \/ response = "Y" ->
   exists b s',
     deployment W args (now (prompted s delay)) (prompted s delay)
     = (Ok b, s') /\
     main W args s = (Ok (exit_status b), s')) /\
  (~ (response = "y" \/ response = "Y") ->
   main W args s =
   (Ok 0, log_event (EvLog INFO [Lit "Deployment cancelled"])
                    (prompted s delay))).
Proof.
  intros Henv Hdry Hline.
  assert (Hvalid : In (arg_environment args) VALID_ENVIRONMENTS).
  { rewrite Henv. cbn. auto. }
  split; intros Hy;
    unfold main; rewrite Henv, Hdry;
    cbn [String.eqb Ascii.eqb Bool.eqb andb negb];
    unfold bind at 1; unfold bind at 1; unfold input, bind at 1, external;
    rewrite Hline; cbn [ret]; fold confirmation_prompt;
    fold (prompted s delay).
  - apply lower_y in Hy. rewrite Hy. cbn [String.eqb Ascii.eqb Bool.eqb negb].
    cbn [ret].
    destruct (main_runs_deployment W args (prompted s delay) Hvalid)
      as (b & s' & Hd & Hm).
    exists b, s'. split; [exact Hd|]. rewrite Henv, Hdry in Hm. exact Hm.
  - destruct (String.eqb (lower response) "y") eqn:E.
    + apply String.eqb_eq, lower_y in E. contradiction.
    + reflexivity.
Qed.

Lemma main_production_confirmed_by_y_witness :
  ("Y" = "y" \/ "Y" = "Y" ->
   exists b s',
     deployment world_deployable
                (mkArguments "prod" false true true false)
                (now (prompted initial 2)) (prompted initial 2)
     = (Ok b, s') /\
     main world_deployable (mkArguments "prod" false true true false)
          initial = (Ok (exit_status b), s')) /\
  (~ ("Y" = "y" \/ "Y" = "Y") ->
   main world_deployable (mkArguments "prod" false true true false) initial =
   (Ok 0, log_event (EvLog INFO [Lit "Deployment cancelled"])
                    (prompted initial 2))).
Proof.
  apply (main_production_confirmed_by_y world_deployable
           (mkArguments "prod" false true true false) initial 2%N "Y");
    reflexivity.
Defined.

(** X30.  When the standard input is closed at the confirmation prompt,
    [main] ends with [EOFError]: it has prompted and done nothing else,
    and no exit status is set. *)
Theorem main_production_prompt_end_of_input W args s delay :
  arg_environment args = "prod" ->
  arg_dry_run args = false ->
  read_line W (calls s) = (delay, None) ->
  main W args s =
  (Raise (new_exc EOFError "EOF when reading a line"), prompted s delay).
Proof.
  intros Henv Hdry Hline.
  unfold main. rewrite Henv, Hdry. cbn [String.eqb Ascii.eqb Bool.eqb andb negb].
  unfold bind at 1. unfold bind at 1. unfold input, bind at 1, external.
  rewrite Hline. reflexivity.
Qed.

Lemma main_production_prompt_end_of_input_witness :
  main world_unattended (mkArguments "prod" false false false false) initial
  = (Raise (new_exc EOFError "EOF when reading a line"), prompted initial 0).
Proof.
  apply (main_production_prompt_end_of_input world_unattended
           (mkArguments "prod" false false false false) initial 0%N);
    reflexivity.
Defined.
End PipelineProofs.
